(** * Clover sales report: a shallow embedding of [clover.py]

    The script fetches batch (closeout) records from the Clover REST API,
    keeps those of a requested month, sums them per calendar day and writes
    CSV reports.  This development embeds the script as Rocq functions:

    - JSON values as Python sees them after [response.json()] (dicts as
      finite maps, Python truthiness, [dict.get] with a default);
    - exceptions as an explicit [result] type, the effects of the script
      (standard output, HTTP requests, written files) as a state monad over
      a record of the three logs;
    - amounts as exact rationals ([Qc]): Python's [/] on integers is true
      division, and the properties below are stated under exact arithmetic;
    - the parts of [datetime], [calendar], [requests] and [os] the script
      calls, following their documented behaviour.

    [get_batch_details], [view_single_batch] and [save_to_file], which
    [main] does not reach, come after the rest of the script. *)

From Stdlib Require Import ZArith QArith Qcanon Lia Ascii.
From stdpp Require Import gmap strings list pretty.

Local Open Scope string_scope.
Local Open Scope Z_scope.

(** ** Python values, exceptions *)

(** What [json.loads] builds.  JSON numbers are the integers the API sends
    (epoch milliseconds, amounts in cents, counts); [bool] is a subclass of
    [int] in Python and is kept apart here. *)
#[warnings="-register-all"]
Inductive json :=
| JNull
| JBool (b : bool)
| JInt (n : Z)
| JStr (s : string)
| JArr (l : list json)
| JObj (o : gmap string json).

(** The exceptions the script can meet.  The first three are subclasses of
    [requests.exceptions.RequestException] ([response.json()] raises the
    third one since requests 2.27). *)
Inductive exn :=
| HTTPError (status : Z) (body : string)
| ConnectionError (msg : string)
| JSONDecodeError
| AttributeError
| TypeError
| ValueError
| OverflowError
| KeyError
| OSError.

Definition is_RequestException (e : exn) : bool :=
  match e with
  | HTTPError _ _ | ConnectionError _ | JSONDecodeError => true
  | _ => false
  end.

Inductive result (A : Type) :=
| Ok (a : A)
| Raise (e : exn).
Arguments Ok {A} a.
Arguments Raise {A} e.

#[global] Instance result_ret : MRet result := fun A a => Ok a.
#[global] Instance result_bind : MBind result := fun A B f m =>
  match m with
  | Ok a => f a
  | Raise e => Raise e
  end.

Definition is_Ok {A} (r : result A) : Prop := ∃ a, r = Ok a.

(** [if v:] *)
Definition truthy (v : json) : bool :=
  match v with
  | JNull => false
  | JBool b => b
  | JInt n => negb (n =? 0)%Z
  | JStr s => negb (String.eqb s "")
  | JArr l => negb (bool_decide (l = []))
  | JObj o => negb (bool_decide (o = ∅))
  end.

(** [d.get(key, default)]: only a dict has the method. *)
Definition py_get (d : json) (key : string) (dflt : json) : result json :=
  match d with
  | JObj o => Ok (default dflt (o !! key))
  | _ => Raise AttributeError
  end.

(** The value of an operand of [/] or [>]: an integer, [bool] counting as
    0/1; any other operand is a [TypeError]. *)
Definition py_int_of (v : json) : result Z :=
  match v with
  | JInt n => Ok n
  | JBool b => Ok (if b then 1 else 0)
  | _ => Raise TypeError
  end.

Definition Qc_of_Z (n : Z) : Qc := Q2Qc (inject_Z n).

(** [v / d] for an integer constant [d]: true division, kept exact. *)
Definition py_truediv (v : json) (d : Z) : result Qc :=
  n ← py_int_of v; Ok (Qc_of_Z n / Qc_of_Z d)%Qc.

(** [v > 0] *)
Definition py_gt0 (v : json) : result bool :=
  n ← py_int_of v; Ok (0 <? n).

(** ** Decimal formatting *)

Fixpoint zeros (n : nat) : string :=
  match n with
  | O => ""
  | S n => "0" +:+ zeros n
  end.

Definition zfill (width : nat) (s : string) : string :=
  zeros (width - String.length s) +:+ s.

(** [f"{n}"] *)
Definition fmt_d (n : Z) : string := pretty n.

(** [f"{n:02d}"], also what [%m] and [%d] print for a month or a day. *)
Definition fmt_02d (n : Z) : string :=
  if 0 <=? n then zfill 2 (pretty n) else pretty n.

(** [%Y] as the C library under the script prints it: the year in
    decimal, without padding, so that the year 999 reads [999]. *)
Definition fmt_Y (year : Z) : string := pretty year.

(** ** [calendar] *)

Definition isleap (year : Z) : bool :=
  (year mod 4 =? 0) && (negb (year mod 100 =? 0) || (year mod 400 =? 0)).

Definition mdays (month : Z) : Z :=
  match month with
  | 1 => 31 | 2 => 28 | 3 => 31 | 4 => 30 | 5 => 31 | 6 => 30
  | 7 => 31 | 8 => 31 | 9 => 30 | 10 => 31 | 11 => 30 | 12 => 31
  | _ => 0
  end.

(** The number of days of a month, for a month in 1..12. *)
Definition days_in_month (year month : Z) : Z :=
  mdays month + (if (month =? 2) && isleap year then 1 else 0).

(** [calendar.monthrange(year, month)[1]]; a month outside 1..12 raises
    [IllegalMonthError], a [ValueError]. *)
Definition monthrange_ndays (year month : Z) : result Z :=
  if (1 <=? month) && (month <=? 12) then Ok (days_in_month year month)
  else Raise ValueError.

Definition month_name (month : Z) : string :=
  match month with
  | 1 => "January" | 2 => "February" | 3 => "March" | 4 => "April"
  | 5 => "May" | 6 => "June" | 7 => "July" | 8 => "August"
  | 9 => "September" | 10 => "October" | 11 => "November"
  | 12 => "December"
  | _ => ""
  end.

(** ** [datetime]: naive date-times in the proleptic Gregorian calendar *)

Definition MINYEAR : Z := 1.
Definition MAXYEAR : Z := 9999.
Definition _MAXORDINAL : Z := 3652059.

Record datetime := mk_datetime {
  dt_year : Z; dt_month : Z; dt_day : Z;
  dt_hour : Z; dt_minute : Z; dt_second : Z; dt_microsecond : Z
}.

Definition days_before_year (y : Z) : Z :=
  (y - 1) * 365 + (y - 1) / 4 - (y - 1) / 100 + (y - 1) / 400.

Definition _DAYS_BEFORE_MONTH (m : Z) : Z :=
  match m with
  | 1 => 0 | 2 => 31 | 3 => 59 | 4 => 90 | 5 => 120 | 6 => 151
  | 7 => 181 | 8 => 212 | 9 => 243 | 10 => 273 | 11 => 304 | 12 => 334
  | _ => -1
  end.

Definition days_before_month (y m : Z) : Z :=
  _DAYS_BEFORE_MONTH m + (if (2 <? m) && isleap y then 1 else 0).

(** Day 1 is 0001-01-01. *)
Definition _ymd2ord (y m d : Z) : Z :=
  days_before_year y + days_before_month y m + d.

(** The last step of [_ord2ymd]: month and day from the day of the year
    (counted from 0). *)
Definition month_day_of_yday (leapyear : bool) (n : Z) : Z * Z :=
  let month := Z.shiftr (n + 50) 5 in
  let preceding :=
    _DAYS_BEFORE_MONTH month + (if (2 <? month) && leapyear then 1 else 0) in
  if n <? preceding then
    let month := month - 1 in
    let preceding :=
      preceding - (mdays month + (if (month =? 2) && leapyear then 1 else 0)) in
    (month, n - preceding + 1)
  else (month, n - preceding + 1).

Definition _ord2ymd (n : Z) : Z * Z * Z :=
  let n := n - 1 in
  let n400 := n / 146097 in
  let n := n mod 146097 in
  let n100 := n / 36524 in
  let n := n mod 36524 in
  let n4 := n / 1461 in
  let n := n mod 1461 in
  let n1 := n / 365 in
  let n := n mod 365 in
  let year := n400 * 400 + 1 + n100 * 100 + n4 * 4 + n1 in
  if (n1 =? 4) || (n100 =? 4) then (year - 1, 12, 31)
  else
    let leapyear := (n1 =? 3) && (negb (n4 =? 24) || (n100 =? 3)) in
    let '(month, day) := month_day_of_yday leapyear n in
    (year, month, day).

(** [datetime(year, month, day)]: midnight of that day; fields out of range
    are a [ValueError]. *)
Definition datetime_ymd (y m d : Z) : result datetime :=
  if negb ((MINYEAR <=? y) && (y <=? MAXYEAR)) then Raise ValueError
  else if negb ((1 <=? m) && (m <=? 12)) then Raise ValueError
  else if negb ((1 <=? d) && (d <=? days_in_month y m)) then Raise ValueError
  else Ok (mk_datetime y m d 0 0 0 0).

(** [dt - timedelta(seconds=s)] *)
Definition sub_seconds (dt : datetime) (s : Z) : result datetime :=
  let secs := dt_hour dt * 3600 + dt_minute dt * 60 + dt_second dt - s in
  let days := _ymd2ord (dt_year dt) (dt_month dt) (dt_day dt) + secs / 86400 in
  let secs := secs mod 86400 in
  if (0 <? days) && (days <=? _MAXORDINAL) then
    let '(y, m, d) := _ord2ymd days in
    Ok (mk_datetime y m d (secs / 3600) (secs mod 3600 / 60) (secs mod 60)
          (dt_microsecond dt))
  else Raise OverflowError.

(** Naive date-times compare field by field, the year first. *)
Definition dt_key (dt : datetime) : list Z :=
  [dt_year dt; dt_month dt; dt_day dt;
   dt_hour dt; dt_minute dt; dt_second dt; dt_microsecond dt].

Fixpoint lex_compare (a b : list Z) : comparison :=
  match a, b with
  | [], [] => Eq
  | [], _ => Lt
  | _, [] => Gt
  | x :: a, y :: b =>
      match x ?= y with
      | Eq => lex_compare a b
      | c => c
      end
  end.

Definition dt_leb (a b : datetime) : bool :=
  match lex_compare (dt_key a) (dt_key b) with Gt => false | _ => true end.

Definition dt_ltb (a b : datetime) : bool :=
  match lex_compare (dt_key a) (dt_key b) with Lt => true | _ => false end.

(** [dt.strftime('%Y-%m-%d')] *)
Definition strftime_Ymd (dt : datetime) : string :=
  fmt_Y (dt_year dt) +:+ "-" +:+ fmt_02d (dt_month dt) +:+ "-"
  +:+ fmt_02d (dt_day dt).

(** The local time zone: the offset from UTC, in seconds, in force at a
    given instant (seconds since the epoch). *)
Definition timezone := Z → Z.

(** The local year of an instant (seconds since the epoch), and whether
    [datetime] has that year. *)
Definition local_year (tz : timezone) (secs : Z) : Z :=
  let '(y, _, _) := _ord2ymd ((secs + tz secs) / 86400 + 719163) in y.

Definition year_in_range (tz : timezone) (secs : Z) : bool :=
  (MINYEAR <=? local_year tz secs) && (local_year tz secs <=? MAXYEAR).

(** [datetime.fromtimestamp(ms / 1000)] for an integer number [ms] of
    milliseconds since the epoch: the local date and time of that instant.
    The seconds are floored, the rest goes to the microsecond field; a year
    outside [MINYEAR..MAXYEAR] is an error.  To tell the two readings of a
    repeated local hour apart, the function also takes the local time of
    the instant 24 hours earlier and, when the offset has dropped in
    between, of the instant earlier by that drop: a year out of range
    there is an error as well, so that the first day of the year 1 is
    refused. *)
Definition fromtimestamp_ms (tz : timezone) (ms : Z) : result datetime :=
  let secs := ms / 1000 in
  let us := ms mod 1000 * 1000 in
  let local := secs + tz secs in
  let '(y, m, d) := _ord2ymd (local / 86400 + 719163) in
  let sod := local mod 86400 in
  let transition := tz secs - tz (secs - 86400) in
  if (MINYEAR <=? y) && (y <=? MAXYEAR)
     && year_in_range tz (secs - 86400)
     && ((0 <=? transition) || year_in_range tz (secs + transition))
  then
    Ok (mk_datetime y m d (sod / 3600) (sod mod 3600 / 60) (sod mod 60) us)
  else Raise ValueError.

Definition UTC : timezone := fun _ => 0.

(** [key in d] and [d[key]]; in the script both are applied to the batch
    after [batch.get] has succeeded on it, that is, to a dict. *)
Definition py_in (key : string) (d : json) : result bool :=
  match d with
  | JObj o => Ok (bool_decide (is_Some (o !! key)))
  | _ => Raise TypeError
  end.

Definition py_getitem (d : json) (key : string) : result json :=
  match d with
  | JObj o => match o !! key with Some v => Ok v | None => Raise KeyError end
  | _ => Raise TypeError
  end.

(** ** The per-batch summary *)

Record Row := mk_row { date : string; debit : Qc; tip : Qc; total : Qc }.

(** The date of the batch (lines 158-162 of [clover.py]). *)
Definition created_date_of (tz : timezone) (created_time : json) : result string :=
  if truthy created_time then
    ms ← py_int_of created_time;
    dt ← fromtimestamp_ms tz ms;
    Ok (strftime_Ymd dt)
  else Ok "Unknown".

(** The amounts [(sales_amount, tip_amount, debit)] of the batch (lines
    164-185). *)
Definition batch_amounts (batch : json) : result (Qc * Qc * Qc) :=
  has_details ← py_in "batchDetails" batch;
  details ← (if has_details : bool then py_getitem batch "batchDetails" else Ok JNull);
  if has_details && truthy details then
    batch_totals ← py_get details "batchTotals" (JObj ∅);
    if truthy batch_totals then
      sales ← py_get batch_totals "sales" (JObj ∅);
      sales_amount ←
        (if truthy sales then
           t ← py_get sales "total" (JInt 0); py_truediv t 100
         else Ok 0%Qc);
      tips ← py_get batch_totals "tips" (JObj ∅);
      has_tips ←
        (if truthy tips then
           c ← py_get tips "count" (JInt 0); py_gt0 c
         else Ok false);
      tip_amount ←
        (if has_tips : bool then
           t ← py_get tips "total" (JInt 0); py_truediv t 100
         else Ok 0%Qc);
      Ok (sales_amount, tip_amount, (sales_amount - tip_amount)%Qc)
    else Ok (0%Qc, 0%Qc, 0%Qc)
  else Ok (0%Qc, 0%Qc, 0%Qc).

(** [CloverAPI._format_single_batch].  The method reads nothing of [self];
    its only input besides the batch is the local time zone, through
    [datetime.fromtimestamp]. *)
Definition _format_single_batch (tz : timezone) (batch : json) : result Row :=
  created_time ← py_get batch "createdTime" (JInt 0);
  created_date ← created_date_of tz created_time;
  '(sales_amount, tip_amount, debit) ← batch_amounts batch;
  Ok {| date := created_date; debit := debit;
        tip := tip_amount; total := sales_amount |}.

(** *** The batch record as the data model describes it *)

(** The value under a path of keys, [None] when a level is missing: the key
    is absent or the value above it is not an object. *)
Fixpoint at_path (v : json) (path : list string) : option json :=
  match path with
  | [] => Some v
  | k :: path =>
      match v with
      | JObj o => o !! k ≫= λ w, at_path w path
      | _ => None
      end
  end.

(** An integer field, 0 when missing. *)
Definition int_at (v : json) (path : list string) : Z :=
  match at_path v path with
  | Some (JInt n) => n
  | Some (JBool true) => 1
  | _ => 0
  end.

Definition sales_total (batch : json) : Z :=
  int_at batch ["batchDetails"; "batchTotals"; "sales"; "total"].
Definition tips_total (batch : json) : Z :=
  int_at batch ["batchDetails"; "batchTotals"; "tips"; "total"].
Definition tips_count (batch : json) : Z :=
  int_at batch ["batchDetails"; "batchTotals"; "tips"; "count"].

(** A level that is present holds an object, or a value Python treats as
    false ([null], an empty object); a number that is present is an
    integer. *)
Definition level_ok (o : option json) (inside : gmap string json → Prop) : Prop :=
  match o with
  | None => True
  | Some (JObj m) => inside m
  | Some v => truthy v = false
  end.

Definition int_ok (o : option json) : Prop :=
  match o with
  | None | Some (JInt _) | Some (JBool _) => True
  | Some _ => False
  end.

(** The time stamp, when present and not zero, is an integer that
    [fromtimestamp] accepts. *)
Definition created_ok (tz : timezone) (o : option json) : Prop :=
  match o with
  | None => True
  | Some v => truthy v = false ∨ ∃ ms, py_int_of v = Ok ms ∧ is_Ok (fromtimestamp_ms tz ms)
  end.

Definition amounts_ok (batch : gmap string json) : Prop :=
  level_ok (batch !! "batchDetails") (λ details,
    level_ok (details !! "batchTotals") (λ batch_totals,
      level_ok (batch_totals !! "sales") (λ sales, int_ok (sales !! "total")) ∧
      level_ok (batch_totals !! "tips") (λ tips,
        int_ok (tips !! "count") ∧ int_ok (tips !! "total")))).

Definition wf_batch (tz : timezone) (batch : json) : Prop :=
  match batch with
  | JObj o => created_ok tz (o !! "createdTime") ∧ amounts_ok o
  | _ => False
  end.

(** An amount in cents as an amount in currency units. *)
Definition cents (n : Z) : Qc := (Qc_of_Z n / Qc_of_Z 100)%Qc.

(** ** The world outside the script, and its effects *)

Record Response := mk_response {
  status_code : Z;
  text : string;
  (** the body parsed as JSON, [None] when it is not JSON *)
  json_body : option json
}.

(** What [requests.get] meets: a response, whatever its status, or a
    failure below HTTP (DNS, connection, timeout). *)
Inductive http_outcome :=
| Answered (r : Response)
| NetworkFailure (msg : string).

Record Request := mk_request {
  req_url : string;
  req_headers : list (string * string)
}.

Record World := mk_world {
  (** the local time zone *)
  tz : timezone;
  (** [datetime.now()] *)
  today : datetime;
  (** the remote API: the outcome of the [n]-th request of the run *)
  http : nat → Request → http_outcome;
  (** [os.environ] *)
  environ : gmap string string;
  (** the attributes of [config.py], [None] when the module is missing *)
  config_module : option (gmap string string);
  (** whether [open(filename, 'w')] succeeds *)
  writable : string → bool
}.

(** A line of a written file: free text, or a row given to [csv.writer]. *)
Inductive line :=
| Text (s : string)
| CsvRow (fields : list string).

(** What a run leaves behind. *)
Record Output := mk_output {
  stdout : list string;
  stderr : list string;
  requests : list Request;
  files : list (string * list line)
}.

Definition no_output : Output := mk_output [] [] [] [].

(** Computations with effects: an outcome and the output so far; the
    output survives an exception. *)
Definition M (A : Type) : Type := Output → result A * Output.

#[global] Instance M_ret : MRet M := fun A a σ => (Ok a, σ).
#[global] Instance M_bind : MBind M := fun A B f m σ =>
  match m σ with
  | (Ok a, σ') => f a σ'
  | (Raise e, σ') => (Raise e, σ')
  end.

Definition lift {A} (r : result A) : M A := fun σ => (r, σ).
Definition raise {A} (e : exn) : M A := lift (Raise e).

(** [try: body except <caught>: handler] *)
Definition try_except {A} (body : M A) (caught : exn → bool)
    (handler : exn → M A) : M A := fun σ =>
  match body σ with
  | (Raise e, σ') => if caught e then handler e σ' else (Raise e, σ')
  | r => r
  end.

Definition except_Exception : exn → bool := fun _ => true.

Definition print (s : string) : M unit := fun σ =>
  (Ok (), mk_output (stdout σ ++ [s])%list (stderr σ) (requests σ) (files σ)).

Definition print_stderr (s : string) : M unit := fun σ =>
  (Ok (), mk_output (stdout σ) (stderr σ ++ [s])%list (requests σ) (files σ)).

(** [str(e)]; the wording is the library's. *)
Definition exn_str (e : exn) : string :=
  match e with
  | HTTPError status _ => fmt_d status +:+ " Error"
  | ConnectionError msg => msg
  | JSONDecodeError => "Expecting value"
  | AttributeError => "object has no attribute"
  | TypeError => "unsupported operand type"
  | ValueError => "value out of range"
  | OverflowError => "date value out of range"
  | KeyError => "key"
  | OSError => "cannot open file"
  end.

(** [e.response.text] when the exception carries a response. *)
Definition exn_response_text (e : exn) : option string :=
  match e with
  | HTTPError _ body => Some body
  | _ => None
  end.

(** [requests.get(url, headers=..., params=None)] *)
Definition requests_get (w : World) (url : string)
    (hdrs : list (string * string)) : M Response := fun σ =>
  let req := mk_request url hdrs in
  let σ' := mk_output (stdout σ) (stderr σ) (requests σ ++ [req])%list (files σ) in
  match http w (length (requests σ)) req with
  | Answered r => (Ok r, σ')
  | NetworkFailure msg => (Raise (ConnectionError msg), σ')
  end.

(** [response.raise_for_status()]: the client and server error statuses
    raise, every other status passes. *)
Definition raise_for_status (r : Response) : result unit :=
  if (400 <=? status_code r) && (status_code r <? 600)
  then Raise (HTTPError (status_code r) (text r))
  else Ok ().

(** [response.json()] *)
Definition response_json (r : Response) : result json :=
  match json_body r with
  | Some j => Ok j
  | None => Raise JSONDecodeError
  end.

(** [open(filename, 'w', ...)] and the writes of the [with] block. *)
Definition write_file (w : World) (filename : string) (content : list line)
    : M unit := fun σ =>
  if writable w filename then
    (Ok (), mk_output (stdout σ) (stderr σ) (requests σ)
              (files σ ++ [(filename, content)])%list)
  else (Raise OSError, σ).

(** ** The API client *)

Record CloverAPI := mk_api {
  access_token : string;
  merchant_id : string;
  base_url : string;
  headers : list (string * string)
}.

(** [s.rstrip('/')] *)
Fixpoint rstrip_slash_aux (l : list Ascii.ascii) : list Ascii.ascii :=
  match l with
  | [] => []
  | c :: l =>
      match rstrip_slash_aux l with
      | [] => if Ascii.eqb c "/"%char then [] else [c]
      | l' => c :: l'
      end
  end.

Definition rstrip_slash (s : string) : string :=
  String.string_of_list_ascii
    (rstrip_slash_aux (String.list_ascii_of_string s)).

Definition production_url : string := "https://api.clover.com".

(** [CloverAPI.__init__] *)
Definition CloverAPI_init (token merchant url : string) : CloverAPI :=
  {| access_token := token;
     merchant_id := merchant;
     base_url := rstrip_slash url;
     headers := [("Authorization", "Bearer " +:+ token);
                 ("Content-Type", "application/json")] |}.

(** [CloverAPI._make_request] *)
Definition _make_request (w : World) (self : CloverAPI) (endpoint : string)
    : M json :=
  let url := base_url self +:+ "/v3/merchants/" +:+ merchant_id self
             +:+ endpoint in
  try_except
    (response ← requests_get w url (headers self);
     _ ← lift (raise_for_status response);
     lift (response_json response))
    is_RequestException
    (fun e =>
       _ ← print ("API request failed: " +:+ exn_str e);
       _ ← match exn_response_text e with
           | Some body => print ("Response content: " +:+ body)
           | None => mret ()
           end;
       raise e).

(** [for batch in all_batches]: what iterating over a value yields. *)
Definition py_iter (v : json) : result (list json) :=
  match v with
  | JArr l => Ok l
  | JObj o => Ok (JStr <$> (map_to_list o).*1)
  | JStr s => Ok ((fun c => JStr (String c "")) <$> String.list_ascii_of_string s)
  | _ => Raise TypeError
  end.

(** The loop of [get_closeouts_by_month] (lines 93-99): a batch is kept
    when it has a time stamp whose local year and month are the requested
    ones. *)
Definition batch_in_month (tz : timezone) (year month : Z) (batch : json)
    : result bool :=
  batch_timestamp ← py_get batch "createdTime" (JInt 0);
  if truthy batch_timestamp then
    ms ← py_int_of batch_timestamp;
    batch_date ← fromtimestamp_ms tz ms;
    Ok ((dt_year batch_date =? year) && (dt_month batch_date =? month))
  else Ok false.

Fixpoint filter_batches (tz : timezone) (year month : Z)
    (all_batches : list json) : result (list json) :=
  match all_batches with
  | [] => Ok []
  | batch :: rest =>
      keep ← batch_in_month tz year month batch;
      filtered ← filter_batches tz year month rest;
      Ok (if keep : bool then batch :: filtered else filtered)
  end.

(** The first instant of the month after [year]-[month] (lines 77-80,
    before one second is taken off). *)
Definition next_month_start (year month : Z) : result datetime :=
  if month =? 12 then datetime_ymd (year + 1) 1 1
  else datetime_ymd year (month + 1) 1.

(** [start_date] and [end_date] (lines 76-80). *)
Definition month_window (year month : Z) : result (datetime * datetime) :=
  start_date ← datetime_ymd year month 1;
  next ← next_month_start year month;
  end_date ← sub_seconds next 1;
  Ok (start_date, end_date).

(** [CloverAPI.get_closeouts_by_month] *)
Definition get_closeouts_by_month (w : World) (self : CloverAPI)
    (year month : Z) : M (list json) :=
  '(start_date, end_date) ← lift (month_window year month);
  _ ← print ("Fetching batches/closeouts for " +:+ month_name month +:+ " "
             +:+ fmt_d year +:+ "...");
  _ ← print ("Date range: " +:+ strftime_Ymd start_date +:+ " to "
             +:+ strftime_Ymd end_date);
  try_except
    (response ← _make_request w self "/batches?limit=901";
     elements ← lift (py_get response "elements" (JArr []));
     all_batches ← lift (py_iter elements);
     lift (filter_batches (tz w) year month all_batches))
    except_Exception
    (fun e => _ ← print ("Error fetching batches: " +:+ exn_str e); mret []).

(** ** Aggregation by day *)

Definition zero_row (d : string) : Row :=
  {| date := d; debit := 0%Qc; tip := 0%Qc; total := 0%Qc |}.

(** [daily_data[date][...] += batch_info[...]] *)
Definition add_to_row (batch_info : Row) (r : Row) : Row :=
  {| date := date r;
     debit := (debit r + debit batch_info)%Qc;
     tip := (tip r + tip batch_info)%Qc;
     total := (total r + total batch_info)%Qc |}.

(** One turn of the grouping loop (lines 210-225). *)
Definition add_batch (tz : timezone) (daily_data : gmap string Row)
    (batch : json) : result (gmap string Row) :=
  batch_info ← _format_single_batch tz batch;
  let d := date batch_info in
  let daily_data :=
    match daily_data !! d with
    | None => <[d := zero_row d]> daily_data
    | Some _ => daily_data
    end in
  Ok (alter (add_to_row batch_info) d daily_data).

Fixpoint group_batches (tz : timezone) (daily_data : gmap string Row)
    (batches : list json) : result (gmap string Row) :=
  match batches with
  | [] => Ok daily_data
  | batch :: batches =>
      daily_data ← add_batch tz daily_data batch;
      group_batches tz daily_data batches
  end.

(** [f"{year}-{month:02d}-{day:02d}"] *)
Definition date_str (year month day : Z) : string :=
  fmt_d year +:+ "-" +:+ fmt_02d month +:+ "-" +:+ fmt_02d day.

(** One turn of the loop over the days (lines 231-242). *)
Definition day_row (daily_data : gmap string Row) (year month day : Z) : Row :=
  match daily_data !! date_str year month day with
  | Some r => r
  | None => zero_row (date_str year month day)
  end.

(** [CloverAPI.generate_monthly_csv_data] *)
Definition generate_monthly_csv_data (w : World) (self : CloverAPI)
    (year month : Z) : M (list Row) :=
  batches ← get_closeouts_by_month w self year month;
  daily_data ← lift (group_batches (tz w) ∅ batches);
  num_days ← lift (monthrange_ndays year month);
  mret (day_row daily_data year month <$> seqZ 1 num_days).

(** ** CSV export *)

(** [sum(...)]: from 0, left to right. *)
Definition py_sum (l : list Qc) : Qc := foldl Qcplus 0%Qc l.

(** The nearest integer, ties to the even one. *)
Definition round_half_even (x : Qc) : Z :=
  let n := Qnum (this x) in
  let d := Zpos (Qden (this x)) in
  let q := n / d in
  let r := n mod d in
  if 2 * r <? d then q
  else if d <? 2 * r then q + 1
  else if Z.even q then q else q + 1.

(** [f"{x:.2f}"] *)
Definition fmt_2f (x : Qc) : string :=
  let c := round_half_even (x * Qc_of_Z 100)%Qc in
  (if Qnum (this x) <? 0 then "-" else "")
  +:+ fmt_d (Z.abs c / 100) +:+ "." +:+ zfill 2 (fmt_d (Z.abs c mod 100)).

Definition csv_row (label : string) (d t s : Qc) : line :=
  CsvRow [label; fmt_2f d; fmt_2f t; fmt_2f s].

Definition csv_header : line := CsvRow ["date"; "debit"; "tip"; "total"].

Definition csv_of_row (row : Row) : line :=
  csv_row (date row) (debit row) (tip row) (total row).

(** [CloverAPI.export_monthly_csv] *)
Definition export_monthly_csv (w : World) (self : CloverAPI)
    (year month : Z) (filename : option string) : M string :=
  let filename :=
    match filename with
    | None => "clover_monthly_data_" +:+ fmt_d year +:+ "_"
              +:+ fmt_02d month +:+ ".csv"
    | Some f => f
    end in
  monthly_data ← generate_monthly_csv_data w self year month;
  let total_debit := py_sum (debit <$> monthly_data) in
  let total_tips := py_sum (tip <$> monthly_data) in
  let total_sales := py_sum (total <$> monthly_data) in
  _ ← write_file w filename
        ([Text "Belle Nails and Spa";
          Text ("Sales for the month of " +:+ month_name month +:+ " "
                +:+ fmt_d year);
          csv_header]
         ++ (csv_of_row <$> monthly_data)
         ++ [csv_row "TOTAL" total_debit total_tips total_sales])%list;
  _ ← print ("CSV file created: " +:+ filename);
  mret filename.

(** [", ".join(l)] and the like. *)
Fixpoint join (sep : string) (l : list string) : string :=
  match l with
  | [] => ""
  | [s] => s
  | s :: l => s +:+ sep +:+ join sep l
  end.

(** The loop that collects the months (lines 319-330): the rows so far and
    the three running totals. *)
Fixpoint collect_months (w : World) (self : CloverAPI)
    (year_months : list (Z * Z)) (acc : list Row * (Qc * Qc * Qc))
    : M (list Row * (Qc * Qc * Qc)) :=
  match year_months with
  | [] => mret acc
  | (year, month) :: rest =>
      let '(all_data, (grand_total_debit, grand_total_tips, grand_total_sales)) := acc in
      monthly_data ← generate_monthly_csv_data w self year month;
      let monthly_debit := py_sum (debit <$> monthly_data) in
      let monthly_tips := py_sum (tip <$> monthly_data) in
      let monthly_sales := py_sum (total <$> monthly_data) in
      collect_months w self rest
        ((all_data ++ monthly_data)%list,
         ((grand_total_debit + monthly_debit)%Qc,
          (grand_total_tips + monthly_tips)%Qc,
          (grand_total_sales + monthly_sales)%Qc))
  end.

(** [CloverAPI.export_multiple_months_csv] *)
Definition export_multiple_months_csv (w : World) (self : CloverAPI)
    (year_months : list (Z * Z)) (filename : option string) : M string :=
  let filename :=
    match filename with
    | None =>
        "clover_combined_months_"
        +:+ join "_" ((fun ym => fmt_d ym.1 +:+ "_" +:+ fmt_02d ym.2) <$> year_months)
        +:+ ".csv"
    | Some f => f
    end in
  '(all_data, (grand_total_debit, grand_total_tips, grand_total_sales)) ←
    collect_months w self year_months ([], (0%Qc, 0%Qc, 0%Qc));
  let months_header :=
    join ", " ((fun ym => month_name ym.2 +:+ " " +:+ fmt_d ym.1) <$> year_months) in
  _ ← write_file w filename
        ([Text "Belle Nails and Spa";
          Text ("Sales for the months of " +:+ months_header);
          csv_header]
         ++ (csv_of_row <$> all_data)
         ++ [csv_row "GRAND TOTAL" grand_total_debit grand_total_tips
               grand_total_sales])%list;
  _ ← print ("Multi-month CSV file created: " +:+ filename);
  mret filename.

(** ** Configuration *)

(** A resolved configuration: [os.getenv] gives [None] for a variable that
    is not set. *)
Record Config := mk_config {
  cfg_access_token : option string;
  cfg_merchant_id : option string;
  cfg_base_url : string
}.

(** [load_config_from_env] *)
Definition load_config_from_env (w : World) : Config :=
  {| cfg_access_token := environ w !! "CLOVER_ACCESS_TOKEN";
     cfg_merchant_id := environ w !! "CLOVER_MERCHANT_ID";
     cfg_base_url := default production_url (environ w !! "CLOVER_BASE_URL") |}.

(** [load_config_from_file] *)
Definition load_config_from_file (w : World) : M Config :=
  match config_module w with
  | Some config =>
      mret {| cfg_access_token := Some (default "" (config !! "CLOVER_ACCESS_TOKEN"));
              cfg_merchant_id := Some (default "" (config !! "CLOVER_MERCHANT_ID"));
              cfg_base_url := default production_url (config !! "CLOVER_BASE_URL") |}
  | None =>
      _ ← print "Warning: config.py file not found. Create one from config_template.py";
      mret {| cfg_access_token := Some "";
              cfg_merchant_id := Some "";
              cfg_base_url := production_url |}
  end.

(** ** The command line *)

(** The options as given; [argparse] supplies the defaults. *)
Record Argv := mk_argv {
  opt_year : option Z;
  opt_month : option string;
  opt_token : option string;
  opt_merchant : option string;
  opt_output : option string;
  opt_env : bool
}.

(** [if s:] for an optional string. *)
Definition str_truthy (s : option string) : bool :=
  match s with
  | Some s => negb (String.eqb s "")
  | None => false
  end.

(** [s.split(',')] *)
Fixpoint split_comma_aux (l : list Ascii.ascii) (cur : list Ascii.ascii)
    : list (list Ascii.ascii) :=
  match l with
  | [] => [rev cur]
  | c :: l =>
      if Ascii.eqb c ","%char then rev cur :: split_comma_aux l []
      else split_comma_aux l (c :: cur)
  end.

Definition split_comma (s : string) : list string :=
  String.string_of_list_ascii
    <$> split_comma_aux (String.list_ascii_of_string s) [].

(** [',' in s] *)
Definition has_comma (s : string) : bool :=
  existsb (fun c => Ascii.eqb c ","%char) (String.list_ascii_of_string s).

(** The ASCII characters [str.strip] and [int] treat as white space. *)
Definition is_space (c : Ascii.ascii) : bool :=
  let n := Z.of_nat (nat_of_ascii c) in
  ((9 <=? n) && (n <=? 13)) || ((28 <=? n) && (n <=? 32)).

Fixpoint lstrip (l : list Ascii.ascii) : list Ascii.ascii :=
  match l with
  | c :: l' => if is_space c then lstrip l' else l
  | [] => []
  end.

Definition strip_chars (l : list Ascii.ascii) : list Ascii.ascii :=
  rev (lstrip (rev (lstrip l))).

(** [s.strip()] *)
Definition strip (s : string) : string :=
  String.string_of_list_ascii (strip_chars (String.list_ascii_of_string s)).

Definition digit_of (c : Ascii.ascii) : option Z :=
  let n := Z.of_nat (nat_of_ascii c) in
  if (48 <=? n) && (n <=? 57) then Some (n - 48) else None.

(** Decimal digits, single underscores allowed between two digits. *)
Fixpoint digits_value (l : list Ascii.ascii) (acc : Z) (after_digit : bool)
    : option Z :=
  match l with
  | [] => if after_digit then Some acc else None
  | c :: l =>
      match digit_of c with
      | Some d => digits_value l (acc * 10 + d) true
      | None =>
          if Ascii.eqb c "_"%char && after_digit then digits_value l acc false
          else None
      end
  end.

(** The longest decimal numeral [int] converts (the default of
    [sys.set_int_max_str_digits]); leading zeros count. *)
Definition max_str_digits : Z := 4300.

Definition count_digits (l : list Ascii.ascii) : Z :=
  Z.of_nat (length (List.filter
                      (fun c => match digit_of c with
                                | Some _ => true
                                | None => false
                                end) l)).

(** [int(s)] for a string of ASCII characters: white space around, an
    optional sign, decimal digits, at most [max_str_digits] of them;
    anything else is a [ValueError]. *)
Definition py_int (s : string) : result Z :=
  let l := strip_chars (String.list_ascii_of_string s) in
  let '(sign, l) :=
    match l with
    | c :: l' =>
        if Ascii.eqb c "-"%char then (-1, l')
        else if Ascii.eqb c "+"%char then (1, l')
        else (1, l)
    | [] => (1, l)
    end in
  match digits_value l 0 false with
  | Some n =>
      if max_str_digits <? count_digits l then Raise ValueError
      else Ok (sign * n)
  | None => Raise ValueError
  end.

(** [[int(m.strip()) for m in pieces]] *)
Fixpoint int_each (pieces : list string) : result (list Z) :=
  match pieces with
  | [] => Ok []
  | m :: pieces =>
      n ← py_int (strip m);
      ns ← int_each pieces;
      Ok (n :: ns)
  end.

Definition month_in_range (month : Z) : bool :=
  (1 <=? month) && (month <=? 12).

(** The loop "validate all months" (lines 442-445): the first month out of
    range, if any. *)
Definition first_bad_month (year_months : list (Z * Z)) : option Z :=
  snd <$> List.find (fun ym => negb (month_in_range ym.2)) year_months.

(** How the parsing of [--month] ends (lines 428-449): with the list of
    months, or with the message printed before [main] returns. *)
Inductive months_outcome :=
| Months (year_months : list (Z * Z))
| Rejected (message : string).

Definition parse_months (arg_year : Z) (arg_month : string) : months_outcome :=
  let parsed : result months_outcome :=
    if has_comma arg_month then
      months ← int_each (split_comma arg_month);
      Ok (Months ((fun month => (arg_year, month)) <$> months))
    else
      month ← py_int arg_month;
      if negb (month_in_range month)
      then Ok (Rejected "Error: Month must be between 1 and 12")
      else Ok (Months [(arg_year, month)]) in
  match parsed with
  | Ok (Months year_months) =>
      match first_bad_month year_months with
      | Some month =>
          Rejected ("Error: Month " +:+ fmt_d month
                    +:+ " must be between 1 and 12")
      | None => Months year_months
      end
  | Ok (Rejected message) => Rejected message
  | Raise _ =>
      Rejected "Error: Invalid month format. Use single month (e.g., 6) or comma-separated (e.g., 1,2,3)"
  end.

(** The choice of the credentials (lines 451-467). *)
Definition resolve_credentials (w : World) (args : Argv) : M Config :=
  if opt_env args then mret (load_config_from_env w)
  else if str_truthy (opt_token args) && str_truthy (opt_merchant args) then
    mret {| cfg_access_token := opt_token args;
            cfg_merchant_id := opt_merchant args;
            cfg_base_url := production_url |}
  else load_config_from_file w.

Fixpoint print_all (lines : list string) : M unit :=
  match lines with
  | [] => mret ()
  | l :: lines => _ ← print l; print_all lines
  end.

Definition missing_credentials_help : list string :=
  ["Error: Missing required credentials.";
   "By default, the script tries to load from config.py file.";
   "Choose one of the following options:";
   "1. Create config.py with your credentials (recommended):";
   "   Copy config_template.py to config.py and fill in your credentials";
   "2. Use --env with environment variables:";
   "   CLOVER_ACCESS_TOKEN";
   "   CLOVER_MERCHANT_ID";
   "   CLOVER_BASE_URL (optional)";
   "3. Use --token and --merchant arguments for one-time use"].

(** The individual reports of the multi-month run (lines 501-505). *)
Fixpoint export_each (w : World) (clover : CloverAPI)
    (year_months : list (Z * Z)) : M (list string) :=
  match year_months with
  | [] => mret []
  | (year, month) :: rest =>
      let individual_filename :=
        "clover_monthly_data_" +:+ fmt_d year +:+ "_" +:+ fmt_02d month
        +:+ ".csv" in
      csv_file ← export_monthly_csv w clover year month (Some individual_filename);
      _ ← print ("  - " +:+ month_name month +:+ " " +:+ fmt_d year +:+ ": "
                 +:+ csv_file);
      files ← export_each w clover rest;
      mret (csv_file :: files)
  end.

(** The reports (lines 483-520). *)
Definition run_reports (w : World) (access_token merchant_id base_url : string)
    (year_months : list (Z * Z)) (output : option string) : M unit :=
  try_except
    (let clover := CloverAPI_init access_token merchant_id base_url in
     match year_months with
     | [(year, month)] =>
         _ ← print ("Generating CSV report for " +:+ month_name month +:+ " "
                    +:+ fmt_d year +:+ "...");
         csv_filename ← export_monthly_csv w clover year month output;
         print ("CSV report completed: " +:+ csv_filename)
     | _ =>
         let months_str :=
           join ", " ((fun ym => month_name ym.2 +:+ " " +:+ fmt_d ym.1)
                        <$> year_months) in
         _ ← print ("Generating CSV reports for multiple months: "
                    +:+ months_str +:+ "...");
         _ ← print "
Generating individual monthly reports:";
         individual_files ← export_each w clover year_months;
         _ ← print "
Generating combined report for all months...";
         combined_filename ← export_multiple_months_csv w clover year_months output;
         _ ← print "
All reports completed!";
         _ ← print ("Individual monthly reports: "
                    +:+ fmt_d (Z.of_nat (length individual_files)) +:+ " files");
         _ ← print_all ((fun f => "  - " +:+ f) <$> individual_files);
         print ("Combined report: " +:+ combined_filename)
     end)
    except_Exception
    (fun e =>
       _ ← print ("Script execution failed: " +:+ exn_str e);
       print_stderr "Traceback (most recent call last):").

(** [main] *)
Definition main (w : World) (args : Argv) : M unit :=
  let '(default_year, default_month) :=
    if dt_month (today w) =? 1 then (dt_year (today w) - 1, 12)
    else (dt_year (today w), dt_month (today w) - 1) in
  let arg_year := default default_year (opt_year args) in
  let arg_month := default (fmt_d default_month) (opt_month args) in
  match parse_months arg_year arg_month with
  | Rejected message => print message
  | Months year_months =>
      config ← resolve_credentials w args;
      if negb (str_truthy (cfg_access_token config))
         || negb (str_truthy (cfg_merchant_id config))
      then print_all missing_credentials_help
      else
        run_reports w (default "" (cfg_access_token config))
          (default "" (cfg_merchant_id config)) (cfg_base_url config)
          year_months (opt_output args)
  end.

(** ** Definitions used in the statements

    What follows is not part of the script: the readings of the data model
    the properties are stated with, and the sample inputs they are tried
    on. *)

(** The tip the data model prescribes: counted only when the tip count is
    positive. *)
Definition tip_of (batch : json) : Qc :=
  if 0 <? tips_count batch then cents (tips_total batch) else 0%Qc.

(** The integer a leaf holds, 0 when it is missing. *)
Definition leaf_int (o : option json) : Z :=
  match o with
  | Some (JInt n) => n
  | Some (JBool true) => 1
  | _ => 0
  end.

(** The three shapes of a level that passes [level_ok]. *)
Inductive level_shape (P : gmap string json → Prop) : option json → Prop :=
| level_absent : level_shape P None
| level_falsy v : truthy v = false → level_shape P (Some v)
| level_object m : truthy (JObj m) = true → P m → level_shape P (Some (JObj m)).


(** A batch as the API sends it: closed on 2025-01-31 (UTC), sales of
    100.00 of which 15.00 are tips. *)
Definition sample_batch : json :=
  JObj {[ "id" := JStr "B1";
          "createdTime" := JInt 1738324800000;
          "batchDetails" := JObj {[ "batchTotals" := JObj {[
             "sales" := JObj {[ "total" := JInt 10000; "count" := JInt 7 ]};
             "tips" := JObj {[ "total" := JInt 1500; "count" := JInt 3 ]} ]} ]} ]}.

(** The extra day of February in a leap year. *)
Definition leap_day (leap : bool) (m : Z) : Z :=
  if (m =? 2) && leap then 1 else 0.

(** What [month_day_of_yday] must satisfy at one day of the year: a month
    and a day in range that lie that many days into the year. *)
Definition mdoy_check (leap : bool) (n : Z) : bool :=
  let '(m, d) := month_day_of_yday leap n in
  (1 <=? m) && (m <=? 12) && (1 <=? d) && (d <=? mdays m + leap_day leap m)
  && (_DAYS_BEFORE_MONTH m + (if (2 <? m) && leap then 1 else 0) + d - 1 =? n).

(** The months for which [get_closeouts_by_month] can build its two
    [datetime] values: the year is one [datetime] has, and so is the next
    year when the month is December. *)
Definition valid_window (year month : Z) : Prop :=
  MINYEAR ≤ year ≤ MAXYEAR ∧ 1 ≤ month ≤ 12 ∧ (month = 12 → year < MAXYEAR).


(** The output after more lines have been printed, after one more request
    has been sent. *)
Definition with_stdout (σ : Output) (lines : list string) : Output :=
  mk_output (stdout σ ++ lines) (stderr σ) (requests σ) (files σ).

Definition with_request (σ : Output) (req : Request) : Output :=
  mk_output (stdout σ) (stderr σ) (requests σ ++ [req]) (files σ).

(** The request of [_make_request]. *)
Definition request_to (self : CloverAPI) (endpoint : string) : Request :=
  mk_request (base_url self +:+ "/v3/merchants/" +:+ merchant_id self
              +:+ endpoint) (headers self).

(** The one request of [get_closeouts_by_month]. *)
Definition batches_request (self : CloverAPI) : Request :=
  request_to self "/batches?limit=901".

(** What [get_closeouts_by_month] prints before it asks the API. *)
Definition fetch_banner (year month : Z) : list string :=
  ["Fetching batches/closeouts for " +:+ month_name month +:+ " "
   +:+ fmt_d year +:+ "...";
   "Date range: " +:+ strftime_Ymd (mk_datetime year month 1 0 0 0 0)
   +:+ " to "
   +:+ strftime_Ymd
         (mk_datetime year month (days_in_month year month) 23 59 59 0)].

(** A status that [raise_for_status] turns into an exception. *)
Definition error_status (status : Z) : bool :=
  (400 <=? status) && (status <? 600).

(** The local date and time of a batch, [None] when it has no time stamp
    [fromtimestamp] can use. *)
Definition batch_local_time (tz : timezone) (batch : json) : option datetime :=
  match batch with
  | JObj o =>
      match o !! "createdTime" with
      | Some v =>
          if truthy v then
            match py_int_of v with
            | Ok ms =>
                match fromtimestamp_ms tz ms with
                | Ok dt => Some dt
                | Raise _ => None
                end
            | Raise _ => None
            end
          else None
      | None => None
      end
  | _ => None
  end.

(** A batch the filter of [get_closeouts_by_month] can handle: an object
    whose time stamp, if any, is an integer [fromtimestamp] accepts. *)
Definition stamp_ok (tz : timezone) (batch : json) : Prop :=
  match batch with
  | JObj o => created_ok tz (o !! "createdTime")
  | _ => False
  end.

(** The test of the filter: the local year and month are the requested
    ones. *)
Definition in_month (tz : timezone) (year month : Z) (batch : json) : bool :=
  match batch_local_time tz batch with
  | Some dt => (dt_year dt =? year) && (dt_month dt =? month)
  | None => false
  end.

Definition month_start (year month : Z) : datetime :=
  mk_datetime year month 1 0 0 0 0.

Definition month_end (year month : Z) : datetime :=
  mk_datetime year month (days_in_month year month) 23 59 59 0.

(** A date-time cut to whole seconds. *)
Definition whole_second (dt : datetime) : datetime :=
  mk_datetime (dt_year dt) (dt_month dt) (dt_day dt)
    (dt_hour dt) (dt_minute dt) (dt_second dt) 0.

(** The window of the month, the final second in full: from the start
    boundary on, and up to the end boundary once cut to whole seconds. *)
Definition in_window (year month : Z) (dt : datetime) : bool :=
  dt_leb (month_start year month) dt
  && dt_leb (whole_second dt) (month_end year month).

(** The window as a closed interval between the two boundaries. *)
Definition in_closed_window (start_date end_date dt : datetime) : bool :=
  dt_leb start_date dt && dt_leb dt end_date.

(** The fetch as the specification words it (not as the source has it):
    the batches of the page whose local time lies in the closed interval
    [[start_date, end_date]]. *)
Definition closed_window_batches (tz : timezone) (year month : Z)
    (elements : list json) : result (list json) :=
  '(start_date, end_date) ← month_window year month;
  Ok (List.filter
        (fun batch =>
           match batch_local_time tz batch with
           | Some dt => in_closed_window start_date end_date dt
           | None => false
           end)
        elements).

(** ** Sample worlds *)

Definition sample_api : CloverAPI :=
  CloverAPI_init "TOKEN" "MERCHANT" production_url.

(** A world in UTC whose API gives the same answer to every request. *)
Definition world_with (outcome : http_outcome) : World :=
  {| tz := UTC;
     today := mk_datetime 2025 2 10 9 0 0 0;
     http := fun _ _ => outcome;
     environ := ∅;
     config_module := None;
     writable := fun _ => true |}.

(** A page of batches, as [/batches] answers. *)
Definition page (status : Z) (elements : list json) : Response :=
  {| status_code := status;
     text := "{elements: [...]}";
     json_body := Some (JObj {[ "elements" := JArr elements ]}) |}.

(** A batch stamped 2025-01-31 23:59:59.500 UTC. *)
Definition late_batch : json :=
  JObj {[ "id" := JStr "LATE"; "createdTime" := JInt 1738367999500 ]}.

(** A batch stamped one second before the epoch, 1969-12-31 23:59:59 UTC. *)
Definition old_batch : json :=
  JObj {[ "id" := JStr "OLD"; "createdTime" := JInt (-1000) ]}.

(** A batch without a time stamp. *)
Definition undated_batch : json :=
  JObj {[ "id" := JStr "UNDATED" ]}.

(** ** The daily rows as the data model describes them *)

(** The summaries of a list of batches. *)
Fixpoint summaries (tz : timezone) (batches : list json) : result (list Row) :=
  match batches with
  | [] => Ok []
  | batch :: batches =>
      info ← _format_single_batch tz batch;
      infos ← summaries tz batches;
      Ok (info :: infos)
  end.

(** The summaries that carry a given date. *)
Definition on_day (d : string) (infos : list Row) : list Row :=
  List.filter (fun info => String.eqb (date info) d) infos.

(** The aggregate of a day: the sums of the summaries of that date, zero
    when there is none. *)
Definition day_sum (d : string) (infos : list Row) : Row :=
  {| date := d;
     debit := py_sum (debit <$> on_day d infos);
     tip := py_sum (tip <$> on_day d infos);
     total := py_sum (total <$> on_day d infos) |}.

(** The grouping loop on summaries. *)
Definition add_info (daily_data : gmap string Row) (info : Row)
    : gmap string Row :=
  alter (add_to_row info) (date info)
    match daily_data !! date info with
    | None => <[date info := zero_row (date info)]> daily_data
    | Some _ => daily_data
    end.

(** The row after all the summaries of a day have been added to it. *)
Definition add_all (r : Row) (infos : list Row) : Row :=
  foldl (fun r info => add_to_row info r) r infos.


(** Whether the two-digit form of [d1] sorts before those of the later
    days of a month. *)
Definition days_ascending_from (d1 : Z) : bool :=
  forallb (fun d2 => String.ltb (fmt_02d d1) (fmt_02d d2))
    (seqZ (d1 + 1) (31 - d1)).


(** ** Amounts in whole cents, rows that balance *)

(** The integer whose digits [fmt_2f] prints: the amount in cents, rounded. *)
Definition shown_cents (x : Qc) : Z := round_half_even (x * Qc_of_Z 100)%Qc.

Definition whole_cents (x : Qc) : Prop := ∃ k, x = cents k.

Definition row_whole_cents (r : Row) : Prop :=
  whole_cents (debit r) ∧ whole_cents (tip r) ∧ whole_cents (total r).

(** [debit + tip = total] *)
Definition balanced (r : Row) : Prop := (debit r + tip r = total r)%Qc.

Definition sum_Z (l : list Z) : Z := foldr Z.add 0 l.

(** ** Well-typed answers of the API *)

(** A page whose batches follow the data model. *)
Definition page_ok (tz : timezone) (r : Response) : Prop :=
  ∀ o l, json_body r = Some (JObj o) → o !! "elements" = Some (JArr l) →
         Forall (wf_batch tz) l.

Definition api_ok (w : World) : Prop :=
  ∀ n req r, http w n req = Answered r → page_ok (tz w) r.

(** ** File names and the months of a combined report *)

Definition month_filename (year month : Z) (filename : option string) : string :=
  default ("clover_monthly_data_" +:+ fmt_d year +:+ "_" +:+ fmt_02d month
           +:+ ".csv") filename.

Definition months_filename (year_months : list (Z * Z))
    (filename : option string) : string :=
  default ("clover_combined_months_"
           +:+ join "_" ((fun ym => fmt_d ym.1 +:+ "_" +:+ fmt_02d ym.2)
                           <$> year_months)
           +:+ ".csv") filename.

Definition with_file (σ : Output) (filename : string) (content : list line)
    : Output :=
  mk_output (stdout σ) (stderr σ) (requests σ)
    (files σ ++ [(filename, content)]).

(** The daily rows of each requested month, fetched one month after the
    other. *)
Fixpoint months_data (w : World) (self : CloverAPI)
    (year_months : list (Z * Z)) : M (list (list Row)) :=
  match year_months with
  | [] => mret []
  | (year, month) :: rest =>
      monthly_data ← generate_monthly_csv_data w self year month;
      others ← months_data w self rest;
      mret (monthly_data :: others)
  end.

(** The three column totals of a list of rows. *)
Definition column_totals (rows : list Row) : Qc * Qc * Qc :=
  (py_sum (debit <$> rows), py_sum (tip <$> rows), py_sum (total <$> rows)).

(** What the rows of a month are known to satisfy. *)
Definition month_rows_ok (ym : Z * Z) (rows : list Row) : Prop :=
  length rows = Z.to_nat (days_in_month ym.1 ym.2)
  ∧ Forall balanced rows ∧ Forall row_whole_cents rows.

(** A world whose January 2025 page holds two batches of 2025-01-31 and
    one of 1969. *)
Definition sample_world : World :=
  world_with (Answered (page 200 [sample_batch; late_batch; old_batch])).

(** ** The command line, as the interface description reads *)

(** The value of [--month] once [argparse] has applied its default. *)
Definition month_argument (w : World) (args : Argv) : string :=
  default (fmt_d (if dt_month (today w) =? 1 then 12
                  else dt_month (today w) - 1))
    (opt_month args).

Definition year_argument (w : World) (args : Argv) : Z :=
  default (if dt_month (today w) =? 1 then dt_year (today w) - 1
           else dt_year (today w))
    (opt_year args).




(** The configuration [main] takes its credentials from. *)
Definition chosen_config (w : World) (args : Argv) : Config :=
  if opt_env args then load_config_from_env w
  else if str_truthy (opt_token args) && str_truthy (opt_merchant args) then
    mk_config (opt_token args) (opt_merchant args) production_url
  else
    match config_module w with
    | Some config =>
        mk_config (Some (default "" (config !! "CLOVER_ACCESS_TOKEN")))
          (Some (default "" (config !! "CLOVER_MERCHANT_ID")))
          (default production_url (config !! "CLOVER_BASE_URL"))
    | None => mk_config (Some "") (Some "") production_url
    end.


(** The credentials as the specification words them (not as the source
    has them): the three sources tried in the order flags, environment,
    configuration module, the first complete one winning. *)
Definition credentials_by_precedence (w : World) (args : Argv) : Config :=
  if str_truthy (opt_token args) && str_truthy (opt_merchant args) then
    mk_config (opt_token args) (opt_merchant args) production_url
  else if str_truthy (environ w !! "CLOVER_ACCESS_TOKEN")
          && str_truthy (environ w !! "CLOVER_MERCHANT_ID") then
    load_config_from_env w
  else
    match config_module w with
    | Some config =>
        mk_config (Some (default "" (config !! "CLOVER_ACCESS_TOKEN")))
          (Some (default "" (config !! "CLOVER_MERCHANT_ID")))
          (default production_url (config !! "CLOVER_BASE_URL"))
    | None => mk_config (Some "") (Some "") production_url
    end.

(** A world with credentials in the environment and in [config.py]. *)
Definition configured_world : World :=
  {| tz := UTC;
     today := mk_datetime 2025 2 10 9 0 0 0;
     http := fun _ _ => Answered (page 200 []);
     environ := {[ "CLOVER_ACCESS_TOKEN" := "ENV_TOKEN";
                   "CLOVER_MERCHANT_ID" := "ENV_MERCHANT" ]};
     config_module := Some {[ "CLOVER_ACCESS_TOKEN" := "FILE_TOKEN";
                              "CLOVER_MERCHANT_ID" := "FILE_MERCHANT";
                              "CLOVER_BASE_URL" := "https://api.clover.com" ]};
     writable := fun _ => true |}.

Definition no_flags : Argv :=
  {| opt_year := None; opt_month := None; opt_token := None;
     opt_merchant := None; opt_output := None; opt_env := false |}.


(** ** The remaining functions of [clover.py] *)

(** [CloverAPI.get_batch_details] *)
Definition get_batch_details (w : World) (self : CloverAPI)
    (batch_id : string) : M json :=
  try_except
    (_make_request w self ("/batches/" +:+ batch_id))
    except_Exception
    (fun e =>
       _ ← print ("Error fetching batch details for " +:+ batch_id +:+ ": "
                  +:+ exn_str e);
       mret (JObj ∅)).

(** The line [view_single_batch] returns for a summary. *)
Definition batch_line (batch_data : Row) : string :=
  "Date: " +:+ date batch_data +:+ ", Debit: $" +:+ fmt_2f (debit batch_data)
  +:+ ", Tips: $" +:+ fmt_2f (tip batch_data)
  +:+ ", Total: $" +:+ fmt_2f (total batch_data).

(** [CloverAPI.view_single_batch] *)
Definition view_single_batch (w : World) (self : CloverAPI)
    (batch_id : string) : M string :=
  _ ← print ("Fetching batch details for ID: " +:+ batch_id +:+ "...");
  try_except
    (batch ← _make_request w self ("/batches/" +:+ batch_id);
     if negb (truthy batch) then
       mret ("No batch found with ID: " +:+ batch_id)
     else
       batch_data ← lift (_format_single_batch (tz w) batch);
       mret (batch_line batch_data))
    except_Exception
    (fun e => mret ("Error fetching batch " +:+ batch_id +:+ ": " +:+ exn_str e)).


(** A world in UTC whose API answers every request with the sample batch. *)
Definition one_batch_world : World :=
  world_with (Answered {| status_code := 200;
                          text := "{id: B1, ...}";
                          json_body := Some sample_batch |}).

(** The fields of a batch that is an object. *)
Definition fields_of (batch : json) : gmap string json :=
  match batch with JObj o => o | _ => ∅ end.

(** A world like [one_batch_world] where no file can be opened, with the
    sample batch on the page of batches. *)
Definition read_only_world : World :=
  {| tz := UTC;
     today := mk_datetime 2025 2 10 9 0 0 0;
     http := fun _ _ => Answered (page 200 [sample_batch]);
     environ := ∅;
     config_module := None;
     writable := fun _ => false |}.

(** The number of commas of a string. *)
Definition commas (s : string) : nat :=
  length (List.filter (fun c => Ascii.eqb c ","%char)
            (String.list_ascii_of_string s)).

(** An API that answers a request the same way whenever it is asked. *)
Definition steady_api (w : World) : Prop :=
  ∀ n m req, http w n req = http w m req.

(** The client [main] builds from the chosen credentials. *)
Definition client_of (w : World) (args : Argv) : CloverAPI :=
  CloverAPI_init (default "" (cfg_access_token (chosen_config w args)))
    (default "" (cfg_merchant_id (chosen_config w args)))
    (cfg_base_url (chosen_config w args)).

(** The lines of a monthly report with these rows. *)
Definition month_report (year month : Z) (rows : list Row) : list line :=
  ([Text "Belle Nails and Spa";
    Text ("Sales for the month of " +:+ month_name month +:+ " " +:+ fmt_d year);
    csv_header]
   ++ (csv_of_row <$> rows)
   ++ [csv_row "TOTAL" (py_sum (debit <$> rows)) (py_sum (tip <$> rows))
         (py_sum (total <$> rows))])%list.

(** The flags of a run with credentials on the command line. *)
Definition flags_for (month : string) (output : option string) : Argv :=
  {| opt_year := Some 2025; opt_month := Some month;
     opt_token := Some "TOKEN"; opt_merchant := Some "MERCHANT";
     opt_output := output; opt_env := false |}.

(** A batch of 2025-01-31 whose details are text, not an object. *)
Definition garbled_batch : json :=
  JObj {[ "id" := JStr "B9";
          "createdTime" := JInt 1738324800000;
          "batchDetails" := JStr "n/a" ]}.


(** ** Where the exact amounts speak for the script *)

(** The script holds amounts as floating-point numbers, the development as
    exact rationals.  On amounts of at most [max_cents] cents, pages of at
    most [max_page] batches and reports over at most [max_months] months,
    no quotient of the script leaves the range of a double, and each of
    its quotients, differences and sums lies within half a cent of the
    exact one, so that both print the same two decimals. *)
Definition max_cents : Z := 10 ^ 8.
Definition max_page : nat := 1000.

Definition modest_amounts (batch : json) : Prop :=
  Z.abs (sales_total batch) ≤ max_cents ∧ Z.abs (tips_total batch) ≤ max_cents.

Definition modest_page (batches : list json) : Prop :=
  (length batches ≤ max_page)%nat ∧ Forall modest_amounts batches.

(** An API whose pages are modest. *)
Definition api_modest (w : World) : Prop :=
  ∀ n req r o l,
    http w n req = Answered r → json_body r = Some (JObj o) →
    o !! "elements" = Some (JArr l) → modest_page l.


(** A number the C implementation of [datetime] takes as an [int]. *)
Definition fits_c_int (n : Z) : Prop := - 2 ^ 31 ≤ n < 2 ^ 31.

(** A batch without amounts, stamped far beyond the year 9999. *)
Definition far_batch : json := JObj {[ "createdTime" := JInt (10 ^ 18) ]}.

(** The tips of a batch in cents: counted when there is a tip. *)
Definition tip_cents (batch : json) : Z :=
  if 0 <? tips_count batch then tips_total batch else 0.

(** * Properties *)

(** ** The per-batch summary *)

Lemma cents_0 : cents 0 = 0%Qc.
Proof. by apply Qc_is_canon. Qed.

Lemma Qc_0_minus_0 : (0 - 0)%Qc = 0%Qc.
Proof. by apply Qc_is_canon. Qed.

Lemma truthy_JObj (m : gmap string json) :
  truthy (JObj m) = false → m = ∅.
Proof. cbn. case_bool_decide; [done | discriminate]. Qed.

Lemma at_path_falsy v k path : truthy v = false → at_path v (k :: path) = None.
Proof.
  intros Hf. destruct v; try reflexivity.
  apply truthy_JObj in Hf as ->. cbn. by rewrite lookup_empty.
Qed.

Lemma level_ok_shape o P : level_ok o P → level_shape P o.
Proof.
  destruct o as [v|]; [|constructor].
  destruct v; cbn; try (by constructor).
  intros HP. destruct (truthy (JObj o)) eqn:Ht.
  - by apply level_object.
  - by apply level_falsy.
Qed.

Lemma int_ok_truediv (o : option json) :
  int_ok o → py_truediv (default (JInt 0) o) 100 = Ok (cents (leaf_int o)).
Proof. destruct o as [[| [] | | | |]|]; cbn; done. Qed.

Lemma int_ok_gt0 (o : option json) :
  int_ok o → py_gt0 (default (JInt 0) o) = Ok (0 <? leaf_int o).
Proof. destruct o as [[| [] | | | |]|]; cbn; done. Qed.

Lemma int_at_absent (o : gmap string json) k path :
  o !! k = None → int_at (JObj o) (k :: path) = 0.
Proof.
  intros Hk. unfold int_at.
  change (at_path (JObj o) (k :: path)) with (o !! k ≫= λ w, at_path w path).
  by rewrite Hk.
Qed.

Lemma int_at_falsy (o : gmap string json) k k' path v :
  o !! k = Some v → truthy v = false → int_at (JObj o) (k :: k' :: path) = 0.
Proof.
  intros Hk Hf. unfold int_at.
  change (at_path (JObj o) (k :: k' :: path))
    with (o !! k ≫= λ w, at_path w (k' :: path)).
  rewrite Hk. cbn [mbind option_bind]. by rewrite at_path_falsy.
Qed.

Lemma int_at_step (o : gmap string json) k path v :
  o !! k = Some v → int_at (JObj o) (k :: path) = int_at v path.
Proof.
  intros Hk. unfold int_at.
  change (at_path (JObj o) (k :: path)) with (o !! k ≫= λ w, at_path w path).
  by rewrite Hk.
Qed.

Lemma int_at_leaf (o : gmap string json) k :
  int_at (JObj o) [k] = leaf_int (o !! k).
Proof. unfold int_at. cbn. by destruct (o !! k). Qed.

Lemma batch_amounts_spec (o : gmap string json) :
  amounts_ok o →
  batch_amounts (JObj o)
  = Ok (cents (sales_total (JObj o)), tip_of (JObj o),
        (cents (sales_total (JObj o)) - tip_of (JObj o))%Qc).
Proof.
  unfold amounts_ok, batch_amounts, tip_of, sales_total, tips_total, tips_count.
  intros Hd. apply level_ok_shape in Hd.
  cbn [py_in py_getitem mbind result_bind].
  inversion Hd as [Ed | details Hf Ed | details Ht Hbt Ed]; clear Hd; symmetry in Ed.
  { rewrite !int_at_absent, cents_0 by done. cbn. by rewrite Qc_0_minus_0. }
  { rewrite !(int_at_falsy _ _ _ _ _ Ed Hf), cents_0. cbn - [truthy].
    rewrite Hf. cbn. by rewrite Qc_0_minus_0. }
  rewrite !(int_at_step _ _ _ _ Ed). cbn - [truthy int_at]. rewrite Ht.
  cbn [py_get mbind result_bind]. apply level_ok_shape in Hbt.
  inversion Hbt as [Eb | bt Hf Eb | bt Htb [Hs Hp] Eb]; clear Hbt; symmetry in Eb.
  { rewrite !int_at_absent, cents_0 by done. cbn. by rewrite Qc_0_minus_0. }
  { rewrite !(int_at_falsy _ _ _ _ _ Eb Hf), cents_0. cbn - [truthy].
    rewrite Hf. cbn. by rewrite Qc_0_minus_0. }
  rewrite !(int_at_step _ _ _ _ Eb). cbn - [truthy int_at]. rewrite Htb.
  cbn [py_get mbind result_bind].
  apply level_ok_shape in Hs. apply level_ok_shape in Hp.
  assert (Hsales :
    (if truthy (default (JObj ∅) (bt !! "sales"))
     then t ← py_get (default (JObj ∅) (bt !! "sales")) "total" (JInt 0);
          py_truediv t 100
     else Ok 0%Qc)
    = Ok (cents (int_at (JObj bt) ["sales"; "total"]))).
  { inversion Hs as [Es | s Hf Es | s Hts Hi Es]; clear Hs; symmetry in Es.
    - rewrite int_at_absent, cents_0 by done. done.
    - rewrite (int_at_falsy _ _ _ _ _ Es Hf), cents_0. cbn - [truthy]. by rewrite Hf.
    - rewrite (int_at_step _ _ _ _ Es), int_at_leaf. cbn - [truthy]. rewrite Hts.
      cbn [py_get mbind result_bind]. by rewrite int_ok_truediv. }
  rewrite Hsales. cbn [mbind result_bind]. clear Hsales Hs.
  inversion Hp as [Ep | p Hf Ep | p Htp [Hc Hi] Ep]; clear Hp; symmetry in Ep.
  - rewrite !(int_at_absent _ "tips") by done. done.
  - rewrite !(int_at_falsy _ _ _ _ _ Ep Hf). cbn - [truthy int_at]. by rewrite Hf.
  - rewrite !(int_at_step _ _ _ _ Ep), !int_at_leaf. cbn - [truthy int_at]. rewrite Htp.
    cbn [py_get mbind result_bind].
    rewrite int_ok_gt0 by done. cbn [mbind result_bind].
    destruct (0 <? _); [|done].
    rewrite int_ok_truediv by done. done.
Qed.

Lemma created_date_of_ok tz (o : gmap string json) :
  created_ok tz (o !! "createdTime") →
  is_Ok (created_date_of tz (default (JInt 0) (o !! "createdTime"))).
Proof.
  unfold created_ok, created_date_of.
  destruct (o !! "createdTime") as [v|]; cbn - [truthy]; [|by eexists].
  intros [Hf | (ms & Hms & dt & Hdt)].
  - rewrite Hf. by eexists.
  - destruct (truthy v); [|by eexists].
    rewrite Hms. cbn [mbind result_bind]. rewrite Hdt. by eexists.
Qed.

Lemma format_single_batch_wf tz (o : gmap string json) :
  wf_batch tz (JObj o) →
  ∃ d, created_date_of tz (default (JInt 0) (o !! "createdTime")) = Ok d
     ∧ _format_single_batch tz (JObj o)
       = Ok {| date := d;
               debit := (cents (sales_total (JObj o)) - tip_of (JObj o))%Qc;
               tip := tip_of (JObj o);
               total := cents (sales_total (JObj o)) |}.
Proof.
  intros [Hc Ha]. destruct (created_date_of_ok _ _ Hc) as [d Hd].
  exists d. split; [done|].
  unfold _format_single_batch. cbn [py_get mbind result_bind].
  rewrite Hd. cbn [mbind result_bind].
  by rewrite batch_amounts_spec.
Qed.

Lemma int_at_missing v path k :
  at_path v path = None → int_at v (path ++ [k])%list = 0.
Proof.
  unfold int_at. revert v. induction path as [|k' path IH]; intros v; [done|].
  cbn [at_path app]. destruct v; try done.
  destruct (o !! k') as [w|]; cbn [mbind option_bind]; [|done].
  apply IH.
Qed.

Lemma cents_10000 : cents 10000 = Qc_of_Z 100.
Proof. by apply Qc_is_canon. Qed.

Lemma cents_1500 : cents 1500 = Qc_of_Z 15.
Proof. by apply Qc_is_canon. Qed.

Lemma Qc_100_minus_15 : (Qc_of_Z 100 - Qc_of_Z 15)%Qc = Qc_of_Z 85.
Proof. by apply Qc_is_canon. Qed.

(** C1, the claim as stated does not hold: not every batch object gets a
    row.  A batch without [batchDetails] whose [createdTime] lies beyond
    the year 9999 raises, where the claim has three zeros. *)
Lemma format_single_batch_raises_on_stamp :
  at_path far_batch ["batchDetails"] = None
  ∧ _format_single_batch UTC far_batch = Raise ValueError.
Proof. split; vm_compute; reflexivity. Qed.

(** C1.  [_format_single_batch] is a function of the batch alone (and of
    the local time zone, for the date): it runs outside the effect monad.
    For every batch object that follows the data model, whose
    [createdTime] is absent, false or an integer [fromtimestamp] accepts,
    and whose [sales.total] and [tips.total] are at most [max_cents] in
    magnitude, it returns a row, never an exception, with
    [total = sales.total / 100], [tip = tips.total / 100] when
    [tips.count > 0] and [0] otherwise, and [debit = total - tip] (the
    exact quotients, of which the script holds the nearest doubles); a
    missing [sales] level gives a zero total, a missing [tips] level a zero
    tip, a missing [batchDetails] or [batchTotals] three zeros.  Sales of
    10000 with tips of 1500 (count positive) give 100.00, 15.00 and
    85.00. *)
Theorem format_single_batch_amounts (tz : timezone) (batch : json) :
  wf_batch tz batch → modest_amounts batch →
  ∃ r, _format_single_batch tz batch = Ok r
     ∧ total r = cents (sales_total batch)
     ∧ tip r = (if 0 <? tips_count batch then cents (tips_total batch) else 0%Qc)
     ∧ debit r = (total r - tip r)%Qc
     ∧ (at_path batch ["batchDetails"; "batchTotals"; "sales"] = None →
        total r = 0%Qc)
     ∧ (at_path batch ["batchDetails"; "batchTotals"; "tips"] = None →
        tip r = 0%Qc)
     ∧ (at_path batch ["batchDetails"] = None
        ∨ at_path batch ["batchDetails"; "batchTotals"] = None →
        total r = 0%Qc ∧ tip r = 0%Qc ∧ debit r = 0%Qc)
     ∧ (sales_total batch = 10000 → tips_total batch = 1500 →
        0 < tips_count batch →
        total r = Qc_of_Z 100 ∧ tip r = Qc_of_Z 15 ∧ debit r = Qc_of_Z 85).
Proof.
  intros Hwf _. destruct batch as [| | | | |o]; try done.
  destruct (format_single_batch_wf _ _ Hwf) as (d & _ & ->).
  eexists. split; [reflexivity|]. cbn [total tip debit].
  assert (Hs : at_path (JObj o) ["batchDetails"; "batchTotals"; "sales"] = None →
               cents (sales_total (JObj o)) = 0%Qc).
  { intros H. unfold sales_total.
    pose proof (int_at_missing _ _ "total" H) as E. cbn [app] in E.
    by rewrite E, cents_0. }
  assert (Ht : at_path (JObj o) ["batchDetails"; "batchTotals"; "tips"] = None →
               tip_of (JObj o) = 0%Qc).
  { intros H. unfold tip_of, tips_count.
    pose proof (int_at_missing _ _ "count" H) as E. cbn [app] in E.
    by rewrite E. }
  assert (Hb : at_path (JObj o) ["batchDetails"; "batchTotals"] = None →
               at_path (JObj o) ["batchDetails"; "batchTotals"; "sales"] = None
               ∧ at_path (JObj o) ["batchDetails"; "batchTotals"; "tips"] = None).
  { cbn. destruct (o !! "batchDetails") as [[]|]; cbn; try done.
    by destruct (_ !! "batchTotals"). }
  assert (Hd : at_path (JObj o) ["batchDetails"] = None →
               at_path (JObj o) ["batchDetails"; "batchTotals"] = None).
  { cbn. by destruct (o !! "batchDetails"). }
  split; [done|]. split; [done|]. split; [done|]. split; [done|].
  split; [done|]. split.
  - intros H.
    assert (H' : at_path (JObj o) ["batchDetails"; "batchTotals"] = None)
      by (destruct H; auto).
    apply Hb in H' as [H1 H2]. rewrite Hs, Ht by done.
    split; [done|]. split; [done|]. apply Qc_0_minus_0.
  - intros E0 E1 E2. unfold tip_of. apply Z.ltb_lt in E2. rewrite E2, E0, E1.
    rewrite cents_10000, cents_1500.
    split; [done|]. split; [done|]. apply Qc_100_minus_15.
Qed.

Lemma format_single_batch_amounts_witness :
  wf_batch UTC sample_batch ∧ modest_amounts sample_batch
  ∧ ∃ r, _format_single_batch UTC sample_batch = Ok r
       ∧ total r = Qc_of_Z 100 ∧ tip r = Qc_of_Z 15 ∧ debit r = Qc_of_Z 85.
Proof.
  assert (Hwf : wf_batch UTC sample_batch).
  { split.
    - right. exists 1738324800000. split; [reflexivity|].
      eexists. vm_compute. reflexivity.
    - vm_compute. tauto. }
  assert (Hmod : modest_amounts sample_batch).
  { split; vm_compute; discriminate. }
  split; [exact Hwf|]. split; [exact Hmod|].
  destruct (format_single_batch_amounts UTC sample_batch Hwf Hmod)
    as (r & Hr & _ & _ & _ & _ & _ & _ & Hex).
  exists r. split; [exact Hr|].
  apply Hex; reflexivity.
Defined.

(** ** The calendar *)

Lemma mdoy_check_all :
  forallb (fun n => mdoy_check false n) (seqZ 0 365) = true
  ∧ forallb (fun n => mdoy_check true n) (seqZ 0 366) = true.
Proof. split; vm_compute; reflexivity. Qed.

Lemma mdoy_valid (leap : bool) (n : Z) :
  0 ≤ n < 365 + (if leap then 1 else 0) →
  mdoy_check leap n = true.
Proof.
  intros Hn. destruct mdoy_check_all as [Hf Ht].
  destruct leap.
  - rewrite forallb_forall in Ht. apply Ht. apply list_elem_of_In, elem_of_seqZ. lia.
  - rewrite forallb_forall in Hf. apply Hf. apply list_elem_of_In, elem_of_seqZ. lia.
Qed.

Lemma dby_decomp y :
  days_before_year y
  = 146097 * ((y - 1) / 400) + 36524 * ((y - 1) mod 400 / 100)
    + 1461 * ((y - 1) mod 100 / 4) + 365 * ((y - 1) mod 4).
Proof. unfold days_before_year. Z.div_mod_to_equations. lia. Qed.

Lemma isleap_decomp y :
  isleap y = ((y - 1) mod 4 =? 3)
             && (negb ((y - 1) mod 100 / 4 =? 24) || ((y - 1) mod 400 / 100 =? 3)).
Proof.
  unfold isleap.
  repeat match goal with |- context [?a =? ?b] => destruct (Z.eqb_spec a b) end;
    cbn; try reflexivity; exfalso; Z.div_mod_to_equations; lia.
Qed.

Lemma ord2ymd_valid n y m d :
  _ord2ymd n = (y, m, d) → 1 ≤ m ≤ 12 ∧ 1 ≤ d ≤ days_in_month y m.
Proof.
  unfold _ord2ymd.
  set (N := n - 1).
  set (a := N / 146097). set (r1 := N mod 146097).
  set (b := r1 / 36524). set (r2 := r1 mod 36524).
  set (c := r2 / 1461). set (r3 := r2 mod 1461).
  set (e := r3 / 365). set (yd := r3 mod 365).
  assert (0 ≤ r1 < 146097) by (apply Z.mod_pos_bound; lia).
  assert (0 ≤ r2 < 36524) by (apply Z.mod_pos_bound; lia).
  assert (0 ≤ r3 < 1461) by (apply Z.mod_pos_bound; lia).
  assert (0 ≤ yd < 365) by (apply Z.mod_pos_bound; lia).
  assert (0 ≤ b ≤ 4) by (subst b; Z.div_mod_to_equations; lia).
  assert (0 ≤ c ≤ 24) by (subst c; Z.div_mod_to_equations; lia).
  assert (0 ≤ e ≤ 4) by (subst e; Z.div_mod_to_equations; lia).
  destruct ((e =? 4) || (b =? 4)) eqn:Hedge.
  { intros [= <- <- <-]. by vm_compute. }
  apply orb_false_iff in Hedge as [He Hb].
  apply Z.eqb_neq in He, Hb.
  set (leap := (e =? 3) && (negb (c =? 24) || (b =? 3))).
  pose proof (mdoy_valid leap yd) as Hv.
  unfold mdoy_check in Hv.
  destruct (month_day_of_yday leap yd) as [m' d'].
  intros [= <- <- <-].
  assert (Hl : isleap (a * 400 + 1 + b * 100 + c * 4 + e) = leap).
  { rewrite isleap_decomp. subst leap.
    replace ((a * 400 + 1 + b * 100 + c * 4 + e - 1) mod 4) with e
      by (Z.div_mod_to_equations; lia).
    replace ((a * 400 + 1 + b * 100 + c * 4 + e - 1) mod 100 / 4) with c
      by (Z.div_mod_to_equations; lia).
    replace ((a * 400 + 1 + b * 100 + c * 4 + e - 1) mod 400 / 100) with b
      by (Z.div_mod_to_equations; lia).
    done. }
  unfold days_in_month. rewrite Hl. unfold leap_day in Hv.
  specialize (Hv ltac:(destruct leap; lia)).
  rewrite !andb_true_iff, !Z.leb_le, Z.eqb_eq in Hv. lia.
Qed.

Ltac month_cases m :=
  let H := fresh in
  assert (H : m = 1 ∨ m = 2 ∨ m = 3 ∨ m = 4 ∨ m = 5 ∨ m = 6 ∨ m = 7 ∨ m = 8
              ∨ m = 9 ∨ m = 10 ∨ m = 11 ∨ m = 12) by lia;
  repeat (destruct H as [H|H]; [subst m|]); [..|subst m].

Lemma mdoy_inverse (leap : bool) (m d : Z) :
  1 ≤ m ≤ 12 → 1 ≤ d ≤ mdays m + leap_day leap m →
  _DAYS_BEFORE_MONTH m + (if (2 <? m) && leap then 1 else 0) + d - 1 < 365 →
  month_day_of_yday leap
    (_DAYS_BEFORE_MONTH m + (if (2 <? m) && leap then 1 else 0) + d - 1) = (m, d).
Proof.
  intros Hm Hd Hlt.
  set (yd := _DAYS_BEFORE_MONTH m + _ + d - 1) in *.
  assert (Hyd : 0 ≤ yd < 365 + (if leap then 1 else 0)).
  { subst yd. month_cases m; cbn in *; destruct leap; cbn in *; lia. }
  pose proof (mdoy_valid leap yd Hyd) as Hv. unfold mdoy_check in Hv.
  destruct (month_day_of_yday leap yd) as [m' d'].
  rewrite !andb_true_iff, !Z.leb_le, Z.eqb_eq in Hv.
  destruct Hv as [[[[? ?] ?] ?] Heq].
  assert (m' = m).
  { subst yd. unfold leap_day in *.
    month_cases m; month_cases m'; try reflexivity; exfalso;
      cbn in *; destruct leap; cbn in *; lia. }
  subst m'. f_equal. subst yd. lia.
Qed.

Ltac calc_divmod :=
  repeat match goal with
  | |- context [Z.div (Zpos ?p) (Zpos ?q)] =>
      let v := eval vm_compute in (Z.div (Zpos p) (Zpos q)) in
      change (Z.div (Zpos p) (Zpos q)) with v
  | |- context [Z.modulo (Zpos ?p) (Zpos ?q)] =>
      let v := eval vm_compute in (Z.modulo (Zpos p) (Zpos q)) in
      change (Z.modulo (Zpos p) (Zpos q)) with v
  | |- context [Z.div 0 (Zpos ?q)] => change (Z.div 0 (Zpos q)) with 0
  | |- context [Z.modulo 0 (Zpos ?q)] => change (Z.modulo 0 (Zpos q)) with 0
  end.

Lemma ord2ymd_ymd2ord y m d :
  1 ≤ m ≤ 12 → 1 ≤ d ≤ days_in_month y m →
  _ord2ymd (_ymd2ord y m d) = (y, m, d).
Proof.
  intros Hm Hd. unfold _ymd2ord, days_before_month, days_in_month in *.
  rewrite dby_decomp. rewrite isleap_decomp in *.
  set (Y := y - 1) in *.
  set (a := Y / 400). set (b := Y mod 400 / 100) in *.
  set (c := Y mod 100 / 4) in *. set (e := Y mod 4) in *.
  assert (HY : Y = 400 * a + 100 * b + 4 * c + e)
    by (subst a b c e; Z.div_mod_to_equations; lia).
  assert (0 ≤ b ≤ 3) by (subst b; Z.div_mod_to_equations; lia).
  assert (0 ≤ c ≤ 24) by (subst c; Z.div_mod_to_equations; lia).
  assert (0 ≤ e ≤ 3) by (subst e; Z.div_mod_to_equations; lia).
  set (leap := (e =? 3) && (negb (c =? 24) || (b =? 3))) in *.
  assert (Hleq : leap = (e =? 3) && (negb (c =? 24) || (b =? 3))) by done.
  assert (Hleap : leap = true → e = 3 ∧ (c ≠ 24 ∨ b = 3)).
  { subst leap. rewrite andb_true_iff, orb_true_iff, negb_true_iff,
      !Z.eqb_eq, Z.eqb_neq. tauto. }
  set (yd := _DAYS_BEFORE_MONTH m + (if (2 <? m) && leap then 1 else 0) + d - 1).
  assert (Hyd : 0 ≤ yd < 365 + (if leap then 1 else 0)).
  { subst yd. month_cases m; cbn in *; destruct leap; cbn in *; lia. }
  assert (Hy : y = 400 * a + 100 * b + 4 * c + e + 1) by (subst Y; lia).
  clearbody a b c e leap. clear HY.
  unfold _ord2ymd.
  replace (146097 * a + 36524 * b + 1461 * c + 365 * e
           + (_DAYS_BEFORE_MONTH m + (if (2 <? m) && leap then 1 else 0)) + d - 1)
    with (146097 * a + (36524 * b + 1461 * c + 365 * e + yd)) by (subst yd; lia).
  destruct (decide (yd = 365)) as [Hlast | Hnot].
  - (* the last day of a leap year *)
    assert (leap = true) by (destruct leap; [done | lia]).
    destruct Hleap as [-> Hcb]; [done|]. clear Hleq. subst leap.
    assert (m = 12 ∧ d = 31) as [-> ->].
    { subst yd. month_cases m; cbn in *; lia. }
    rewrite Hlast.
    destruct (decide (c = 24)) as [-> | Hc].
    + assert (b = 3) as -> by lia.
      replace (146097 * a + (36524 * 3 + 1461 * 24 + 365 * 3 + 365))
        with (146096 + a * 146097) by lia.
      rewrite Z.div_add, Z.mod_add by lia. calc_divmod. cbn. f_equal. f_equal. lia.
    + replace (146097 * a + (36524 * b + 1461 * c + 365 * 3 + 365))
        with ((36524 * b + 1461 * c + 1460) + a * 146097) by lia.
      rewrite Z.div_add, Z.mod_add by lia.
      rewrite (Z.div_small (36524 * b + 1461 * c + 1460)),
        (Z.mod_small (36524 * b + 1461 * c + 1460)) by lia.
      replace (36524 * b + 1461 * c + 1460)
        with ((1461 * c + 1460) + b * 36524) by lia.
      rewrite Z.div_add, Z.mod_add by lia.
      rewrite (Z.div_small (1461 * c + 1460)),
        (Z.mod_small (1461 * c + 1460)) by lia.
      replace (1461 * c + 1460) with (1460 + c * 1461) by lia.
      rewrite Z.div_add, Z.mod_add by lia.
      calc_divmod. cbn. f_equal. f_equal. lia.
  - assert (Hy' : 0 ≤ yd < 365) by (destruct leap; lia).
    replace (146097 * a + (36524 * b + 1461 * c + 365 * e + yd))
      with ((36524 * b + 1461 * c + 365 * e + yd) + a * 146097) by lia.
    rewrite Z.div_add, Z.mod_add by lia.
    rewrite (Z.div_small (36524 * b + 1461 * c + 365 * e + yd)),
      (Z.mod_small (36524 * b + 1461 * c + 365 * e + yd)) by lia.
    replace (36524 * b + 1461 * c + 365 * e + yd)
      with ((1461 * c + 365 * e + yd) + b * 36524) by lia.
    rewrite Z.div_add, Z.mod_add by lia.
    rewrite (Z.div_small (1461 * c + 365 * e + yd)),
      (Z.mod_small (1461 * c + 365 * e + yd)) by lia.
    replace (1461 * c + 365 * e + yd) with ((365 * e + yd) + c * 1461) by lia.
    rewrite Z.div_add, Z.mod_add by lia.
    rewrite (Z.div_small (365 * e + yd)), (Z.mod_small (365 * e + yd)) by lia.
    replace (365 * e + yd) with (yd + e * 365) by lia.
    rewrite Z.div_add, Z.mod_add by lia.
    rewrite (Z.div_small yd), (Z.mod_small yd) by lia.
    rewrite !Z.add_0_l.
    destruct (Z.eqb_spec e 4); [lia|]. destruct (Z.eqb_spec b 4); [lia|].
    cbn [orb].
    rewrite <- Hleq. subst yd.
    rewrite mdoy_inverse; [|done|exact Hd|lia].
    f_equal. f_equal. lia.
Qed.

Lemma days_in_month_bounds y m : 1 ≤ m ≤ 12 → 28 ≤ days_in_month y m ≤ 31.
Proof.
  intros Hm. unfold days_in_month.
  month_cases m; cbn; destruct (isleap y); cbn; lia.
Qed.

Lemma ymd2ord_bounds y m d :
  MINYEAR ≤ y ≤ MAXYEAR → 1 ≤ m ≤ 12 → 1 ≤ d ≤ days_in_month y m →
  1 ≤ _ymd2ord y m d ≤ _MAXORDINAL.
Proof.
  unfold MINYEAR, MAXYEAR, _MAXORDINAL, _ymd2ord, days_before_month,
    days_in_month, days_before_year.
  intros Hy Hm Hd.
  assert (_DAYS_BEFORE_MONTH m + (if (2 <? m) && isleap y then 1 else 0) + d
          ≤ 365 + (if isleap y then 1 else 0)).
  { month_cases m; cbn in *; destruct (isleap y); cbn in *; lia. }
  assert (0 ≤ _DAYS_BEFORE_MONTH m + (if (2 <? m) && isleap y then 1 else 0)).
  { month_cases m; cbn in *; destruct (isleap y); cbn in *; lia. }
  destruct (decide (y = 9999)) as [-> | Hne].
  - change (isleap 9999) with false in *.
    change (if false then 1 else 0) with 0 in *. Z.div_mod_to_equations. lia.
  - assert ((if isleap y then 1 else 0) ≤ 1) by (destruct (isleap y); lia).
    Z.div_mod_to_equations. lia.
Qed.

(** The day before the first of the next month is the last of this one. *)
Lemma ymd2ord_next_month y m :
  1 ≤ m ≤ 12 →
  _ymd2ord (if m =? 12 then y + 1 else y) (if m =? 12 then 1 else m + 1) 1 - 1
  = _ymd2ord y m (days_in_month y m).
Proof.
  intros Hm. unfold _ymd2ord, days_before_month, days_in_month.
  destruct (Z.eqb_spec m 12) as [-> | Hne].
  - cbn. unfold days_before_year, isleap.
    replace (y + 1 - 1) with y by lia.
    destruct (Z.eqb_spec (y mod 4) 0); destruct (Z.eqb_spec (y mod 100) 0);
      destruct (Z.eqb_spec (y mod 400) 0); cbn;
      Z.div_mod_to_equations; lia.
  - month_cases m; try done; destruct (isleap y);
      repeat match goal with
      | |- context [Z.pos ?p + 1] =>
          let v := eval vm_compute in (Z.pos p + 1) in
          change (Z.pos p + 1) with v
      end; cbn; lia.
Qed.

Lemma datetime_ymd_Ok y m d :
  MINYEAR ≤ y ≤ MAXYEAR → 1 ≤ m ≤ 12 → 1 ≤ d ≤ days_in_month y m →
  datetime_ymd y m d = Ok (mk_datetime y m d 0 0 0 0).
Proof.
  intros Hy Hm Hd. unfold datetime_ymd.
  destruct (Z.leb_spec MINYEAR y); [|lia].
  destruct (Z.leb_spec y MAXYEAR); [|lia].
  destruct (Z.leb_spec 1 m); [|lia].
  destruct (Z.leb_spec m 12); [|lia].
  destruct (Z.leb_spec 1 d); [|lia].
  destruct (Z.leb_spec d (days_in_month y m)); [|lia].
  reflexivity.
Qed.

Lemma datetime_ymd_inv y m d dt :
  datetime_ymd y m d = Ok dt →
  MINYEAR ≤ y ≤ MAXYEAR ∧ 1 ≤ m ≤ 12 ∧ 1 ≤ d ≤ days_in_month y m
  ∧ dt = mk_datetime y m d 0 0 0 0.
Proof.
  unfold datetime_ymd.
  destruct (Z.leb_spec MINYEAR y); cbn; [|done].
  destruct (Z.leb_spec y MAXYEAR); cbn; [|done].
  destruct (Z.leb_spec 1 m); cbn; [|done].
  destruct (Z.leb_spec m 12); cbn; [|done].
  destruct (Z.leb_spec 1 d); cbn; [|done].
  destruct (Z.leb_spec d (days_in_month y m)); cbn; [|done].
  intros [= <-]. repeat split; lia.
Qed.

Lemma next_month_start_Ok y m :
  valid_window y m →
  next_month_start y m
  = Ok (mk_datetime (if m =? 12 then y + 1 else y)
          (if m =? 12 then 1 else m + 1) 1 0 0 0 0).
Proof.
  intros (Hy & Hm & Hdec). unfold next_month_start, MINYEAR, MAXYEAR in *.
  destruct (Z.eqb_spec m 12) as [-> | Hne].
  - apply datetime_ymd_Ok; unfold MINYEAR, MAXYEAR; try lia.
    pose proof (days_in_month_bounds (y + 1) 1). lia.
  - apply datetime_ymd_Ok; unfold MINYEAR, MAXYEAR; try lia.
    pose proof (days_in_month_bounds y (m + 1)). lia.
Qed.

Lemma month_window_Ok y m :
  valid_window y m →
  month_window y m
  = Ok (mk_datetime y m 1 0 0 0 0,
        mk_datetime y m (days_in_month y m) 23 59 59 0).
Proof.
  intros Hv. pose proof Hv as (Hy & Hm & Hdec).
  pose proof (days_in_month_bounds y m Hm) as Hdim.
  unfold month_window.
  rewrite datetime_ymd_Ok by (try done; lia). cbn [mbind result_bind].
  rewrite next_month_start_Ok by done. cbn [mbind result_bind].
  unfold sub_seconds.
  cbn [dt_year dt_month dt_day dt_hour dt_minute dt_second dt_microsecond].
  change (0 * 3600 + 0 * 60 + 0 - 1) with (-1).
  change ((-1) `div` 86400) with (-1). change ((-1) `mod` 86400) with 86399.
  set (o := _ymd2ord _ _ 1). replace (o + -1) with (o - 1) by lia. subst o.
  rewrite ymd2ord_next_month by done.
  pose proof (ymd2ord_bounds y m (days_in_month y m) Hy Hm ltac:(lia)) as Hb.
  destruct (Z.ltb_spec 0 (_ymd2ord y m (days_in_month y m))); [|lia].
  destruct (Z.leb_spec (_ymd2ord y m (days_in_month y m)) _MAXORDINAL); [|lia].
  cbn [andb]. rewrite ord2ymd_ymd2ord by (try done; lia).
  reflexivity.
Qed.

Lemma month_window_inv y m w :
  month_window y m = Ok w → valid_window y m.
Proof.
  unfold month_window, next_month_start.
  destruct (datetime_ymd y m 1) as [s|] eqn:Hs; cbn; [|done].
  apply datetime_ymd_inv in Hs as (Hy & Hm & _).
  destruct (Z.eqb_spec m 12) as [-> | Hne].
  - destruct (datetime_ymd (y + 1) 1 1) as [n|] eqn:Hn; cbn; [|done].
    apply datetime_ymd_inv in Hn as (Hy' & _). intros _.
    unfold valid_window, MINYEAR, MAXYEAR in *. lia.
  - intros _. unfold valid_window. lia.
Qed.

(** The fields of a local time are in range. *)
Lemma fromtimestamp_ms_fields tz ms dt :
  fromtimestamp_ms tz ms = Ok dt →
  MINYEAR ≤ dt_year dt ≤ MAXYEAR ∧ 1 ≤ dt_month dt ≤ 12
  ∧ 1 ≤ dt_day dt ≤ days_in_month (dt_year dt) (dt_month dt)
  ∧ 0 ≤ dt_hour dt ≤ 23 ∧ 0 ≤ dt_minute dt ≤ 59 ∧ 0 ≤ dt_second dt ≤ 59
  ∧ 0 ≤ dt_microsecond dt ≤ 999000.
Proof.
  unfold fromtimestamp_ms.
  destruct (_ord2ymd _) as [[y m] d] eqn:Hord.
  apply ord2ymd_valid in Hord as [Hm Hd].
  destruct (Z.leb_spec MINYEAR y); cbn [andb]; [|done].
  destruct (Z.leb_spec y MAXYEAR); cbn [andb]; [|done].
  destruct (year_in_range tz (ms `div` 1000 - 86400)); cbn [andb]; [|done].
  destruct (_ || _); [|done].
  intros [= <-]. cbn.
  repeat split; try lia; Z.div_mod_to_equations; lia.
Qed.

(** ** Requests *)

Lemma with_stdout_app σ l1 l2 :
  with_stdout (with_stdout σ l1) l2 = with_stdout σ (l1 ++ l2)%list.
Proof. unfold with_stdout. cbn. by rewrite <- app_assoc. Qed.

Lemma print_eq s σ : print s σ = (Ok (), with_stdout σ [s]).
Proof. reflexivity. Qed.

(** The four ways [_make_request] can end. *)
Lemma make_request_network_failure w self endpoint σ msg :
  http w (length (requests σ)) (request_to self endpoint) = NetworkFailure msg →
  _make_request w self endpoint σ
  = (Raise (ConnectionError msg),
     with_stdout (with_request σ (request_to self endpoint))
       ["API request failed: " +:+ msg]).
Proof.
  intros Hhttp. unfold _make_request, try_except, requests_get, mbind, M_bind.
  cbv zeta. unfold request_to in Hhttp. rewrite Hhttp. reflexivity.
Qed.

Lemma make_request_error_status w self endpoint σ r :
  http w (length (requests σ)) (request_to self endpoint) = Answered r →
  error_status (status_code r) = true →
  _make_request w self endpoint σ
  = (Raise (HTTPError (status_code r) (text r)),
     with_stdout (with_request σ (request_to self endpoint))
       ["API request failed: " +:+ exn_str (HTTPError (status_code r) (text r));
        "Response content: " +:+ text r]).
Proof.
  intros Hhttp Hst. unfold _make_request, try_except, requests_get, mbind, M_bind.
  cbv zeta. unfold request_to in Hhttp. rewrite Hhttp.
  unfold lift, raise_for_status. unfold error_status in Hst. rewrite Hst.
  cbn. unfold with_stdout, with_request. cbn. by rewrite <- app_assoc.
Qed.

Lemma make_request_not_json w self endpoint σ r :
  http w (length (requests σ)) (request_to self endpoint) = Answered r →
  error_status (status_code r) = false →
  json_body r = None →
  _make_request w self endpoint σ
  = (Raise JSONDecodeError,
     with_stdout (with_request σ (request_to self endpoint))
       ["API request failed: " +:+ exn_str JSONDecodeError]).
Proof.
  intros Hhttp Hst Hj. unfold _make_request, try_except, requests_get, mbind, M_bind.
  cbv zeta. unfold request_to in Hhttp. rewrite Hhttp.
  unfold lift, raise_for_status, response_json.
  unfold error_status in Hst. rewrite Hst, Hj.
  reflexivity.
Qed.

Lemma make_request_json w self endpoint σ r j :
  http w (length (requests σ)) (request_to self endpoint) = Answered r →
  error_status (status_code r) = false →
  json_body r = Some j →
  _make_request w self endpoint σ
  = (Ok j, with_request σ (request_to self endpoint)).
Proof.
  intros Hhttp Hst Hj. unfold _make_request, try_except, requests_get, mbind, M_bind.
  cbv zeta. unfold request_to in Hhttp. rewrite Hhttp.
  unfold lift, raise_for_status, response_json.
  unfold error_status in Hst. rewrite Hst, Hj.
  reflexivity.
Qed.

(** [_make_request] sends exactly one request, whatever happens. *)
Lemma make_request_requests w self endpoint σ :
  requests (_make_request w self endpoint σ).2
  = (requests σ ++ [request_to self endpoint])%list
  ∧ files (_make_request w self endpoint σ).2 = files σ.
Proof.
  destruct (http w (length (requests σ)) (request_to self endpoint)) as [r|msg] eqn:Hh.
  - destruct (error_status (status_code r)) eqn:Hst.
    + by rewrite (make_request_error_status _ _ _ _ _ Hh Hst).
    + destruct (json_body r) as [j|] eqn:Hj.
      * by rewrite (make_request_json _ _ _ _ _ _ Hh Hst Hj).
      * by rewrite (make_request_not_json _ _ _ _ _ Hh Hst Hj).
  - by rewrite (make_request_network_failure _ _ _ _ _ Hh).
Qed.

(** ** The fetch of a month *)

(** [get_closeouts_by_month] for a month whose window can be built: it
    prints the banner, sends the request, and either returns the filtered
    batches or prints the failure and returns the empty list. *)
Lemma get_closeouts_unfold w self year month σ :
  valid_window year month →
  get_closeouts_by_month w self year month σ
  = match _make_request w self "/batches?limit=901"
            (with_stdout σ (fetch_banner year month)) with
    | (Ok response, σ2) =>
        match (elements ← py_get response "elements" (JArr []);
               all_batches ← py_iter elements;
               filter_batches (tz w) year month all_batches) with
        | Ok filtered => (Ok filtered, σ2)
        | Raise e =>
            (Ok [], with_stdout σ2 ["Error fetching batches: " +:+ exn_str e])
        end
    | (Raise e, σ2) =>
        (Ok [], with_stdout σ2 ["Error fetching batches: " +:+ exn_str e])
    end.
Proof.
  intros Hv. unfold get_closeouts_by_month.
  rewrite (month_window_Ok _ _ Hv).
  unfold mbind at 1. unfold M_bind at 1. unfold lift at 1.
  unfold mbind at 1. unfold M_bind at 1. rewrite print_eq.
  unfold mbind at 1. unfold M_bind at 1. rewrite print_eq.
  rewrite with_stdout_app. change ([?a] ++ [?b])%list with [a; b].
  fold (fetch_banner year month).
  unfold try_except, except_Exception.
  unfold mbind at 1. unfold M_bind at 1.
  destruct (_make_request _ _ _ _) as [[response|e] σ2]; [|reflexivity].
  unfold mbind at 1. unfold M_bind at 1. unfold lift at 1.
  destruct (py_get response "elements" (JArr [])) as [elements|e];
    cbn [mbind result_bind]; [|reflexivity].
  unfold mbind at 1. unfold M_bind at 1. unfold lift at 1.
  destruct (py_iter elements) as [all_batches|e];
    cbn [mbind result_bind]; [|reflexivity].
  unfold lift.
  destruct (filter_batches _ _ _ _) as [filtered|e]; reflexivity.
Qed.

(** The fetch never raises: failures are caught. *)
Lemma get_closeouts_total w self year month σ :
  valid_window year month →
  ∃ batches σ', get_closeouts_by_month w self year month σ = (Ok batches, σ').
Proof.
  intros Hv. rewrite get_closeouts_unfold by done.
  destruct (_make_request _ _ _ _) as [[response|e] σ2]; [|by eauto].
  destruct (_ ≫= _); eauto.
Qed.

(** It sends one request and writes no file. *)
Lemma get_closeouts_effects w self year month σ :
  valid_window year month →
  requests (get_closeouts_by_month w self year month σ).2
  = (requests σ ++ [batches_request self])%list
  ∧ files (get_closeouts_by_month w self year month σ).2 = files σ.
Proof.
  intros Hv. rewrite get_closeouts_unfold by done.
  pose proof (make_request_requests w self "/batches?limit=901"
                (with_stdout σ (fetch_banner year month))) as [Hr Hf].
  destruct (_make_request _ _ _ _) as [[response|e] σ2]; cbn in *.
  - destruct (_ ≫= _); cbn; auto.
  - auto.
Qed.

(** When the filter keeps a batch. *)
Lemma batch_in_month_true tz year month batch :
  batch_in_month tz year month batch = Ok true →
  ∃ o v ms dt,
    batch = JObj o ∧ o !! "createdTime" = Some v ∧ truthy v = true
    ∧ py_int_of v = Ok ms ∧ fromtimestamp_ms tz ms = Ok dt
    ∧ dt_year dt = year ∧ dt_month dt = month.
Proof.
  unfold batch_in_month. destruct batch as [| | | | |o]; try done.
  cbn [py_get mbind result_bind].
  destruct (o !! "createdTime") as [v|] eqn:Hv; cbn - [truthy]; [|done].
  destruct (truthy v) eqn:Ht; [|done].
  destruct (py_int_of v) as [ms|] eqn:Hms; cbn; [|done].
  destruct (fromtimestamp_ms tz ms) as [dt|] eqn:Hdt; cbn; [|done].
  intros [= H]. apply andb_true_iff in H as [Hy Hm].
  apply Z.eqb_eq in Hy, Hm. by exists o, v, ms, dt.
Qed.

Lemma batch_in_month_typed tz year month batch :
  stamp_ok tz batch →
  batch_in_month tz year month batch = Ok (in_month tz year month batch).
Proof.
  unfold batch_in_month, in_month, batch_local_time, stamp_ok, created_ok.
  destruct batch as [| | | | |o]; try done.
  cbn [py_get mbind result_bind].
  destruct (o !! "createdTime") as [v|]; cbn - [truthy]; [|done].
  intros [Hf | (ms & Hms & dt & Hdt)].
  - by rewrite Hf.
  - destruct (truthy v); [|done]. rewrite Hms. cbn. by rewrite Hdt.
Qed.

Lemma filter_batches_typed tz year month all_batches :
  Forall (stamp_ok tz) all_batches →
  filter_batches tz year month all_batches
  = Ok (List.filter (in_month tz year month) all_batches).
Proof.
  induction 1 as [|batch rest Hb _ IH]; [done|].
  cbn [filter_batches List.filter].
  rewrite batch_in_month_typed by done. cbn [mbind result_bind].
  rewrite IH. cbn. by destruct (in_month _ _ _ _).
Qed.

Lemma filter_batches_kept tz year month all_batches filtered :
  filter_batches tz year month all_batches = Ok filtered →
  ∀ batch, batch ∈ filtered →
    batch ∈ all_batches ∧ batch_in_month tz year month batch = Ok true.
Proof.
  revert filtered. induction all_batches as [|b rest IH]; intros filtered.
  - intros [= <-] batch Hin. by apply elem_of_nil in Hin.
  - cbn [filter_batches].
    destruct (batch_in_month tz year month b) as [keep|] eqn:Hk; cbn; [|done].
    destruct (filter_batches tz year month rest) as [f|]; cbn; [|done].
    intros [= <-] batch Hin.
    destruct keep.
    + apply elem_of_cons in Hin as [-> | Hin].
      * split; [left | done].
      * destruct (IH f eq_refl batch Hin). split; [by right | done].
    + destruct (IH f eq_refl batch Hin). split; [by right | done].
Qed.

(** Whatever the API answers, a batch the fetch returns passed the filter. *)
Lemma get_closeouts_kept w self year month σ batches σ' :
  valid_window year month →
  get_closeouts_by_month w self year month σ = (Ok batches, σ') →
  ∀ batch, batch ∈ batches → batch_in_month (tz w) year month batch = Ok true.
Proof.
  intros Hv. rewrite get_closeouts_unfold by done.
  destruct (_make_request _ _ _ _) as [[response|e] σ2].
  - destruct (py_get response "elements" (JArr [])) as [elements|]; cbn.
    2: { intros [= <- _] b Hb. by apply elem_of_nil in Hb. }
    destruct (py_iter elements) as [all_batches|]; cbn.
    2: { intros [= <- _] b Hb. by apply elem_of_nil in Hb. }
    destruct (filter_batches _ _ _ _) as [f|] eqn:Hf.
    + intros [= <- _] b Hb. by apply (filter_batches_kept _ _ _ _ _ Hf).
    + intros [= <- _] b Hb. by apply elem_of_nil in Hb.
  - intros [= <- _] b Hb. by apply elem_of_nil in Hb.
Qed.

(** Lexicographic comparison of the fields, unfolded. *)
Lemma in_month_window year month dt :
  1 ≤ dt_month dt ≤ 12 →
  1 ≤ dt_day dt ≤ days_in_month (dt_year dt) (dt_month dt) →
  0 ≤ dt_hour dt ≤ 23 → 0 ≤ dt_minute dt ≤ 59 → 0 ≤ dt_second dt ≤ 59 →
  0 ≤ dt_microsecond dt →
  (dt_year dt =? year) && (dt_month dt =? month) = in_window year month dt.
Proof.
  destruct dt as [y m d h mi s us]. cbn. intros Hm Hd Hh Hmi Hs Hus.
  unfold in_window, dt_leb, month_start, month_end, whole_second, dt_key.
  cbn [lex_compare dt_year dt_month dt_day dt_hour dt_minute dt_second
       dt_microsecond].
  destruct (Z.eqb_spec y year) as [-> | Hy];
    [destruct (Z.eqb_spec m month) as [-> | Hmne]|]; cbn [andb];
    repeat match goal with
    | |- context [?a ?= ?b] => destruct (Z.compare_spec a b); try lia
    end; reflexivity.
Qed.

(** ** Formatted dates *)

Lemma fmt_Y_length_all :
  forallb (fun y => Nat.eqb (String.length (fmt_Y y)) 4) (seqZ 1000 9000) = true.
Proof. vm_compute. reflexivity. Qed.

(** From the year 1000 on the year takes four characters. *)
Lemma fmt_Y_length y : 1000 ≤ y ≤ MAXYEAR → String.length (fmt_Y y) = 4%nat.
Proof.
  intros Hy. pose proof fmt_Y_length_all as H.
  rewrite forallb_forall in H. apply Nat.eqb_eq, H.
  apply list_elem_of_In, elem_of_seqZ. unfold MAXYEAR in *. lia.
Qed.

Lemma fmt_02d_length_all :
  forallb (fun n => Nat.eqb (String.length (fmt_02d n)) 2) (seqZ 0 100) = true.
Proof. vm_compute. reflexivity. Qed.

Lemma fmt_02d_length n : 0 ≤ n ≤ 99 → String.length (fmt_02d n) = 2%nat.
Proof.
  intros Hn. pose proof fmt_02d_length_all as H.
  rewrite forallb_forall in H. apply Nat.eqb_eq, H.
  apply list_elem_of_In, elem_of_seqZ. lia.
Qed.

Lemma length_app_string (a b : string) :
  String.length (a +:+ b) = (String.length a + String.length b)%nat.
Proof. induction a as [|c a IH]; simpl; [done | by rewrite IH]. Qed.

(** ** The claims about the fetch *)

(** C6, the claim as stated does not hold: a status outside 2xx that is
    not a client or server error (here 300, with a JSON body) is returned
    by [_make_request] like a success. *)
Lemma make_request_passes_status_300 :
  (200 <=? status_code (page 300 [])) && (status_code (page 300 []) <? 300) = false
  ∧ (_make_request (world_with (Answered (page 300 []))) sample_api
       "/batches?limit=901" no_output).1
    = Ok (JObj {[ "elements" := JArr [] ]}).
Proof. split; reflexivity. Qed.

(** C6, amended.  [_make_request] raises on every client or server error
    status (400-599), printing the failure and the body of the response,
    and on every network error, printing the failure (there is no response
    then); [get_closeouts_by_month] catches every exception of the request,
    prints it and returns the empty list, which is also what it returns
    for a page without batches. *)
Theorem request_failures_become_empty_list (w : World) (self : CloverAPI)
    (year month : Z) (σ : Output) :
  valid_window year month →
  (∀ endpoint σ0 r,
     http w (length (requests σ0)) (request_to self endpoint) = Answered r →
     error_status (status_code r) = true →
     ∃ σ1, _make_request w self endpoint σ0
           = (Raise (HTTPError (status_code r) (text r)), σ1)
       ∧ stdout σ1
         = (stdout σ0
            ++ ["API request failed: "
                +:+ exn_str (HTTPError (status_code r) (text r));
                "Response content: " +:+ text r])%list)
  ∧ (∀ endpoint σ0 msg,
     http w (length (requests σ0)) (request_to self endpoint)
     = NetworkFailure msg →
     ∃ σ1, _make_request w self endpoint σ0 = (Raise (ConnectionError msg), σ1)
       ∧ stdout σ1 = (stdout σ0 ++ ["API request failed: " +:+ msg])%list)
  ∧ (∀ e σ1,
     _make_request w self "/batches?limit=901"
       (with_stdout σ (fetch_banner year month)) = (Raise e, σ1) →
     get_closeouts_by_month w self year month σ
     = (Ok [], with_stdout σ1 ["Error fetching batches: " +:+ exn_str e]))
  ∧ (∀ r o,
     http w (length (requests σ)) (batches_request self) = Answered r →
     error_status (status_code r) = false →
     json_body r = Some (JObj o) →
     o !! "elements" = Some (JArr []) →
     (get_closeouts_by_month w self year month σ).1 = Ok []).
Proof.
  intros Hv. split; [|split; [|split]].
  - intros endpoint σ0 r Hh Hst.
    rewrite (make_request_error_status _ _ _ _ _ Hh Hst). eauto.
  - intros endpoint σ0 msg Hh.
    rewrite (make_request_network_failure _ _ _ _ _ Hh). eauto.
  - intros e σ1 He. rewrite get_closeouts_unfold by done. by rewrite He.
  - intros r o Hh Hst Hj He. rewrite get_closeouts_unfold by done.
    rewrite (make_request_json w self _ _ r (JObj o)); [|done..].
    cbn [py_get mbind result_bind]. by rewrite He.
Qed.

Lemma request_failures_become_empty_list_witness :
  valid_window 2025 1
  ∧ ∃ σ', get_closeouts_by_month
            (world_with (Answered (page 503 [sample_batch]))) sample_api 2025 1
            no_output
          = (Ok [], σ')
       ∧ "Response content: {elements: [...]}" ∈ stdout σ'.
Proof.
  assert (Hv : valid_window 2025 1) by (unfold valid_window, MINYEAR, MAXYEAR; lia).
  split; [exact Hv|].
  destruct (request_failures_become_empty_list
              (world_with (Answered (page 503 [sample_batch]))) sample_api
              2025 1 no_output Hv) as (H1 & _ & H3 & _).
  destruct (H1 "/batches?limit=901"
              (with_stdout no_output (fetch_banner 2025 1))
              (page 503 [sample_batch]) eq_refl eq_refl) as (σ1 & Hreq & Hout).
  eexists. split; [exact (H3 _ _ Hreq)|].
  cbn [stdout with_stdout]. rewrite Hout.
  apply elem_of_app. left. apply elem_of_app. right.
  apply elem_of_cons. right. apply elem_of_cons. by left.
Defined.

Lemma batch_local_time_fields tz batch dt :
  batch_local_time tz batch = Some dt →
  MINYEAR ≤ dt_year dt ≤ MAXYEAR ∧ 1 ≤ dt_month dt ≤ 12
  ∧ 1 ≤ dt_day dt ≤ days_in_month (dt_year dt) (dt_month dt)
  ∧ 0 ≤ dt_hour dt ≤ 23 ∧ 0 ≤ dt_minute dt ≤ 59 ∧ 0 ≤ dt_second dt ≤ 59
  ∧ 0 ≤ dt_microsecond dt ≤ 999000.
Proof.
  unfold batch_local_time. destruct batch as [| | | | |o]; try done.
  destruct (o !! "createdTime") as [v|]; [|done].
  destruct (truthy v); [|done].
  destruct (py_int_of v) as [ms|]; [|done].
  destruct (fromtimestamp_ms tz ms) as [d|] eqn:Hd; [|done].
  intros [= <-]. by apply fromtimestamp_ms_fields in Hd.
Qed.

Lemma in_month_in_window tz year month batch :
  in_month tz year month batch
  = match batch_local_time tz batch with
    | Some dt => in_window year month dt
    | None => false
    end.
Proof.
  unfold in_month. destruct (batch_local_time tz batch) as [dt|] eqn:Hdt; [|done].
  apply batch_local_time_fields in Hdt as (_ & ? & ? & ? & ? & ? & ?).
  apply in_month_window; lia.
Qed.

(** C3, the claim as stated does not hold: a batch stamped in the last
    second of the month, after 23:59:59.000, is later than the end boundary
    (the first instant of the next month minus one second) and is returned
    all the same. *)
Lemma fetch_keeps_batch_after_end_boundary :
  (get_closeouts_by_month (world_with (Answered (page 200 [late_batch])))
     sample_api 2025 1 no_output).1
  = Ok [late_batch]
  ∧ closed_window_batches UTC 2025 1 [late_batch] = Ok []
  ∧ (get_closeouts_by_month (world_with (Answered (page 200 [late_batch])))
       sample_api 2025 1 no_output).1
    ≠ closed_window_batches UTC 2025 1 [late_batch].
Proof.
  assert (H1 : (get_closeouts_by_month
                  (world_with (Answered (page 200 [late_batch])))
                  sample_api 2025 1 no_output).1 = Ok [late_batch])
    by (vm_compute; reflexivity).
  assert (H2 : closed_window_batches UTC 2025 1 [late_batch] = Ok [])
    by (vm_compute; reflexivity).
  split; [exact H1|]. split; [exact H2|].
  rewrite H1, H2. discriminate.
Qed.

(** C3, amended.  From the single page asked with [limit=901],
    [get_closeouts_by_month] returns exactly the batches whose
    [createdTime], in local time, is on or after year-month-01T00:00:00 and,
    cut to whole seconds, on or before the last day at 23:59:59: the final
    second of the month counts in full.  The end boundary is the first
    instant of the next month minus one second (for December, January 1 of
    year+1 minus one second), and every batch returned has the requested
    local year and month. *)
Theorem fetch_month_batches_window (w : World) (self : CloverAPI)
    (year month : Z) (σ : Output) (r : Response) (o : gmap string json)
    (elements : list json) :
  valid_window year month →
  http w (length (requests σ)) (batches_request self) = Answered r →
  error_status (status_code r) = false →
  json_body r = Some (JObj o) →
  o !! "elements" = Some (JArr elements) →
  Forall (stamp_ok (tz w)) elements →
  get_closeouts_by_month w self year month σ
  = (Ok (List.filter
           (fun batch =>
              match batch_local_time (tz w) batch with
              | Some dt => in_window year month dt
              | None => false
              end)
           elements),
     with_request (with_stdout σ (fetch_banner year month))
       (batches_request self))
  ∧ month_window year month = Ok (month_start year month, month_end year month)
  ∧ (next ← next_month_start year month; sub_seconds next 1)
    = Ok (month_end year month)
  ∧ (month = 12 → next_month_start year month = datetime_ymd (year + 1) 1 1)
  ∧ ∀ batch dt,
      In batch (List.filter (in_month (tz w) year month) elements) →
      batch_local_time (tz w) batch = Some dt →
      dt_year dt = year ∧ dt_month dt = month.
Proof.
  intros Hv Hh Hst Hj He Hel.
  split; [|split; [|split; [|split]]].
  - rewrite get_closeouts_unfold by done.
    rewrite (make_request_json w self _ _ r (JObj o)); [|done..].
    cbn [py_get mbind result_bind]. rewrite He.
    change (default (JArr []) (Some (JArr elements))) with (JArr elements).
    cbn [py_iter mbind result_bind].
    rewrite filter_batches_typed by done.
    f_equal. f_equal. apply filter_ext. intros b. apply in_month_in_window.
  - by apply month_window_Ok.
  - pose proof (month_window_Ok _ _ Hv) as Hw. unfold month_window in Hw.
    destruct (datetime_ymd year month 1); [|done]. cbn [mbind result_bind] in Hw.
    destruct (next_month_start year month) as [next|]; [|done].
    cbn [mbind result_bind] in *.
    destruct (sub_seconds next 1); [|done]. cbn in Hw. by injection Hw as _ ->.
  - intros ->. reflexivity.
  - intros batch dt Hin Hdt. apply filter_In in Hin as [_ Hin].
    unfold in_month in Hin. rewrite Hdt in Hin.
    apply andb_true_iff in Hin as [Hy Hm]. by apply Z.eqb_eq in Hy, Hm.
Qed.

Lemma fetch_month_batches_window_witness :
  valid_window 2025 1
  ∧ (get_closeouts_by_month
       (world_with (Answered (page 200 [late_batch; old_batch; undated_batch])))
       sample_api 2025 1 no_output).1
    = Ok [late_batch].
Proof.
  assert (Hv : valid_window 2025 1) by (unfold valid_window, MINYEAR, MAXYEAR; lia).
  split; [exact Hv|].
  pose proof (fetch_month_batches_window
    (world_with (Answered (page 200 [late_batch; old_batch; undated_batch])))
    sample_api 2025 1 no_output
    (page 200 [late_batch; old_batch; undated_batch])
    {[ "elements" := JArr [late_batch; old_batch; undated_batch] ]}
    [late_batch; old_batch; undated_batch] Hv eq_refl eq_refl eq_refl eq_refl) as H.
  destruct H as [H _].
  - apply Forall_cons. split.
    { right. exists 1738367999500. split; [reflexivity|].
      eexists. vm_compute. reflexivity. }
    apply Forall_cons. split.
    { right. exists (-1000). split; [reflexivity|].
      eexists. vm_compute. reflexivity. }
    apply Forall_cons. split; [exact I | constructor].
  - rewrite H. vm_compute. reflexivity.
Defined.

Lemma strftime_Ymd_length dt :
  1000 ≤ dt_year dt ≤ MAXYEAR → 1 ≤ dt_month dt ≤ 12 → 1 ≤ dt_day dt ≤ 31 →
  String.length (strftime_Ymd dt) = 10%nat.
Proof.
  intros Hy Hm Hd. unfold strftime_Ymd.
  rewrite !length_app_string, fmt_Y_length, !fmt_02d_length by lia.
  reflexivity.
Qed.

Lemma fmt_Y_digit_all :
  forallb (fun y => match fmt_Y y with
                    | String c _ => negb (Ascii.eqb c "U"%char)
                    | EmptyString => false
                    end) (seqZ 1 9999) = true.
Proof. vm_compute. reflexivity. Qed.

(** A formatted date is not the word the summary has for a missing
    stamp. *)
Lemma strftime_Ymd_known dt :
  MINYEAR ≤ dt_year dt ≤ MAXYEAR → strftime_Ymd dt ≠ "Unknown".
Proof.
  intros Hy. pose proof fmt_Y_digit_all as H.
  rewrite forallb_forall in H.
  specialize (H (dt_year dt)). unfold strftime_Ymd.
  destruct (fmt_Y (dt_year dt)) as [|c rest].
  - discriminate H. apply list_elem_of_In, elem_of_seqZ.
    unfold MINYEAR, MAXYEAR in *. lia.
  - intros [= -> _]. discriminate H. apply list_elem_of_In, elem_of_seqZ.
    unfold MINYEAR, MAXYEAR in *. lia.
Qed.

(** C10, the claim as stated does not hold: the filter tests the time
    stamp for truth, not for sign, so a batch stamped before the epoch
    reaches the aggregation of its month with a negative [createdTime]. *)
Lemma fetch_keeps_negative_timestamp :
  (get_closeouts_by_month (world_with (Answered (page 200 [old_batch])))
     sample_api 1969 12 no_output).1
  = Ok [old_batch]
  ∧ at_path old_batch ["createdTime"] = Some (JInt (-1000))
  ∧ ¬ 0 < -1000.
Proof.
  split; [vm_compute; reflexivity|]. split; [vm_compute; reflexivity|]. lia.
Qed.

(** C10, amended.  For a year and month [datetime] can build the window
    for, [get_closeouts_by_month] returns, and every batch it returns is an
    object whose [createdTime] is a non-zero integer (a negative one
    included) with a local date in the requested month; its summary
    carries that date as [year]-[MM]-[DD], the year as [%Y] prints it
    without padding, which makes the ten characters of [YYYY-MM-DD] from
    the year 1000 on, and never ["Unknown"].  A batch whose [createdTime]
    is absent or zero is thus left out. *)
Theorem fetched_batches_are_dated (w : World) (self : CloverAPI)
    (year month : Z) (σ : Output) :
  valid_window year month →
  ∃ batches σ',
    get_closeouts_by_month w self year month σ = (Ok batches, σ')
    ∧ ∀ batch, batch ∈ batches →
        ∃ o v ms dt,
          batch = JObj o ∧ o !! "createdTime" = Some v
          ∧ py_int_of v = Ok ms ∧ ms ≠ 0
          ∧ fromtimestamp_ms (tz w) ms = Ok dt
          ∧ dt_year dt = year ∧ dt_month dt = month
          ∧ 1 ≤ dt_day dt ≤ days_in_month year month
          ∧ strftime_Ymd dt = date_str year month (dt_day dt)
          ∧ (1000 ≤ year → String.length (strftime_Ymd dt) = 10%nat)
          ∧ created_date_of (tz w) v = Ok (strftime_Ymd dt)
          ∧ ∀ row, _format_single_batch (tz w) batch = Ok row →
              date row = strftime_Ymd dt ∧ date row ≠ "Unknown".
Proof.
  intros Hv.
  destruct (get_closeouts_total w self year month σ Hv) as (batches & σ' & Hget).
  exists batches, σ'. split; [done|].
  intros batch Hin.
  pose proof (get_closeouts_kept _ _ _ _ _ _ _ Hv Hget batch Hin) as Hk.
  apply batch_in_month_true in Hk
    as (o & v & ms & dt & -> & Hv' & Ht & Hms & Hdt & Hy & Hm).
  pose proof (fromtimestamp_ms_fields _ _ _ Hdt) as (Hyr & Hmo & Hd & _).
  pose proof (days_in_month_bounds (dt_year dt) (dt_month dt) Hmo) as Hb.
  assert (Hlen : 1000 ≤ year → String.length (strftime_Ymd dt) = 10%nat)
    by (intros Hyear; apply strftime_Ymd_length; lia).
  assert (Hdate : created_date_of (tz w) v = Ok (strftime_Ymd dt)).
  { unfold created_date_of. rewrite Ht, Hms. cbn. by rewrite Hdt. }
  assert (Hnz : ms ≠ 0).
  { intros ->. destruct v as [|[]| | | |]; cbn in Hms, Ht; try done.
    injection Hms as ->. done. }
  assert (Hstr : strftime_Ymd dt = date_str year month (dt_day dt)).
  { unfold strftime_Ymd, date_str. by rewrite Hy, Hm. }
  assert (Hrow : ∀ row, _format_single_batch (tz w) (JObj o) = Ok row →
                        date row = strftime_Ymd dt).
  { intros row. unfold _format_single_batch. cbn [py_get mbind result_bind].
    rewrite Hv'. change (default (JInt 0) (Some v)) with v.
    rewrite Hdate. cbn [mbind result_bind].
    destruct (batch_amounts (JObj o)) as [[[s t] d]|]; cbn; [|done].
    by intros [= <-]. }
  exists o, v, ms, dt. split_and!; try done; try (subst; lia).
  intros row Hr. split; [by apply Hrow|].
  rewrite (Hrow row Hr). by apply strftime_Ymd_known.
Qed.

Lemma fetched_batches_are_dated_witness :
  valid_window 2025 1
  ∧ ∃ batches σ',
      get_closeouts_by_month
        (world_with (Answered (page 200 [late_batch; undated_batch])))
        sample_api 2025 1 no_output = (Ok batches, σ')
      ∧ ∀ batch, batch ∈ batches →
          ∀ row, _format_single_batch UTC batch = Ok row → date row ≠ "Unknown".
Proof.
  assert (Hv : valid_window 2025 1) by (unfold valid_window, MINYEAR, MAXYEAR; lia).
  split; [exact Hv|].
  destruct (fetched_batches_are_dated
              (world_with (Answered (page 200 [late_batch; undated_batch])))
              sample_api 2025 1 no_output Hv) as (batches & σ' & Hget & Hall).
  exists batches, σ'. split; [exact Hget|].
  intros batch Hin row Hrow.
  destruct (Hall batch Hin)
    as (o & v & ms & dt & _ & _ & _ & _ & _ & _ & _ & _ & _ & _ & _ & Hr).
  exact (proj2 (Hr row Hrow)).
Defined.


(** ** The sample world *)

Lemma sample_batches_wf :
  Forall (wf_batch UTC) [sample_batch; late_batch; old_batch].
Proof.
  apply Forall_cons. split.
  { split.
    - right. exists 1738324800000. split; [reflexivity|].
      eexists. vm_compute. reflexivity.
    - vm_compute. tauto. }
  apply Forall_cons. split.
  { split.
    - right. exists 1738367999500. split; [reflexivity|].
      eexists. vm_compute. reflexivity.
    - vm_compute. tauto. }
  apply Forall_cons. split; [|constructor].
  split.
  - right. exists (-1000). split; [reflexivity|].
    eexists. vm_compute. reflexivity.
  - vm_compute. tauto.
Defined.

Lemma sample_world_ok : api_ok sample_world.
Proof.
  intros n req r [= <-] o l [= <-] Hl.
  rewrite lookup_singleton_eq in Hl. injection Hl as <-.
  exact sample_batches_wf.
Defined.

Lemma valid_window_2025_1 : valid_window 2025 1.
Proof. unfold valid_window, MINYEAR, MAXYEAR. lia. Defined.

Lemma valid_window_2025_2 : valid_window 2025 2.
Proof. unfold valid_window, MINYEAR, MAXYEAR. lia. Defined.


Lemma sample_batches_modest :
  modest_page [sample_batch; late_batch; old_batch].
Proof.
  split; [unfold max_page; cbn; lia|].
  repeat (apply Forall_cons; split; [split; vm_compute; discriminate|]).
  constructor.
Qed.

Lemma sample_world_modest : api_modest sample_world.
Proof.
  intros n req r o l [= <-] [= <-] Hl.
  rewrite lookup_singleton_eq in Hl. injection Hl as <-.
  exact sample_batches_modest.
Qed.

(** ** Grouping by day *)

Lemma group_batches_summaries tz daily_data batches infos :
  summaries tz batches = Ok infos →
  group_batches tz daily_data batches = Ok (foldl add_info daily_data infos).
Proof.
  revert daily_data infos. induction batches as [|b bs IH]; intros m infos.
  - by intros [= <-].
  - cbn [summaries group_batches]. unfold add_batch.
    destruct (_format_single_batch tz b) as [info|]; cbn [mbind result_bind]; [|done].
    destruct (summaries tz bs) as [infos'|]; cbn [mbind result_bind]; [|done].
    intros [= <-]. cbn [foldl]. by apply IH.
Qed.

Lemma summaries_wf tz batches :
  Forall (wf_batch tz) batches → is_Ok (summaries tz batches).
Proof.
  induction 1 as [|b bs Hb _ [infos IH]]; [by eexists|].
  cbn [summaries]. destruct b as [| | | | |o]; try done.
  destruct (format_single_batch_wf _ _ Hb) as (d & _ & ->).
  cbn [mbind result_bind]. rewrite IH. by eexists.
Qed.

Lemma lookup_add_info daily_data info d :
  add_info daily_data info !! d
  = if decide (date info = d)
    then Some (add_to_row info (default (zero_row d) (daily_data !! d)))
    else daily_data !! d.
Proof.
  unfold add_info. case_decide as Hd.
  - subst d. rewrite lookup_alter_eq.
    destruct (daily_data !! date info) as [r|] eqn:Hr.
    + by rewrite Hr.
    + by rewrite lookup_insert_eq.
  - rewrite lookup_alter_ne by done.
    destruct (daily_data !! date info); [done|]. by rewrite lookup_insert_ne.
Qed.

Lemma lookup_foldl_add_info infos daily_data d :
  foldl add_info daily_data infos !! d
  = match on_day d infos with
    | [] => daily_data !! d
    | l => Some (add_all (default (zero_row d) (daily_data !! d)) l)
    end.
Proof.
  revert daily_data. induction infos as [|info infos IH]; intros m; [done|].
  cbn [foldl]. rewrite IH, lookup_add_info. unfold on_day. cbn [List.filter].
  fold (on_day d infos).
  case_decide as Hd.
  - subst d. rewrite String.eqb_refl.
    destruct (on_day (date info) infos); reflexivity.
  - destruct (String.eqb_spec (date info) d); [done|].
    reflexivity.
Qed.

Lemma add_all_fields r infos :
  add_all r infos
  = {| date := date r;
       debit := foldl Qcplus (debit r) (debit <$> infos);
       tip := foldl Qcplus (tip r) (tip <$> infos);
       total := foldl Qcplus (total r) (total <$> infos) |}.
Proof.
  revert r. induction infos as [|info infos IH]; intros r; [by destruct r|].
  cbn [add_all foldl fmap list_fmap]. fold (add_all (add_to_row info r) infos).
  by rewrite IH.
Qed.

(** A row of the month is the aggregate of its day. *)
Lemma day_row_group infos year month day :
  day_row (foldl add_info ∅ infos) year month day
  = day_sum (date_str year month day) infos.
Proof.
  unfold day_row. rewrite lookup_foldl_add_info, lookup_empty.
  unfold day_sum. destruct (on_day _ infos) as [|i l] eqn:Hl; [done|].
  cbn [default]. by rewrite add_all_fields.
Qed.

(** ** The order of the dates *)

Lemma ascii_compare_refl c : Ascii.compare c c = Eq.
Proof. unfold Ascii.compare. apply N.compare_refl. Qed.

Lemma string_compare_refl s : String.compare s s = Eq.
Proof. induction s as [|c s IH]; simpl; [done|]. by rewrite ascii_compare_refl. Qed.

Lemma string_compare_prefix p a b :
  String.compare (p +:+ a) (p +:+ b) = String.compare a b.
Proof. induction p as [|c p IH]; simpl; [done|]. by rewrite ascii_compare_refl. Qed.

Lemma fmt_02d_ascending_all :
  forallb days_ascending_from (seqZ 1 31) = true.
Proof. vm_compute. reflexivity. Qed.

Lemma fmt_02d_ascending d1 d2 :
  1 ≤ d1 → d1 < d2 → d2 ≤ 31 → String.ltb (fmt_02d d1) (fmt_02d d2) = true.
Proof.
  intros H1 H12 H2. pose proof fmt_02d_ascending_all as H.
  rewrite forallb_forall in H.
  specialize (H d1 ltac:(apply list_elem_of_In, elem_of_seqZ; lia)).
  unfold days_ascending_from in H. rewrite forallb_forall in H.
  apply H. apply list_elem_of_In, elem_of_seqZ. lia.
Qed.

Lemma date_str_ascending year month d1 d2 :
  1 ≤ d1 → d1 < d2 → d2 ≤ 31 →
  String.ltb (date_str year month d1) (date_str year month d2) = true.
Proof.
  intros H1 H12 H2. unfold date_str, String.ltb.
  rewrite !string_compare_prefix.
  by apply fmt_02d_ascending.
Qed.

Lemma string_ltb_irrefl s : String.ltb s s = false.
Proof. unfold String.ltb. by rewrite string_compare_refl. Qed.

Lemma get_closeouts_Ok_valid w self year month σ batches σ' :
  get_closeouts_by_month w self year month σ = (Ok batches, σ') →
  valid_window year month.
Proof.
  unfold get_closeouts_by_month.
  destruct (month_window year month) as [win|] eqn:Hw.
  - intros _. by apply month_window_inv in Hw.
  - done.
Qed.

(** [generate_monthly_csv_data] once the fetch has returned. *)
Lemma generate_monthly_unfold w self year month σ batches σ1 infos :
  get_closeouts_by_month w self year month σ = (Ok batches, σ1) →
  summaries (tz w) batches = Ok infos →
  generate_monthly_csv_data w self year month σ
  = (Ok ((fun day => day_sum (date_str year month day) infos)
           <$> seqZ 1 (days_in_month year month)), σ1).
Proof.
  intros Hget Hsum.
  pose proof (get_closeouts_Ok_valid _ _ _ _ _ _ _ Hget) as (_ & Hm & _).
  unfold generate_monthly_csv_data.
  unfold mbind at 1. unfold M_bind at 1. rewrite Hget.
  unfold mbind at 1. unfold M_bind at 1. unfold lift at 1.
  rewrite (group_batches_summaries _ _ _ _ Hsum).
  unfold mbind at 1. unfold M_bind at 1. unfold lift at 1.
  unfold monthrange_ndays.
  destruct (Z.leb_spec 1 month); [|lia].
  destruct (Z.leb_spec month 12); [|lia].
  cbn [andb]. unfold mret, M_ret. f_equal. f_equal.
  apply list_fmap_ext. intros i day _. apply day_row_group.
Qed.

(** [%Y] and [f"{year}"] print the same. *)
Lemma fmt_Y_fmt_d y : fmt_Y y = fmt_d y.
Proof. reflexivity. Qed.

(** The summary of a batch the filter keeps is dated by its local day. *)
Lemma kept_batch_date tz year month batch :
  batch_in_month tz year month batch = Ok true →
  ∃ dt, batch_local_time tz batch = Some dt
      ∧ dt_year dt = year ∧ dt_month dt = month
      ∧ 1 ≤ dt_day dt ≤ days_in_month year month
      ∧ ∀ row, _format_single_batch tz batch = Ok row →
               date row = strftime_Ymd dt.
Proof.
  intros Hk. apply batch_in_month_true in Hk
    as (o & v & ms & dt & -> & Hv & Ht & Hms & Hdt & Hy & Hm).
  pose proof (fromtimestamp_ms_fields _ _ _ Hdt) as (_ & _ & Hd & _).
  exists dt. split_and!; try done; try (subst; lia).
  - unfold batch_local_time. by rewrite Hv, Ht, Hms, Hdt.
  - intros row. unfold _format_single_batch. cbn [py_get mbind result_bind].
    rewrite Hv. change (default (JInt 0) (Some v)) with v.
    unfold created_date_of. rewrite Ht, Hms. cbn [mbind result_bind].
    rewrite Hdt. cbn [mbind result_bind].
    destruct (batch_amounts (JObj o)) as [[[s t] d]|]; cbn; [|done].
    by intros [= <-].
Qed.

Lemma summaries_elem tz batches infos info :
  summaries tz batches = Ok infos → info ∈ infos →
  ∃ batch, batch ∈ batches ∧ _format_single_batch tz batch = Ok info.
Proof.
  revert infos. induction batches as [|b bs IH]; intros infos.
  - intros [= <-] Hin. by apply elem_of_nil in Hin.
  - cbn [summaries].
    destruct (_format_single_batch tz b) as [i|] eqn:Hi; cbn [mbind result_bind]; [|done].
    destruct (summaries tz bs) as [infos0|]; cbn [mbind result_bind]; [|done].
    intros [= <-] Hin. apply elem_of_cons in Hin as [-> | Hin].
    + exists b. split; [by left | done].
    + destruct (IH infos0 eq_refl Hin) as (batch & Hb & Hf).
      exists batch. split; [by right | done].
Qed.

(** Every summary of a fetched batch carries the date of one of the rows
    of the month. *)
Lemma fetched_summaries_in_month w self year month σ batches σ1 infos :
  get_closeouts_by_month w self year month σ = (Ok batches, σ1) →
  summaries (tz w) batches = Ok infos →
  ∀ info, info ∈ infos →
    ∃ day, 1 ≤ day ≤ days_in_month year month
         ∧ date info = date_str year month day.
Proof.
  intros Hget Hsum info Hin.
  pose proof (get_closeouts_Ok_valid _ _ _ _ _ _ _ Hget) as Hv.
  destruct (summaries_elem _ _ _ _ Hsum Hin) as (batch & Hb & Hf).
  pose proof (get_closeouts_kept _ _ _ _ _ _ _ Hv Hget batch Hb) as Hk.
  apply kept_batch_date in Hk as (dt & _ & Hy & Hm & Hd & Hrow).
  exists (dt_day dt). split; [done|].
  rewrite (Hrow info Hf). unfold strftime_Ymd, date_str.
  by rewrite Hy, Hm, fmt_Y_fmt_d.
Qed.



(** ** Exact amounts *)

Lemma Qc_of_Z_add a b : (Qc_of_Z a + Qc_of_Z b)%Qc = Qc_of_Z (a + b).
Proof.
  unfold Qc_of_Z. apply Qc_is_canon. cbn [this Qcplus Q2Qc].
  rewrite !Qred_correct, inject_Z_plus. reflexivity.
Qed.

Lemma Qc_of_Z_sub a b : (Qc_of_Z a - Qc_of_Z b)%Qc = Qc_of_Z (a - b).
Proof.
  unfold Qc_of_Z, Qcminus. apply Qc_is_canon. cbn [this Qcplus Qcopp Q2Qc].
  rewrite !Qred_correct. unfold Z.sub. rewrite inject_Z_plus, inject_Z_opp.
  reflexivity.
Qed.

Lemma Qc_of_Z_100_neq_0 : Qc_of_Z 100 ≠ 0%Qc.
Proof. intros H. apply (f_equal this) in H. vm_compute in H. discriminate. Qed.

Lemma cents_add a b : (cents a + cents b)%Qc = cents (a + b).
Proof.
  unfold cents. rewrite <- Qc_of_Z_add.
  pose proof Qc_of_Z_100_neq_0. field. done.
Qed.

Lemma cents_sub a b : (cents a - cents b)%Qc = cents (a - b).
Proof.
  unfold cents. rewrite <- Qc_of_Z_sub.
  pose proof Qc_of_Z_100_neq_0. field. done.
Qed.

Lemma this_Qc_of_Z k : this (Qc_of_Z k) = inject_Z k.
Proof.
  unfold Qc_of_Z. cbn [this Q2Qc]. apply Qred_identity. cbn. apply Z.gcd_1_r.
Qed.

Lemma shown_cents_cents k : shown_cents (cents k) = k.
Proof.
  unfold shown_cents, cents.
  replace (Qc_of_Z k / Qc_of_Z 100 * Qc_of_Z 100)%Qc with (Qc_of_Z k)
    by (pose proof Qc_of_Z_100_neq_0; field; done).
  unfold round_half_even. rewrite this_Qc_of_Z. cbn [Qnum Qden inject_Z].
  rewrite Z.div_1_r, Z.mod_1_r. reflexivity.
Qed.

Lemma whole_cents_0 : whole_cents 0%Qc.
Proof. exists 0. by rewrite cents_0. Qed.

Lemma whole_cents_add x y : whole_cents x → whole_cents y → whole_cents (x + y)%Qc.
Proof. intros [a ->] [b ->]. exists (a + b). apply cents_add. Qed.

Lemma whole_cents_sub x y : whole_cents x → whole_cents y → whole_cents (x - y)%Qc.
Proof. intros [a ->] [b ->]. exists (a - b). apply cents_sub. Qed.

Lemma shown_cents_add x y :
  whole_cents x → whole_cents y →
  shown_cents (x + y)%Qc = shown_cents x + shown_cents y.
Proof. intros [a ->] [b ->]. by rewrite cents_add, !shown_cents_cents. Qed.

Lemma foldl_whole_cents acc l :
  whole_cents acc → Forall whole_cents l →
  whole_cents (foldl Qcplus acc l)
  ∧ shown_cents (foldl Qcplus acc l) = shown_cents acc + sum_Z (shown_cents <$> l).
Proof.
  intros Ha Hl. revert acc Ha.
  induction Hl as [|x l Hx _ IH]; intros acc Ha; cbn [foldl fmap list_fmap sum_Z foldr].
  - split; [done | lia].
  - destruct (IH (acc + x)%Qc (whole_cents_add _ _ Ha Hx)) as [H1 H2].
    split; [done|]. rewrite H2, shown_cents_add by done.
    fold (sum_Z (shown_cents <$> l)). lia.
Qed.

(** The sum of amounts in whole cents is shown exactly. *)
Lemma py_sum_whole_cents l :
  Forall whole_cents l →
  whole_cents (py_sum l) ∧ shown_cents (py_sum l) = sum_Z (shown_cents <$> l).
Proof.
  intros Hl. destruct (foldl_whole_cents 0%Qc l whole_cents_0 Hl) as [H1 H2].
  split; [done|]. unfold py_sum. rewrite H2.
  destruct whole_cents_0 as [k Hk].
  replace (shown_cents 0%Qc) with 0; [lia|].
  by rewrite <- cents_0, shown_cents_cents.
Qed.

(** ** Rows that balance *)

Lemma foldl_balanced (a b : Qc) (rs : list Row) :
  Forall balanced rs →
  (foldl Qcplus a (debit <$> rs) + foldl Qcplus b (tip <$> rs))%Qc
  = foldl Qcplus (a + b)%Qc (total <$> rs).
Proof.
  intros H. revert a b. induction H as [|r rs Hr _ IH]; intros a b; [done|].
  cbn [fmap list_fmap foldl]. rewrite IH. f_equal.
  unfold balanced in Hr. rewrite <- Hr. ring.
Qed.

Lemma py_sum_balanced (rs : list Row) :
  Forall balanced rs →
  (py_sum (debit <$> rs) + py_sum (tip <$> rs))%Qc = py_sum (total <$> rs).
Proof.
  intros H. unfold py_sum. rewrite foldl_balanced by done.
  f_equal.
Qed.

Lemma batch_amounts_balanced batch s t d :
  batch_amounts batch = Ok (s, t, d) → (d + t = s)%Qc.
Proof.
  unfold batch_amounts.
  destruct (py_in "batchDetails" batch) as [has|]; cbn [mbind result_bind]; [|done].
  destruct (if has then _ else _) as [details|]; cbn [mbind result_bind]; [|done].
  destruct (has && truthy details).
  2: { intros [= <- <- <-]. ring. }
  destruct (py_get details "batchTotals" (JObj ∅)) as [bt|];
    cbn [mbind result_bind]; [|done].
  destruct (truthy bt).
  2: { intros [= <- <- <-]. ring. }
  destruct (py_get bt "sales" (JObj ∅)) as [sales|]; cbn [mbind result_bind]; [|done].
  destruct (if truthy sales then _ else _) as [sa|]; cbn [mbind result_bind]; [|done].
  destruct (py_get bt "tips" (JObj ∅)) as [tips|]; cbn [mbind result_bind]; [|done].
  destruct (if truthy tips then _ else _) as [ht|]; cbn [mbind result_bind]; [|done].
  destruct (if ht then _ else _) as [ta|]; cbn [mbind result_bind]; [|done].
  intros [= <- <- <-]. ring.
Qed.

Lemma format_single_batch_balanced tz batch r :
  _format_single_batch tz batch = Ok r → balanced r.
Proof.
  unfold _format_single_batch.
  destruct (py_get batch "createdTime" (JInt 0)) as [ct|]; cbn [mbind result_bind]; [|done].
  destruct (created_date_of tz ct) as [cd|]; cbn [mbind result_bind]; [|done].
  destruct (batch_amounts batch) as [[[s t] d]|] eqn:Ha; cbn [mbind result_bind]; [|done].
  intros [= <-]. unfold balanced. cbn. by apply batch_amounts_balanced in Ha.
Qed.

Lemma summaries_balanced tz batches infos :
  summaries tz batches = Ok infos → Forall balanced infos.
Proof.
  revert infos. induction batches as [|b bs IH]; intros infos.
  - intros [= <-]. constructor.
  - cbn [summaries].
    destruct (_format_single_batch tz b) as [info|] eqn:Hi; cbn [mbind result_bind]; [|done].
    destruct (summaries tz bs) as [infos'|]; cbn [mbind result_bind]; [|done].
    intros [= <-]. constructor; [by eapply format_single_batch_balanced | by apply IH].
Qed.

Lemma on_day_Forall (P : Row → Prop) d infos :
  Forall P infos → Forall P (on_day d infos).
Proof.
  intros H. unfold on_day. apply Forall_forall. intros r Hr.
  apply list_elem_of_In, filter_In in Hr as [Hr _].
  rewrite Forall_forall in H. by apply H, list_elem_of_In.
Qed.

Lemma day_sum_balanced d infos :
  Forall balanced infos → balanced (day_sum d infos).
Proof.
  intros H. unfold balanced, day_sum. cbn.
  apply py_sum_balanced. by apply on_day_Forall.
Qed.

Lemma Forall_fmap_field (f : Row → Qc) (P : Row → Prop) rs :
  (∀ r, P r → whole_cents (f r)) → Forall P rs → Forall whole_cents (f <$> rs).
Proof.
  intros Hf H. apply Forall_fmap. eapply Forall_impl; [exact H|]. exact Hf.
Qed.

Lemma day_sum_whole_cents d infos :
  Forall row_whole_cents infos → row_whole_cents (day_sum d infos).
Proof.
  intros H. pose proof (on_day_Forall _ d _ H) as Hd.
  unfold row_whole_cents, day_sum. cbn. split_and!.
  - apply py_sum_whole_cents, (Forall_fmap_field _ _ _ (λ r Hr, proj1 Hr) Hd).
  - apply py_sum_whole_cents,
      (Forall_fmap_field _ _ _ (λ r Hr, proj1 (proj2 Hr)) Hd).
  - apply py_sum_whole_cents,
      (Forall_fmap_field _ _ _ (λ r Hr, proj2 (proj2 Hr)) Hd).
Qed.

Lemma summaries_whole_cents tz batches infos :
  Forall (wf_batch tz) batches → summaries tz batches = Ok infos →
  Forall row_whole_cents infos.
Proof.
  intros Hwf. revert infos. induction Hwf as [|b bs Hb _ IH]; intros infos.
  - intros [= <-]. constructor.
  - cbn [summaries]. destruct b as [| | | | |o]; try done.
    destruct (format_single_batch_wf _ _ Hb) as (d & _ & ->).
    cbn [mbind result_bind].
    destruct (summaries tz bs) as [infos'|]; cbn [mbind result_bind]; [|done].
    intros [= <-]. constructor; [|by apply IH].
    assert (Ht : whole_cents (tip_of (JObj o))).
    { unfold tip_of. destruct (0 <? _); [by eexists | apply whole_cents_0]. }
    split_and!; cbn; [|done|by eexists].
    apply whole_cents_sub; [by eexists | done].
Qed.

(** ** Total runs on well-typed answers *)

Lemma filter_batches_strings tz year month l filtered :
  Forall (fun b => ∃ s, b = JStr s) l →
  filter_batches tz year month l = Ok filtered → filtered = [].
Proof.
  intros [|b l' [s ->] _].
  - by intros [= <-].
  - cbn. done.
Qed.

Lemma py_iter_not_array elements l :
  py_iter elements = Ok l → (∀ a, elements ≠ JArr a) →
  Forall (fun b => ∃ s, b = JStr s) l.
Proof.
  destruct elements as [| | |s|a|o]; cbn; try done.
  - intros [= <-] _. apply Forall_fmap, Forall_forall. intros c _. by eexists.
  - intros _ H. by destruct (H a).
  - intros [= <-] _. apply Forall_fmap, Forall_forall. intros k _. by eexists.
Qed.

(** On a well-typed API the fetch returns batches that follow the data
    model. *)
Lemma get_closeouts_wf w self year month σ :
  api_ok w → valid_window year month →
  ∃ batches σ1,
    get_closeouts_by_month w self year month σ = (Ok batches, σ1)
    ∧ Forall (wf_batch (tz w)) batches.
Proof.
  intros Hapi Hv. rewrite get_closeouts_unfold by done.
  set (σ0 := with_stdout σ (fetch_banner year month)).
  destruct (http w (length (requests σ0)) (request_to self "/batches?limit=901"))
    as [r|msg] eqn:Hh.
  2: { rewrite (make_request_network_failure _ _ _ _ _ Hh). by eauto. }
  destruct (error_status (status_code r)) eqn:Hst.
  { rewrite (make_request_error_status _ _ _ _ _ Hh Hst). by eauto. }
  destruct (json_body r) as [j|] eqn:Hj.
  2: { rewrite (make_request_not_json _ _ _ _ _ Hh Hst Hj). by eauto. }
  rewrite (make_request_json _ _ _ _ _ _ Hh Hst Hj).
  destruct j as [| | | | |o]; try (cbn; by eauto).
  cbn [py_get mbind result_bind].
  destruct (py_iter (default (JArr []) (o !! "elements"))) as [l|] eqn:Hit;
    cbn [mbind result_bind]; [|by eauto].
  destruct (filter_batches (tz w) year month l) as [filtered|] eqn:Hf; [|by eauto].
  eexists _, _. split; [reflexivity|].
  destruct (o !! "elements") as [elements|] eqn:He.
  - assert (Hcase : (∃ a, elements = JArr a) ∨ ∀ a, elements ≠ JArr a)
      by (destruct elements; eauto; right; done).
    destruct Hcase as [[a ->] | Hna].
    + cbn in Hit. injection Hit as <-.
      pose proof (Hapi _ _ _ Hh o a Hj He) as Hall.
      apply Forall_forall. intros b Hb.
      destruct (filter_batches_kept _ _ _ _ _ Hf b Hb) as [Hin _].
      rewrite Forall_forall in Hall. by apply Hall.
    + cbn [default] in Hit.
      rewrite (filter_batches_strings _ _ _ _ _
                 (py_iter_not_array _ _ Hit Hna) Hf).
      constructor.
  - cbn in Hit. injection Hit as <-. cbn in Hf. injection Hf as <-. constructor.
Qed.

(** The rows of a month on a well-typed API. *)
Lemma generate_monthly_wf w self year month σ :
  api_ok w → valid_window year month →
  ∃ rows σ1,
    generate_monthly_csv_data w self year month σ = (Ok rows, σ1)
    ∧ length rows = Z.to_nat (days_in_month year month)
    ∧ Forall balanced rows ∧ Forall row_whole_cents rows
    ∧ requests σ1 = (requests σ ++ [batches_request self])%list
    ∧ files σ1 = files σ.
Proof.
  intros Hapi Hv.
  destruct (get_closeouts_wf w self year month σ Hapi Hv)
    as (batches & σ1 & Hget & Hwf).
  destruct (summaries_wf _ _ Hwf) as [infos Hsum].
  pose proof (get_closeouts_effects w self year month σ Hv) as [Hreq Hfiles].
  rewrite Hget in Hreq, Hfiles. cbn in Hreq, Hfiles.
  eexists _, σ1. split; [by apply (generate_monthly_unfold _ _ _ _ _ batches)|].
  split_and!; try done.
  - by rewrite length_fmap, length_seqZ.
  - apply Forall_fmap, Forall_forall. intros day _.
    apply day_sum_balanced. by eapply summaries_balanced.
  - apply Forall_fmap, Forall_forall. intros day _.
    apply day_sum_whole_cents. by eapply summaries_whole_cents.
Qed.

(** [export_monthly_csv] once the rows are there. *)
Lemma export_monthly_unfold w self year month filename σ rows σ1 :
  generate_monthly_csv_data w self year month σ = (Ok rows, σ1) →
  writable w (month_filename year month filename) = true →
  export_monthly_csv w self year month filename σ
  = (Ok (month_filename year month filename),
     with_stdout
       (with_file σ1 (month_filename year month filename)
          ([Text "Belle Nails and Spa";
            Text ("Sales for the month of " +:+ month_name month +:+ " "
                  +:+ fmt_d year);
            csv_header]
           ++ (csv_of_row <$> rows)
           ++ [csv_row "TOTAL" (py_sum (debit <$> rows))
                 (py_sum (tip <$> rows)) (py_sum (total <$> rows))]))
       ["CSV file created: " +:+ month_filename year month filename]).
Proof.
  intros Hgen Hw. unfold export_monthly_csv.
  replace (match filename with Some f => f | None => _ end)
    with (month_filename year month filename) by (by destruct filename).
  unfold mbind at 1. unfold M_bind at 1. rewrite Hgen.
  unfold mbind at 1. unfold M_bind at 1. unfold write_file at 1. rewrite Hw.
  reflexivity.
Qed.

Lemma shown_cents_columns rows :
  Forall row_whole_cents rows →
  shown_cents (py_sum (debit <$> rows)) = sum_Z ((shown_cents ∘ debit) <$> rows)
  ∧ shown_cents (py_sum (tip <$> rows)) = sum_Z ((shown_cents ∘ tip) <$> rows)
  ∧ shown_cents (py_sum (total <$> rows)) = sum_Z ((shown_cents ∘ total) <$> rows).
Proof.
  intros H. rewrite !list_fmap_compose. split_and!.
  - apply py_sum_whole_cents, (Forall_fmap_field _ _ _ (λ r Hr, proj1 Hr) H).
  - apply py_sum_whole_cents,
      (Forall_fmap_field _ _ _ (λ r Hr, proj1 (proj2 Hr)) H).
  - apply py_sum_whole_cents,
      (Forall_fmap_field _ _ _ (λ r Hr, proj2 (proj2 Hr)) H).
Qed.

(** C4.  For every month export (on an API whose batches follow the data
    model, to a file that can be written), the file [export_monthly_csv]
    writes ends with a [TOTAL] row that holds the column-wise sums of the
    debit, tip and total fields of the daily rows written above it, under
    exact arithmetic; the amounts being whole cents, the cents shown in the
    [TOTAL] row are the sums of the cents shown in the daily rows. *)
Theorem monthly_total_row (w : World) (self : CloverAPI) (year month : Z)
    (filename : option string) (σ : Output) :
  api_ok w → valid_window year month →
  writable w (month_filename year month filename) = true →
  ∃ rows σ1 σ2,
    generate_monthly_csv_data w self year month σ = (Ok rows, σ1)
    ∧ export_monthly_csv w self year month filename σ
      = (Ok (month_filename year month filename), σ2)
    ∧ files σ2
      = (files σ
         ++ [(month_filename year month filename,
              [Text "Belle Nails and Spa";
               Text ("Sales for the month of " +:+ month_name month +:+ " "
                     +:+ fmt_d year);
               csv_header]
              ++ (csv_of_row <$> rows)
              ++ [CsvRow ["TOTAL";
                          fmt_2f (py_sum (debit <$> rows));
                          fmt_2f (py_sum (tip <$> rows));
                          fmt_2f (py_sum (total <$> rows))]])])%list
    ∧ shown_cents (py_sum (debit <$> rows))
      = sum_Z ((shown_cents ∘ debit) <$> rows)
    ∧ shown_cents (py_sum (tip <$> rows))
      = sum_Z ((shown_cents ∘ tip) <$> rows)
    ∧ shown_cents (py_sum (total <$> rows))
      = sum_Z ((shown_cents ∘ total) <$> rows).
Proof.
  intros Hapi Hv Hw.
  destruct (generate_monthly_wf w self year month σ Hapi Hv)
    as (rows & σ1 & Hgen & _ & _ & Hcents & _ & Hfiles).
  exists rows, σ1. eexists. split; [done|].
  split; [by apply export_monthly_unfold|].
  split; [cbn; by rewrite Hfiles|].
  by apply shown_cents_columns.
Qed.

(** ** The combined report *)

(** The loop of [export_multiple_months_csv] in terms of the rows of each
    month. *)
Lemma collect_months_data w self year_months all_data gd gt gs σ :
  collect_months w self year_months (all_data, (gd, gt, gs)) σ
  = match months_data w self year_months σ with
    | (Ok rss, σ') =>
        (Ok ((all_data ++ concat rss)%list,
             (foldl Qcplus gd ((fun rows => py_sum (debit <$> rows)) <$> rss),
              foldl Qcplus gt ((fun rows => py_sum (tip <$> rows)) <$> rss),
              foldl Qcplus gs ((fun rows => py_sum (total <$> rows)) <$> rss))),
         σ')
    | (Raise e, σ') => (Raise e, σ')
    end.
Proof.
  revert all_data gd gt gs σ.
  induction year_months as [|[year month] rest IH]; intros all_data gd gt gs σ.
  - cbn. by rewrite app_nil_r.
  - cbn [collect_months months_data].
    unfold mbind, M_bind, mret, M_ret.
    destruct (generate_monthly_csv_data w self year month σ) as [[rows|e] σ1];
      [|done].
    rewrite IH.
    destruct (months_data w self rest σ1) as [[rss|e] σ2]; [|done].
    cbn. by rewrite <- app_assoc.
Qed.

Lemma export_multiple_unfold w self year_months filename σ rss σ1 :
  months_data w self year_months σ = (Ok rss, σ1) →
  writable w (months_filename year_months filename) = true →
  export_multiple_months_csv w self year_months filename σ
  = (Ok (months_filename year_months filename),
     with_stdout
       (with_file σ1 (months_filename year_months filename)
          ([Text "Belle Nails and Spa";
            Text ("Sales for the months of "
                  +:+ join ", " ((fun ym => month_name ym.2 +:+ " " +:+ fmt_d ym.1)
                                  <$> year_months));
            csv_header]
           ++ (csv_of_row <$> concat rss)
           ++ [csv_row "GRAND TOTAL"
                 (py_sum ((fun rows => py_sum (debit <$> rows)) <$> rss))
                 (py_sum ((fun rows => py_sum (tip <$> rows)) <$> rss))
                 (py_sum ((fun rows => py_sum (total <$> rows)) <$> rss))]))
       ["Multi-month CSV file created: "
        +:+ months_filename year_months filename]).
Proof.
  intros Hdata Hw. unfold export_multiple_months_csv.
  replace (match filename with Some f => f | None => _ end)
    with (months_filename year_months filename) by (by destruct filename).
  unfold mbind at 1. unfold M_bind at 1.
  rewrite collect_months_data, Hdata.
  unfold mbind at 1. unfold M_bind at 1. unfold write_file at 1. rewrite Hw.
  reflexivity.
Qed.

Lemma months_data_wf w self year_months σ :
  api_ok w → Forall (fun ym => valid_window ym.1 ym.2) year_months →
  ∃ rss σ1,
    months_data w self year_months σ = (Ok rss, σ1)
    ∧ Forall2 month_rows_ok year_months rss
    ∧ files σ1 = files σ.
Proof.
  intros Hapi Hv. revert σ.
  induction Hv as [|[year month] rest Hym _ IH]; intros σ.
  - exists [], σ. by split_and!.
  - destruct (generate_monthly_wf w self year month σ Hapi Hym)
      as (rows & σ1 & Hgen & Hlen & Hbal & Hcents & _ & Hfiles).
    destruct (IH σ1) as (rss & σ2 & Hdata & Hall & Hfiles2).
    exists (rows :: rss), σ2. split_and!.
    + cbn [months_data]. unfold mbind, M_bind, mret, M_ret.
      by rewrite Hgen, Hdata.
    + constructor; [done | done].
    + congruence.
Qed.

Lemma py_sum_app l1 l2 : py_sum (l1 ++ l2) = (py_sum l1 + py_sum l2)%Qc.
Proof.
  unfold py_sum. rewrite foldl_app.
  generalize (foldl Qcplus 0%Qc l1). intros a.
  induction l2 as [|x l2 IH] using rev_ind; cbn.
  - ring.
  - rewrite !foldl_app. cbn. rewrite IH. ring.
Qed.

Lemma py_sum_concat (f : Row → Qc) (rss : list (list Row)) :
  py_sum ((fun rows => py_sum (f <$> rows)) <$> rss) = py_sum (f <$> concat rss).
Proof.
  induction rss as [|rows rss IH] using rev_ind; [done|].
  rewrite fmap_app, concat_app, fmap_app, !py_sum_app, IH. cbn.
  rewrite app_nil_r. f_equal. unfold py_sum. cbn. ring.
Qed.




(** ** The exports on the sample world *)

Lemma monthly_total_row_witness :
  ∃ σ2,
    export_monthly_csv sample_world sample_api 2025 1 None no_output
    = (Ok "clover_monthly_data_2025_01.csv", σ2)
    ∧ length (files σ2) = 1%nat.
Proof.
  destruct (monthly_total_row sample_world sample_api 2025 1 None no_output
              sample_world_ok valid_window_2025_1 eq_refl)
    as (rows & σ1 & σ2 & _ & Hexp & Hfiles & _).
  exists σ2. split; [exact Hexp|]. rewrite Hfiles. reflexivity.
Defined.


(** ** What a run that returns has computed *)

Lemma group_batches_inv tz daily_data batches m :
  group_batches tz daily_data batches = Ok m →
  ∃ infos, summaries tz batches = Ok infos ∧ m = foldl add_info daily_data infos.
Proof.
  revert daily_data. induction batches as [|b bs IH]; intros daily_data.
  - intros [= <-]. by exists [].
  - cbn [group_batches summaries]. unfold add_batch.
    destruct (_format_single_batch tz b) as [info|]; cbn [mbind result_bind]; [|done].
    intros Hg. apply IH in Hg as (infos & -> & ->).
    by exists (info :: infos).
Qed.

Lemma generate_monthly_inv w self year month σ rows σ1 :
  generate_monthly_csv_data w self year month σ = (Ok rows, σ1) →
  ∃ batches infos,
    get_closeouts_by_month w self year month σ = (Ok batches, σ1)
    ∧ summaries (tz w) batches = Ok infos
    ∧ rows = (fun day => day_sum (date_str year month day) infos)
               <$> seqZ 1 (days_in_month year month).
Proof.
  intros Hgen. pose proof Hgen as Hgen'. revert Hgen.
  unfold generate_monthly_csv_data. unfold mbind at 1. unfold M_bind at 1.
  destruct (get_closeouts_by_month w self year month σ) as [[batches|] σ'] eqn:Hget;
    [|done].
  unfold mbind at 1. unfold M_bind at 1. unfold lift at 1.
  destruct (group_batches (tz w) ∅ batches) as [m|] eqn:Hg; [|done].
  apply group_batches_inv in Hg as (infos & Hsum & ->).
  intros Hrest. exists batches, infos.
  assert (σ' = σ1) as ->.
  { revert Hrest. unfold mbind, M_bind, lift.
    destruct (monthrange_ndays year month); [|done]. by intros [= _ ->]. }
  split_and!; [done | done |].
  rewrite (generate_monthly_unfold _ _ _ _ _ _ _ _ Hget Hsum) in Hgen'.
  by injection Hgen' as <-.
Qed.

Lemma generate_monthly_balanced w self year month σ rows σ1 :
  generate_monthly_csv_data w self year month σ = (Ok rows, σ1) →
  Forall balanced rows.
Proof.
  intros Hgen. apply generate_monthly_inv in Hgen as (batches & infos & _ & Hsum & ->).
  apply Forall_fmap, Forall_forall. intros day _.
  apply day_sum_balanced. by eapply summaries_balanced.
Qed.

Lemma export_monthly_inv w self year month filename σ fn σ2 :
  export_monthly_csv w self year month filename σ = (Ok fn, σ2) →
  ∃ rows σ1,
    generate_monthly_csv_data w self year month σ = (Ok rows, σ1)
    ∧ fn = month_filename year month filename
    ∧ files σ2
      = (files σ1
         ++ [(fn,
              [Text "Belle Nails and Spa";
               Text ("Sales for the month of " +:+ month_name month +:+ " "
                     +:+ fmt_d year);
               csv_header]
              ++ (csv_of_row <$> rows)
              ++ [csv_row "TOTAL" (py_sum (debit <$> rows))
                    (py_sum (tip <$> rows)) (py_sum (total <$> rows))])])%list.
Proof.
  intros Hexp.
  destruct (generate_monthly_csv_data w self year month σ) as [[rows|e] σ1] eqn:Hgen.
  2: { revert Hexp. unfold export_monthly_csv. unfold mbind at 1. unfold M_bind at 1.
       by rewrite Hgen. }
  destruct (writable w (month_filename year month filename)) eqn:Hw.
  - rewrite (export_monthly_unfold _ _ _ _ _ _ _ _ Hgen Hw) in Hexp.
    injection Hexp as <- <-. by exists rows, σ1.
  - revert Hexp. unfold export_monthly_csv.
    replace (match filename with Some f => f | None => _ end)
      with (month_filename year month filename) by (by destruct filename).
    unfold mbind at 1. unfold M_bind at 1. rewrite Hgen.
    unfold mbind at 1. unfold M_bind at 1. unfold write_file at 1.
    by rewrite Hw.
Qed.

Lemma months_data_balanced w self year_months σ rss σ1 :
  months_data w self year_months σ = (Ok rss, σ1) →
  Forall (Forall balanced) rss.
Proof.
  revert σ rss. induction year_months as [|[year month] rest IH]; intros σ rss.
  - cbn [months_data]. unfold mret, M_ret. intros [= <- _]. constructor.
  - cbn [months_data]. unfold mbind, M_bind, mret, M_ret.
    destruct (generate_monthly_csv_data w self year month σ) as [[rows|e] σ'] eqn:Hgen;
      [|done].
    destruct (months_data w self rest σ') as [[rss'|e] σ''] eqn:Hrest; [|done].
    intros [= <- <-]. constructor.
    + by eapply generate_monthly_balanced.
    + by eapply IH.
Qed.

Lemma export_multiple_inv w self year_months filename σ fn σ2 :
  export_multiple_months_csv w self year_months filename σ = (Ok fn, σ2) →
  ∃ rss σ1,
    months_data w self year_months σ = (Ok rss, σ1)
    ∧ fn = months_filename year_months filename
    ∧ files σ2
      = (files σ1
         ++ [(fn,
              [Text "Belle Nails and Spa";
               Text ("Sales for the months of "
                     +:+ join ", "
                           ((fun ym => month_name ym.2 +:+ " " +:+ fmt_d ym.1)
                              <$> year_months));
               csv_header]
              ++ (csv_of_row <$> concat rss)
              ++ [csv_row "GRAND TOTAL"
                    (py_sum (debit <$> concat rss))
                    (py_sum (tip <$> concat rss))
                    (py_sum (total <$> concat rss))])])%list.
Proof.
  intros Hexp.
  destruct (months_data w self year_months σ) as [[rss|e] σ1] eqn:Hdata.
  2: { revert Hexp. unfold export_multiple_months_csv.
       unfold mbind at 1. unfold M_bind at 1.
       by rewrite collect_months_data, Hdata. }
  destruct (writable w (months_filename year_months filename)) eqn:Hw.
  - rewrite (export_multiple_unfold _ _ _ _ _ _ _ Hdata Hw) in Hexp.
    injection Hexp as <- <-. exists rss, σ1. split_and!; [done..|].
    cbn. by rewrite !py_sum_concat.
  - revert Hexp. unfold export_multiple_months_csv.
    replace (match filename with Some f => f | None => _ end)
      with (months_filename year_months filename) by (by destruct filename).
    unfold mbind at 1. unfold M_bind at 1.
    rewrite collect_months_data, Hdata.
    unfold mbind at 1. unfold M_bind at 1. unfold write_file at 1.
    by rewrite Hw.
Qed.

(** C9.  [debit + tip = total] holds exactly for the summary of every
    batch, for every daily row [generate_monthly_csv_data] returns, and for
    the amounts of the [TOTAL] and [GRAND TOTAL] rows the two exports
    write, which are the column sums of the rows written above them. *)
Theorem debit_plus_tip_is_total :
  (∀ tz batch r, _format_single_batch tz batch = Ok r →
     (debit r + tip r = total r)%Qc)
  ∧ (∀ w self year month σ rows σ1,
       generate_monthly_csv_data w self year month σ = (Ok rows, σ1) →
       ∀ r, r ∈ rows → (debit r + tip r = total r)%Qc)
  ∧ (∀ w self year month filename σ fn σ2,
       export_monthly_csv w self year month filename σ = (Ok fn, σ2) →
       ∃ rows σ1,
         generate_monthly_csv_data w self year month σ = (Ok rows, σ1)
         ∧ last (files σ2)
           = Some (fn,
                   [Text "Belle Nails and Spa";
                    Text ("Sales for the month of " +:+ month_name month
                          +:+ " " +:+ fmt_d year);
                    csv_header]
                   ++ (csv_of_row <$> rows)
                   ++ [csv_row "TOTAL" (py_sum (debit <$> rows))
                         (py_sum (tip <$> rows)) (py_sum (total <$> rows))])%list
         ∧ (py_sum (debit <$> rows) + py_sum (tip <$> rows)
            = py_sum (total <$> rows))%Qc)
  ∧ (∀ w self year_months filename σ fn σ2,
       export_multiple_months_csv w self year_months filename σ = (Ok fn, σ2) →
       ∃ rss σ1,
         months_data w self year_months σ = (Ok rss, σ1)
         ∧ last (files σ2)
           = Some (fn,
                   [Text "Belle Nails and Spa";
                    Text ("Sales for the months of "
                          +:+ join ", "
                                ((fun ym => month_name ym.2 +:+ " "
                                            +:+ fmt_d ym.1) <$> year_months));
                    csv_header]
                   ++ (csv_of_row <$> concat rss)
                   ++ [csv_row "GRAND TOTAL"
                         (py_sum (debit <$> concat rss))
                         (py_sum (tip <$> concat rss))
                         (py_sum (total <$> concat rss))])%list
         ∧ (py_sum (debit <$> concat rss) + py_sum (tip <$> concat rss)
            = py_sum (total <$> concat rss))%Qc).
Proof.
  split_and!.
  - intros tz batch r. apply format_single_batch_balanced.
  - intros w self year month σ rows σ1 Hgen r Hr.
    apply generate_monthly_balanced in Hgen. rewrite Forall_forall in Hgen.
    by apply Hgen.
  - intros w self year month filename σ fn σ2 Hexp.
    apply export_monthly_inv in Hexp as (rows & σ1 & Hgen & -> & Hfiles).
    exists rows, σ1. split; [done|]. split.
    + by rewrite Hfiles, last_snoc.
    + apply py_sum_balanced. by eapply generate_monthly_balanced.
  - intros w self year_months filename σ fn σ2 Hexp.
    apply export_multiple_inv in Hexp as (rss & σ1 & Hdata & -> & Hfiles).
    exists rss, σ1. split; [done|]. split.
    + by rewrite Hfiles, last_snoc.
    + apply py_sum_balanced. apply Forall_concat.
      by eapply months_data_balanced.
Qed.

Lemma debit_plus_tip_is_total_witness :
  ∃ r, _format_single_batch UTC sample_batch = Ok r
     ∧ (debit r + tip r = total r)%Qc.
Proof.
  destruct (format_single_batch_wf UTC _ (Forall_inv sample_batches_wf))
    as (d & _ & Hr).
  eexists. split; [exact Hr|].
  exact (proj1 debit_plus_tip_is_total UTC _ _ Hr).
Defined.

(** ** The command line *)

Lemma resolve_credentials_chosen w args σ :
  ∃ σ', resolve_credentials w args σ = (Ok (chosen_config w args), σ')
      ∧ requests σ' = requests σ ∧ files σ' = files σ.
Proof.
  unfold resolve_credentials, chosen_config.
  destruct (opt_env args); [by eexists|].
  destruct (_ && _); [by eexists|].
  unfold load_config_from_file. destruct (config_module w); by eexists.
Qed.

Lemma int_each_Raise pieces :
  Exists (fun v : result Z => ∃ e, v = Raise e)
    ((fun m => py_int (strip m)) <$> pieces) →
  ∃ e, int_each pieces = Raise e.
Proof.
  induction pieces as [|p ps IH]; cbn [fmap list_fmap int_each].
  - intros H. by apply Exists_nil in H.
  - intros H. apply Exists_cons in H as [[e He] | H].
    + rewrite He. by eexists.
    + destruct (py_int (strip p)); cbn [mbind result_bind]; [|by eexists].
      destruct (IH H) as [e ->]. by eexists.
Qed.

Lemma int_each_Ok pieces months :
  int_each pieces = Ok months →
  (fun m => py_int (strip m)) <$> pieces = Ok <$> months.
Proof.
  revert months. induction pieces as [|p ps IH]; intros months.
  - by intros [= <-].
  - cbn [int_each fmap list_fmap].
    destruct (py_int (strip p)) as [n|]; cbn [mbind result_bind]; [|done].
    destruct (int_each ps) as [ns|]; cbn [mbind result_bind]; [|done].
    intros [= <-]. cbn. f_equal. by apply IH.
Qed.





Lemma print_all_eq lines σ : print_all lines σ = (Ok (), with_stdout σ lines).
Proof.
  revert σ. induction lines as [|l lines IH]; intros σ.
  - cbn. unfold mret, M_ret, with_stdout. destruct σ. cbn. by rewrite app_nil_r.
  - cbn [print_all]. unfold mbind, M_bind. rewrite print_eq, IH.
    by rewrite with_stdout_app.
Qed.

Lemma main_unfold w args :
  main w args
  = match parse_months (year_argument w args) (month_argument w args) with
    | Rejected message => print message
    | Months year_months =>
        config ← resolve_credentials w args;
        if negb (str_truthy (cfg_access_token config))
           || negb (str_truthy (cfg_merchant_id config))
        then print_all missing_credentials_help
        else
          run_reports w (default "" (cfg_access_token config))
            (default "" (cfg_merchant_id config)) (cfg_base_url config)
            year_months (opt_output args)
    end.
Proof.
  unfold main, year_argument, month_argument.
  by destruct (dt_month (today w) =? 1).
Qed.



(** ** The source of the credentials *)

(** C8, the claim as stated does not hold: with [--env] the environment
    wins over [--token]/[--merchant], and without [--env] the environment
    is not read at all, so the configuration module wins over it. *)
Lemma credentials_do_not_follow_precedence :
  (resolve_credentials configured_world
     {| opt_year := None; opt_month := None; opt_token := Some "FLAG_TOKEN";
        opt_merchant := Some "FLAG_MERCHANT"; opt_output := None;
        opt_env := true |} no_output).1
  = Ok (mk_config (Some "ENV_TOKEN") (Some "ENV_MERCHANT") production_url)
  ∧ cfg_access_token
      (credentials_by_precedence configured_world
         {| opt_year := None; opt_month := None; opt_token := Some "FLAG_TOKEN";
            opt_merchant := Some "FLAG_MERCHANT"; opt_output := None;
            opt_env := true |})
    = Some "FLAG_TOKEN"
  ∧ (resolve_credentials configured_world no_flags no_output).1
    = Ok (mk_config (Some "FILE_TOKEN") (Some "FILE_MERCHANT") production_url)
  ∧ cfg_access_token (credentials_by_precedence configured_world no_flags)
    = Some "ENV_TOKEN"
  ∧ (resolve_credentials configured_world no_flags no_output).1
    ≠ Ok (credentials_by_precedence configured_world no_flags).
Proof. split_and!; try (vm_compute; reflexivity). vm_compute. discriminate. Qed.

(** C8, amended.  The credentials come from one source, chosen by the
    flags: with [--env] the environment variables, whatever the other
    flags; otherwise [--token] and [--merchant] when both are given and not
    empty, with the production host as base URL; otherwise the
    configuration module (empty credentials and a warning when it is
    missing).  A source that lacks a value is not completed from another
    one.  The base URL is the production host whenever the chosen source
    does not set it. *)
Theorem credentials_come_from_one_source (w : World) (args : Argv) (σ : Output) :
  (opt_env args = true →
     resolve_credentials w args σ
     = (Ok (mk_config (environ w !! "CLOVER_ACCESS_TOKEN")
              (environ w !! "CLOVER_MERCHANT_ID")
              (default production_url (environ w !! "CLOVER_BASE_URL"))), σ))
  ∧ (opt_env args = false →
     str_truthy (opt_token args) = true → str_truthy (opt_merchant args) = true →
     resolve_credentials w args σ
     = (Ok (mk_config (opt_token args) (opt_merchant args) production_url), σ))
  ∧ (opt_env args = false →
     str_truthy (opt_token args) && str_truthy (opt_merchant args) = false →
     ∀ config, config_module w = Some config →
     resolve_credentials w args σ
     = (Ok (mk_config (Some (default "" (config !! "CLOVER_ACCESS_TOKEN")))
              (Some (default "" (config !! "CLOVER_MERCHANT_ID")))
              (default production_url (config !! "CLOVER_BASE_URL"))), σ))
  ∧ (opt_env args = false →
     str_truthy (opt_token args) && str_truthy (opt_merchant args) = false →
     config_module w = None →
     resolve_credentials w args σ
     = (Ok (mk_config (Some "") (Some "") production_url),
        with_stdout σ
          ["Warning: config.py file not found. Create one from config_template.py"]))
  ∧ (∀ cfg σ', resolve_credentials w args σ = (Ok cfg, σ') →
     (if opt_env args then environ w !! "CLOVER_BASE_URL"
      else if str_truthy (opt_token args) && str_truthy (opt_merchant args)
           then None
           else config_module w ≫= (.!! "CLOVER_BASE_URL")) = None →
     cfg_base_url cfg = production_url).
Proof.
  unfold resolve_credentials, load_config_from_env, load_config_from_file.
  split_and!.
  - by intros ->.
  - by intros -> -> ->.
  - by intros -> -> config ->.
  - by intros -> -> ->.
  - intros cfg σ'. destruct (opt_env args).
    + intros [= <- _] ->. reflexivity.
    + destruct (_ && _).
      * by intros [= <- _] _.
      * destruct (config_module w) as [config|]; cbn.
        -- intros [= <- _] ->. reflexivity.
        -- unfold mbind, M_bind. rewrite print_eq. by intros [= <- _] _.
Qed.

Lemma credentials_come_from_one_source_witness :
  resolve_credentials configured_world
    {| opt_year := None; opt_month := None; opt_token := Some "FLAG_TOKEN";
       opt_merchant := Some "FLAG_MERCHANT"; opt_output := None;
       opt_env := true |} no_output
  = (Ok (mk_config (Some "ENV_TOKEN") (Some "ENV_MERCHANT") production_url),
     no_output)
  ∧ resolve_credentials configured_world
      {| opt_year := None; opt_month := None; opt_token := Some "FLAG_TOKEN";
         opt_merchant := Some "FLAG_MERCHANT"; opt_output := None;
         opt_env := false |} no_output
    = (Ok (mk_config (Some "FLAG_TOKEN") (Some "FLAG_MERCHANT") production_url),
       no_output).
Proof.
  split.
  - exact (proj1 (credentials_come_from_one_source configured_world
                    {| opt_year := None; opt_month := None;
                       opt_token := Some "FLAG_TOKEN";
                       opt_merchant := Some "FLAG_MERCHANT";
                       opt_output := None; opt_env := true |} no_output)
             eq_refl).
  - exact (proj1 (proj2 (credentials_come_from_one_source configured_world
                    {| opt_year := None; opt_month := None;
                       opt_token := Some "FLAG_TOKEN";
                       opt_merchant := Some "FLAG_MERCHANT";
                       opt_output := None; opt_env := false |} no_output))
             eq_refl eq_refl eq_refl).
Defined.

(** * Further properties of the script *)

(** ** What is caught *)

(** A [try] whose handler catches everything and does not raise itself
    never raises. *)
Lemma try_except_all_Ok {A} (body : M A) (handler : exn → M A) σ :
  (∀ e σ0, ∃ a σ1, handler e σ0 = (Ok a, σ1)) →
  ∃ a σ', try_except body except_Exception handler σ = (Ok a, σ').
Proof.
  intros Hh. unfold try_except, except_Exception.
  destruct (body σ) as [[a|e] σ0]; [by eauto|]. apply Hh.
Qed.

Lemma run_reports_returns w token merchant url year_months output σ :
  ∃ σ', run_reports w token merchant url year_months output σ = (Ok (), σ').
Proof.
  unfold run_reports.
  edestruct (try_except_all_Ok (A := ())) as ([] & σ' & H); [|by eauto].
  intros e σ0. unfold mbind, M_bind. rewrite print_eq. by eexists _, _.
Qed.

(** X1.  Once [parse_args] has returned the options, no exception leaves
    [main]: whatever the options, the environment, the answers of the API
    and the file system, and whether [config.py] is absent or imports, it
    returns normally. *)
Theorem main_never_raises (w : World) (args : Argv) (σ : Output) :
  ∃ σ', main w args σ = (Ok (), σ').
Proof.
  rewrite main_unfold.
  destruct (parse_months _ _) as [year_months | message].
  - destruct (resolve_credentials_chosen w args σ) as (σ1 & Hres & _).
    unfold mbind, M_bind. rewrite Hres.
    destruct (_ || _).
    + rewrite print_all_eq. by eexists.
    + apply run_reports_returns.
  - rewrite print_eq. by eexists.
Qed.

(** ** Months the window cannot be built for *)

Lemma datetime_ymd_cases y m d :
  is_Ok (datetime_ymd y m d) ∨ datetime_ymd y m d = Raise ValueError.
Proof.
  unfold datetime_ymd. repeat case_match; (by left; eexists) || by right.
Qed.

Lemma month_window_invalid year month :
  ¬ valid_window year month → month_window year month = Raise ValueError.
Proof.
  intros Hnv. destruct (month_window year month) as [win|e] eqn:Hw.
  - by apply month_window_inv in Hw.
  - revert Hw. unfold month_window, next_month_start.
    destruct (datetime_ymd_cases year month 1) as [[s Hs] | ->]; [|by intros [= <-]].
    rewrite Hs. cbn [mbind result_bind].
    apply datetime_ymd_inv in Hs as (Hy & Hm & _).
    destruct (Z.eqb_spec month 12) as [-> | Hne].
    + destruct (datetime_ymd_cases (year + 1) 1 1) as [[n Hn] | ->];
        [|by intros [= <-]].
      apply datetime_ymd_inv in Hn as (Hy' & _).
      destruct Hnv. unfold valid_window, MINYEAR, MAXYEAR in *. lia.
    + destruct Hnv. unfold valid_window. lia.
Qed.

(** X2.  For a month whose window [datetime] cannot build (a year outside
    1..9999, December 9999, a month outside 1..12; year and month within
    the C [int] that [datetime] takes them as) the fetch raises
    [ValueError] before it prints or sends anything, the exception is not
    caught on the way, and [export_monthly_csv] ends with it: no request,
    no file, no output. *)
Theorem invalid_month_raises_before_io (w : World) (self : CloverAPI)
    (year month : Z) (filename : option string) (σ : Output) :
  ¬ valid_window year month →
  fits_c_int year → fits_c_int month →
  get_closeouts_by_month w self year month σ = (Raise ValueError, σ)
  ∧ generate_monthly_csv_data w self year month σ = (Raise ValueError, σ)
  ∧ export_monthly_csv w self year month filename σ = (Raise ValueError, σ).
Proof.
  intros Hnv _ _.
  assert (Hget : get_closeouts_by_month w self year month σ = (Raise ValueError, σ)).
  { unfold get_closeouts_by_month. rewrite (month_window_invalid _ _ Hnv).
    reflexivity. }
  assert (Hgen : generate_monthly_csv_data w self year month σ
                 = (Raise ValueError, σ)).
  { unfold generate_monthly_csv_data. unfold mbind at 1. unfold M_bind at 1.
    by rewrite Hget. }
  split_and!; [done | done |].
  unfold export_monthly_csv. unfold mbind at 1. unfold M_bind at 1.
  by rewrite Hgen.
Qed.

Lemma invalid_month_raises_before_io_witness :
  ¬ valid_window 10000 1
  ∧ export_monthly_csv sample_world sample_api 10000 1 None no_output
    = (Raise ValueError, no_output).
Proof.
  assert (H : ¬ valid_window 10000 1)
    by (unfold valid_window, MINYEAR, MAXYEAR; lia).
  assert (Hy : fits_c_int 10000) by (unfold fits_c_int; lia).
  assert (Hm : fits_c_int 1) by (unfold fits_c_int; lia).
  split; [exact H|].
  exact (proj2 (proj2 (invalid_month_raises_before_io sample_world sample_api
                         10000 1 None no_output H Hy Hm))).
Defined.

(** ** Pages with an element the filter cannot handle *)

Lemma batch_in_month_untyped tz year month batch :
  ¬ stamp_ok tz batch → ∃ e, batch_in_month tz year month batch = Raise e.
Proof.
  unfold stamp_ok, created_ok, batch_in_month.
  destruct batch as [| | | | |o]; try (intros _; by eexists).
  cbn [py_get mbind result_bind].
  destruct (o !! "createdTime") as [v|]; cbn - [truthy]; [|by intros []].
  destruct (truthy v) eqn:Ht; [|intros []; by left].
  destruct (py_int_of v) as [ms|e] eqn:Hms; cbn [mbind result_bind];
    [|intros _; by eexists].
  destruct (fromtimestamp_ms tz ms) as [dt|e] eqn:Hdt; cbn [mbind result_bind];
    [|intros _; by eexists].
  intros []. right. exists ms. split; [done|]. by eexists.
Qed.

Lemma filter_batches_untyped tz year month all_batches :
  Exists (fun batch => ¬ stamp_ok tz batch) all_batches →
  ∃ e, filter_batches tz year month all_batches = Raise e.
Proof.
  induction 1 as [b l Hb | b l _ [e IH]]; cbn [filter_batches].
  - destruct (batch_in_month_untyped tz year month b Hb) as [e ->].
    by eexists.
  - destruct (batch_in_month tz year month b); cbn [mbind result_bind];
      [|by eexists].
    rewrite IH. by eexists.
Qed.

(** X3.  One element the filter cannot handle (not an object, a time stamp
    that is not a number or that [fromtimestamp] rejects) makes the fetch
    drop the whole page: the exception is caught, a line is printed and the
    empty list is returned, whatever the other elements are. *)
Theorem bad_element_empties_the_page (w : World) (self : CloverAPI)
    (year month : Z) (σ : Output) (r : Response) (o : gmap string json)
    (elements : list json) :
  valid_window year month →
  http w (length (requests σ)) (batches_request self) = Answered r →
  error_status (status_code r) = false →
  json_body r = Some (JObj o) →
  o !! "elements" = Some (JArr elements) →
  Exists (fun batch => ¬ stamp_ok (tz w) batch) elements →
  ∃ e, get_closeouts_by_month w self year month σ
       = (Ok [],
          with_stdout
            (with_request (with_stdout σ (fetch_banner year month))
               (batches_request self))
            ["Error fetching batches: " +:+ exn_str e]).
Proof.
  intros Hv Hh Hst Hj He Hbad.
  destruct (filter_batches_untyped (tz w) year month elements Hbad) as [e Hf].
  exists e. rewrite get_closeouts_unfold by done.
  rewrite (make_request_json w self _ _ r (JObj o)); [|done..].
  cbn [py_get mbind result_bind]. rewrite He.
  change (default (JArr []) (Some (JArr elements))) with (JArr elements).
  cbn [py_iter mbind result_bind]. by rewrite Hf.
Qed.

Lemma bad_element_empties_the_page_witness :
  (get_closeouts_by_month
     (world_with (Answered (page 200 [sample_batch; JStr "oops"])))
     sample_api 2025 1 no_output).1 = Ok [].
Proof.
  edestruct (bad_element_empties_the_page
               (world_with (Answered (page 200 [sample_batch; JStr "oops"])))
               sample_api 2025 1 no_output
               (page 200 [sample_batch; JStr "oops"])
               {[ "elements" := JArr [sample_batch; JStr "oops"] ]}
               [sample_batch; JStr "oops"]
               valid_window_2025_1 eq_refl eq_refl eq_refl eq_refl) as [e He].
  - apply Exists_cons_tl, Exists_cons_hd. intros [].
  - rewrite He. reflexivity.
Defined.

(** ** The fetched batches and the page *)

Lemma filter_batches_sublist tz year month all_batches filtered :
  filter_batches tz year month all_batches = Ok filtered →
  sublist filtered all_batches.
Proof.
  revert filtered. induction all_batches as [|b rest IH]; intros filtered.
  - intros [= <-]. constructor.
  - cbn [filter_batches].
    destruct (batch_in_month tz year month b) as [keep|]; cbn; [|done].
    destruct (filter_batches tz year month rest) as [f|]; cbn; [|done].
    intros [= <-]. destruct keep.
    + apply sublist_skip. by apply IH.
    + apply sublist_cons. by apply IH.
Qed.

(** X4.  Whatever the page holds, what the fetch returns is a sublist of
    its elements: the batches it keeps come in the order of the page, none
    more often than the page holds it and none that the page does not
    hold. *)
Theorem fetched_batches_sublist_of_page (w : World) (self : CloverAPI)
    (year month : Z) (σ : Output) (r : Response) (o : gmap string json)
    (elements : list json) :
  valid_window year month →
  http w (length (requests σ)) (batches_request self) = Answered r →
  json_body r = Some (JObj o) →
  o !! "elements" = Some (JArr elements) →
  ∃ batches σ',
    get_closeouts_by_month w self year month σ = (Ok batches, σ')
    ∧ sublist batches elements.
Proof.
  intros Hv Hh Hj He. rewrite get_closeouts_unfold by done.
  destruct (error_status (status_code r)) eqn:Hst.
  { rewrite (make_request_error_status w self _ _ r); [|done..].
    eexists _, _. split; [done|]. apply sublist_nil_l. }
  rewrite (make_request_json w self _ _ r (JObj o)); [|done..].
  cbn [py_get mbind result_bind]. rewrite He.
  change (default (JArr []) (Some (JArr elements))) with (JArr elements).
  cbn [py_iter mbind result_bind].
  destruct (filter_batches (tz w) year month elements) as [f|e] eqn:Hf.
  - eexists _, _. split; [done|]. by eapply filter_batches_sublist.
  - eexists _, _. split; [done|]. apply sublist_nil_l.
Qed.

Lemma fetched_batches_sublist_of_page_witness :
  ∃ batches σ',
    get_closeouts_by_month sample_world sample_api 2025 1 no_output
    = (Ok batches, σ')
    ∧ sublist batches [sample_batch; late_batch; old_batch].
Proof.
  exact (fetched_batches_sublist_of_page sample_world sample_api 2025 1
           no_output (page 200 [sample_batch; late_batch; old_batch])
           {[ "elements" := JArr [sample_batch; late_batch; old_batch] ]}
           [sample_batch; late_batch; old_batch]
           valid_window_2025_1 eq_refl eq_refl eq_refl).
Defined.

(** ** A month whose fetch failed *)

Lemma generate_monthly_of_no_batches w self year month σ σ1 :
  get_closeouts_by_month w self year month σ = (Ok [], σ1) →
  generate_monthly_csv_data w self year month σ
  = (Ok ((fun day => zero_row (date_str year month day))
           <$> seqZ 1 (days_in_month year month)), σ1).
Proof.
  intros Hget. by rewrite (generate_monthly_unfold _ _ _ _ _ [] _ [] Hget).
Qed.

Lemma py_sum_zero_rows (f : Row → Qc) (g : Z → string) (days : list Z) :
  f = debit ∨ f = tip ∨ f = total →
  py_sum (f <$> ((fun day => zero_row (g day)) <$> days)) = 0%Qc.
Proof.
  intros Hf. rewrite <- list_fmap_compose.
  assert (Hz : ∀ day, (f ∘ (fun day => zero_row (g day))) day = 0%Qc)
    by (intros day; destruct Hf as [-> | [-> | ->]]; reflexivity).
  unfold py_sum. induction days as [|day days IH]; [done|].
  cbn [fmap list_fmap foldl]. rewrite Hz.
  replace (0 + 0)%Qc with 0%Qc by (by apply Qc_is_canon). exact IH.
Qed.

(** X5.  When the request of a month fails (a network error, a 4xx or 5xx
    status, a body that is not JSON), nothing fails downstream: the monthly
    export writes a complete report in which every day of the month and
    the [TOTAL] row read 0.00, exactly as for a month without batches. *)
Theorem failed_fetch_gives_zero_report (w : World) (self : CloverAPI)
    (year month : Z) (filename : option string) (σ σ0 : Output) (e : exn) :
  valid_window year month →
  _make_request w self "/batches?limit=901"
    (with_stdout σ (fetch_banner year month)) = (Raise e, σ0) →
  writable w (month_filename year month filename) = true →
  ∃ σ',
    export_monthly_csv w self year month filename σ
    = (Ok (month_filename year month filename), σ')
    ∧ files σ'
      = (files σ
         ++ [(month_filename year month filename,
              [Text "Belle Nails and Spa";
               Text ("Sales for the month of " +:+ month_name month +:+ " "
                     +:+ fmt_d year);
               csv_header]
              ++ ((fun day => CsvRow [date_str year month day;
                                      "0.00"; "0.00"; "0.00"])
                    <$> seqZ 1 (days_in_month year month))
              ++ [CsvRow ["TOTAL"; "0.00"; "0.00"; "0.00"]])])%list
    ∧ "Error fetching batches: " +:+ exn_str e ∈ stdout σ'.
Proof.
  intros Hv Hreq Hw.
  assert (Hget : get_closeouts_by_month w self year month σ
                 = (Ok [], with_stdout σ0
                             ["Error fetching batches: " +:+ exn_str e])).
  { rewrite get_closeouts_unfold by done. by rewrite Hreq. }
  pose proof (generate_monthly_of_no_batches _ _ _ _ _ _ Hget) as Hgen.
  pose proof (make_request_requests w self "/batches?limit=901"
                (with_stdout σ (fetch_banner year month))) as [_ Hfiles].
  rewrite Hreq in Hfiles. cbn in Hfiles.
  eexists. split; [by apply (export_monthly_unfold _ _ _ _ _ _ _ _ Hgen Hw)|].
  split.
  - cbn [files with_stdout with_file]. rewrite Hfiles.
    rewrite !py_sum_zero_rows by auto.
    rewrite <- list_fmap_compose. reflexivity.
  - cbn [stdout with_stdout with_file].
    apply elem_of_app. left. apply elem_of_app. right. by left.
Qed.

Lemma failed_fetch_gives_zero_report_witness :
  ∃ σ',
    export_monthly_csv (world_with (NetworkFailure "no route to host"))
      sample_api 2025 2 None no_output
    = (Ok "clover_monthly_data_2025_02.csv", σ')
    ∧ "Error fetching batches: no route to host" ∈ stdout σ'.
Proof.
  destruct (failed_fetch_gives_zero_report
              (world_with (NetworkFailure "no route to host")) sample_api
              2025 2 None no_output _ (ConnectionError "no route to host")
              valid_window_2025_2
              (make_request_network_failure
                 (world_with (NetworkFailure "no route to host")) sample_api
                 "/batches?limit=901"
                 (with_stdout no_output (fetch_banner 2025 2))
                 "no route to host" eq_refl) eq_refl)
    as (σ' & Hexp & _ & Hout).
  exists σ'. split; [exact Hexp | exact Hout].
Defined.

(** ** Nothing is lost by the grouping *)

Lemma py_sum_cons x l : py_sum (x :: l) = (x + py_sum l)%Qc.
Proof. change (x :: l) with ([x] ++ l)%list. rewrite py_sum_app. f_equal.
  unfold py_sum. cbn. ring. Qed.

Lemma py_sum_fmap_add {A} (a b : A → Qc) (l : list A) :
  py_sum ((fun d => a d + b d)%Qc <$> l)
  = (py_sum (a <$> l) + py_sum (b <$> l))%Qc.
Proof.
  induction l as [|d l IH]; cbn [fmap list_fmap].
  - unfold py_sum. cbn. ring.
  - rewrite !py_sum_cons, IH. ring.
Qed.

Lemma py_sum_fmap_zero {A} (l : list A) :
  py_sum ((fun _ => 0%Qc) <$> l) = 0%Qc.
Proof.
  induction l as [|d l IH]; [done|].
  cbn [fmap list_fmap]. rewrite py_sum_cons, IH. ring.
Qed.

Lemma py_sum_indicator (x : string) (v : Qc) (l : list string) :
  NoDup l → x ∈ l →
  py_sum ((fun d => if String.eqb x d then v else 0%Qc) <$> l) = v.
Proof.
  induction 1 as [|d l Hd Hnd IH]; [by intros ?%elem_of_nil|].
  intros Hin. cbn [fmap list_fmap]. rewrite py_sum_cons.
  destruct (String.eqb_spec x d) as [-> | Hne].
  - replace (py_sum _) with 0%Qc; [ring|]. symmetry.
    erewrite list_fmap_ext; [apply py_sum_fmap_zero|].
    intros i d' Hd'. cbn.
    destruct (String.eqb_spec d d') as [-> | _]; [|done].
    destruct Hd. by eapply list_elem_of_lookup_2.
  - apply elem_of_cons in Hin as [-> | Hin]; [done|].
    rewrite IH by done. ring.
Qed.

Lemma on_day_cons d info infos :
  on_day d (info :: infos)
  = if String.eqb (date info) d then info :: on_day d infos else on_day d infos.
Proof. reflexivity. Qed.

(** The sums of the days add up to the sum of the summaries, when every
    summary belongs to one of the days. *)
Lemma day_sums_add_up (f : Row → Qc) (dates : list string) (infos : list Row) :
  NoDup dates → Forall (fun info => date info ∈ dates) infos →
  py_sum ((fun d => py_sum (f <$> on_day d infos)) <$> dates)
  = py_sum (f <$> infos).
Proof.
  intros Hnd. induction 1 as [|info infos Hin _ IH].
  - cbn [on_day List.filter fmap list_fmap]. apply py_sum_fmap_zero.
  - cbn [fmap list_fmap]. rewrite py_sum_cons, <- IH.
    rewrite <- (py_sum_indicator (date info) (f info) dates Hnd Hin).
    rewrite <- py_sum_fmap_add. f_equal. apply list_fmap_ext.
    intros i d _. cbv beta. rewrite on_day_cons.
    destruct (String.eqb (date info) d).
    + cbn [fmap list_fmap]. by rewrite py_sum_cons.
    + ring.
Qed.

Lemma month_dates_NoDup year month :
  1 ≤ month ≤ 12 →
  NoDup (date_str year month <$> seqZ 1 (days_in_month year month)).
Proof.
  intros Hm. pose proof (days_in_month_bounds year month Hm) as Hd.
  apply NoDup_alt. intros i j d. rewrite !list_lookup_fmap.
  destruct (seqZ _ _ !! i) as [di|] eqn:Hi; [|done].
  destruct (seqZ _ _ !! j) as [dj|] eqn:Hj; [|done].
  apply lookup_seqZ in Hi as [-> Hi]. apply lookup_seqZ in Hj as [-> Hj].
  cbn. intros [= Hdi] [= Hdj].
  destruct (Nat.lt_trichotomy i j) as [Hlt | [-> | Hgt]]; [|done|].
  - pose proof (date_str_ascending year month (1 + Z.of_nat i) (1 + Z.of_nat j)
                  ltac:(lia) ltac:(lia) ltac:(lia)) as H.
    rewrite Hdi, Hdj, string_ltb_irrefl in H. done.
  - pose proof (date_str_ascending year month (1 + Z.of_nat j) (1 + Z.of_nat i)
                  ltac:(lia) ltac:(lia) ltac:(lia)) as H.
    rewrite Hdi, Hdj, string_ltb_irrefl in H. done.
Qed.

(** Under exact arithmetic each column of the rows adds up to the same
    column added over the summaries. *)
Lemma month_rows_sums w self year month σ σ1 batches infos :
  get_closeouts_by_month w self year month σ = (Ok batches, σ1) →
  summaries (tz w) batches = Ok infos →
  ∃ rows,
    generate_monthly_csv_data w self year month σ = (Ok rows, σ1)
    ∧ rows = (fun day => day_sum (date_str year month day) infos)
               <$> seqZ 1 (days_in_month year month)
    ∧ py_sum (debit <$> rows) = py_sum (debit <$> infos)
    ∧ py_sum (tip <$> rows) = py_sum (tip <$> infos)
    ∧ py_sum (total <$> rows) = py_sum (total <$> infos).
Proof.
  intros Hget Hsum.
  pose proof (get_closeouts_Ok_valid _ _ _ _ _ _ _ Hget) as (_ & Hm & _).
  eexists. split; [by apply (generate_monthly_unfold _ _ _ _ _ batches)|].
  split; [reflexivity|].
  assert (Hin : Forall (fun info => date info
                          ∈ date_str year month
                            <$> seqZ 1 (days_in_month year month)) infos).
  { apply Forall_forall. intros info Hinfo.
    destruct (fetched_summaries_in_month _ _ _ _ _ _ _ _ Hget Hsum
                info Hinfo) as (day & Hday & ->).
    apply list_elem_of_fmap. exists day. split; [done|].
    apply elem_of_seqZ. lia. }
  pose proof (month_dates_NoDup year month Hm) as Hnd.
  split_and!.
  - rewrite <- (day_sums_add_up debit _ _ Hnd Hin).
    by rewrite <- !list_fmap_compose.
  - rewrite <- (day_sums_add_up tip _ _ Hnd Hin).
    by rewrite <- !list_fmap_compose.
  - rewrite <- (day_sums_add_up total _ _ Hnd Hin).
    by rewrite <- !list_fmap_compose.
Qed.

(** The cents of the summaries are those of the batches. *)
Lemma summaries_cents tz batches infos :
  Forall (wf_batch tz) batches → summaries tz batches = Ok infos →
  (shown_cents ∘ total) <$> infos = sales_total <$> batches
  ∧ (shown_cents ∘ tip) <$> infos = tip_cents <$> batches
  ∧ (shown_cents ∘ debit) <$> infos
    = (fun batch => sales_total batch - tip_cents batch) <$> batches.
Proof.
  intros Hwf. revert infos.
  induction Hwf as [|batch rest Hb _ IH]; intros infos.
  - by intros [= <-].
  - cbn [summaries]. destruct batch as [| | | | |o]; try done.
    destruct (format_single_batch_wf _ _ Hb) as (d & _ & ->).
    cbn [mbind result_bind].
    destruct (summaries tz rest) as [infos0|]; cbn [mbind result_bind]; [|done].
    intros [= <-]. destruct (IH _ eq_refl) as (Hs & Ht & Hd).
    assert (Htip : tip_of (JObj o) = cents (tip_cents (JObj o))).
    { unfold tip_of, tip_cents. destruct (0 <? tips_count (JObj o)); [done|].
      by rewrite cents_0. }
    cbn [fmap list_fmap compose total tip debit].
    rewrite Htip, cents_sub, !shown_cents_cents.
    split_and!; f_equal; assumption.
Qed.

(** X6.  The cents shown in the rows of a month account for every fetched
    batch exactly once: on batches that follow the data model, with amounts
    of at most [max_cents] and at most [max_page] of them, each column of
    the rows adds up, in cents, to that amount added over all the batches
    the fetch returned: the sales, the tips that count, and their
    difference. *)
Theorem month_rows_add_up_to_batches (w : World) (self : CloverAPI)
    (year month : Z) (σ σ1 : Output) (batches : list json) :
  get_closeouts_by_month w self year month σ = (Ok batches, σ1) →
  Forall (wf_batch (tz w)) batches →
  modest_page batches →
  ∃ rows,
    generate_monthly_csv_data w self year month σ = (Ok rows, σ1)
    ∧ sum_Z ((shown_cents ∘ total) <$> rows) = sum_Z (sales_total <$> batches)
    ∧ sum_Z ((shown_cents ∘ tip) <$> rows) = sum_Z (tip_cents <$> batches)
    ∧ sum_Z ((shown_cents ∘ debit) <$> rows)
      = sum_Z ((fun batch => sales_total batch - tip_cents batch) <$> batches).
Proof.
  intros Hget Hwf _.
  destruct (summaries_wf _ _ Hwf) as [infos Hsum].
  destruct (month_rows_sums _ _ _ _ _ _ _ _ Hget Hsum)
    as (rows & Hgen & Hrows & Hd & Ht & Hs).
  pose proof (summaries_whole_cents _ _ _ Hwf Hsum) as Hci.
  assert (Hcr : Forall row_whole_cents rows).
  { rewrite Hrows. apply Forall_fmap, Forall_forall. intros day _.
    by apply day_sum_whole_cents. }
  destruct (shown_cents_columns rows Hcr) as (Hrd & Hrt & Hrs).
  destruct (shown_cents_columns infos Hci) as (Hid & Hit & His).
  destruct (summaries_cents _ _ _ Hwf Hsum) as (Hbs & Hbt & Hbd).
  exists rows. split; [done|].
  split_and!.
  - by rewrite <- Hrs, Hs, His, Hbs.
  - by rewrite <- Hrt, Ht, Hit, Hbt.
  - by rewrite <- Hrd, Hd, Hid, Hbd.
Qed.

Lemma month_rows_add_up_to_batches_witness :
  ∃ rows σ1,
    generate_monthly_csv_data sample_world sample_api 2025 1 no_output
    = (Ok rows, σ1)
    ∧ sum_Z ((shown_cents ∘ total) <$> rows) = 10000
    ∧ sum_Z ((shown_cents ∘ tip) <$> rows) = 1500
    ∧ sum_Z ((shown_cents ∘ debit) <$> rows) = 8500.
Proof.
  destruct (get_closeouts_by_month sample_world sample_api 2025 1 no_output)
    as [r σ1] eqn:Hget.
  assert (E : (get_closeouts_by_month sample_world sample_api 2025 1
                 no_output).1 = Ok [sample_batch; late_batch])
    by (vm_compute; reflexivity).
  rewrite Hget in E. cbn [fst] in E. subst r.
  assert (Hwf : Forall (wf_batch (tz sample_world)) [sample_batch; late_batch]).
  { pose proof sample_batches_wf as H.
    apply Forall_cons in H as [H1 H]. apply Forall_cons in H as [H2 _].
    repeat (apply Forall_cons; split); [exact H1 | exact H2 | constructor]. }
  assert (Hmod : modest_page [sample_batch; late_batch]).
  { pose proof sample_batches_modest as [_ H].
    apply Forall_cons in H as [H1 H]. apply Forall_cons in H as [H2 _].
    split; [unfold max_page; cbn; lia|].
    repeat (apply Forall_cons; split); [exact H1 | exact H2 | constructor]. }
  destruct (month_rows_add_up_to_batches sample_world sample_api 2025 1
              no_output σ1 _ Hget Hwf Hmod)
    as (rows & Hgen & Hs & Ht & Hd).
  exists rows, σ1. split; [exact Hgen|].
  split; [exact Hs|]. split; [exact Ht | exact Hd].
Defined.

(** ** One batch by its id *)

(** What [_make_request] returns is the body of an answer that is no error. *)
Lemma make_request_Ok_inv w self endpoint σ j σ' :
  _make_request w self endpoint σ = (Ok j, σ') →
  ∃ r, http w (length (requests σ)) (request_to self endpoint) = Answered r
       ∧ error_status (status_code r) = false
       ∧ json_body r = Some j.
Proof.
  destruct (http w (length (requests σ)) (request_to self endpoint))
    as [r | msg] eqn:Hhttp.
  - destruct (error_status (status_code r)) eqn:Hst.
    + by rewrite (make_request_error_status _ _ _ _ _ Hhttp Hst).
    + destruct (json_body r) as [j'|] eqn:Hj.
      * rewrite (make_request_json _ _ _ _ _ _ Hhttp Hst Hj).
        intros [= <- _]. by exists r.
      * by rewrite (make_request_not_json _ _ _ _ _ Hhttp Hst Hj).
  - by rewrite (make_request_network_failure _ _ _ _ _ Hhttp).
Qed.

Lemma view_single_batch_unfold w self batch_id σ :
  view_single_batch w self batch_id σ
  = match _make_request w self ("/batches/" +:+ batch_id)
            (with_stdout σ ["Fetching batch details for ID: " +:+ batch_id
                            +:+ "..."]) with
    | (Ok batch, σ1) =>
        if truthy batch then
          match _format_single_batch (tz w) batch with
          | Ok batch_data => (Ok (batch_line batch_data), σ1)
          | Raise e =>
              (Ok ("Error fetching batch " +:+ batch_id +:+ ": " +:+ exn_str e),
               σ1)
          end
        else (Ok ("No batch found with ID: " +:+ batch_id), σ1)
    | (Raise e, σ1) =>
        (Ok ("Error fetching batch " +:+ batch_id +:+ ": " +:+ exn_str e), σ1)
    end.
Proof.
  unfold view_single_batch. unfold mbind at 1. unfold M_bind at 1.
  rewrite print_eq. unfold try_except.
  unfold mbind at 1. unfold M_bind at 1.
  destruct (_make_request _ _ _ _) as [[batch | e] σ1]; [|done].
  destruct (truthy batch); cbn [negb]; [|done].
  unfold mbind at 1. unfold M_bind at 1. unfold lift.
  by destruct (_format_single_batch (tz w) batch).
Qed.

(** X7.  [view_single_batch] never raises: whatever the API does, it returns
    a string, after exactly one request, for the batch of that id, and it
    writes no file. *)
Theorem view_single_batch_never_raises (w : World) (self : CloverAPI)
    (batch_id : string) (σ : Output) :
  ∃ s σ',
    view_single_batch w self batch_id σ = (Ok s, σ')
    ∧ requests σ'
      = (requests σ ++ [request_to self ("/batches/" +:+ batch_id)])%list
    ∧ files σ' = files σ.
Proof.
  rewrite view_single_batch_unfold.
  pose proof (make_request_requests w self ("/batches/" +:+ batch_id)
                (with_stdout σ ["Fetching batch details for ID: " +:+ batch_id
                                +:+ "..."])) as [Hreq Hfiles].
  destruct (_make_request _ _ _ _) as [[batch | e] σ1]; cbn [snd] in *.
  - destruct (truthy batch); [|by eauto].
    destruct (_format_single_batch (tz w) batch); by eauto.
  - by eauto.
Qed.

(** X8.  When the API answers the request for one batch with an error status,
    [view_single_batch] returns the line that names the batch and the
    error. *)
Theorem view_single_batch_reports_error_status (w : World) (self : CloverAPI)
    (batch_id : string) (σ : Output) (r : Response) :
  http w (length (requests σ)) (request_to self ("/batches/" +:+ batch_id))
  = Answered r →
  error_status (status_code r) = true →
  (view_single_batch w self batch_id σ).1
  = Ok ("Error fetching batch " +:+ batch_id +:+ ": "
        +:+ exn_str (HTTPError (status_code r) (text r))).
Proof.
  intros Hhttp Hst. rewrite view_single_batch_unfold.
  by rewrite (make_request_error_status w self _ (with_stdout σ _) r Hhttp Hst).
Qed.

Lemma view_single_batch_reports_error_status_witness :
  (view_single_batch (world_with (Answered (page 404 []))) sample_api "B1"
     no_output).1
  = Ok ("Error fetching batch B1: "
        +:+ exn_str (HTTPError 404 "{elements: [...]}")).
Proof.
  exact (view_single_batch_reports_error_status
           (world_with (Answered (page 404 []))) sample_api "B1" no_output
           (page 404 []) eq_refl eq_refl).
Defined.

(** X9.  When the API answers with a batch of the expected shape, with
    amounts of at most [max_cents], [view_single_batch] returns one line
    with the local date of the batch and its three amounts: the sales less
    the tips, the tips and the sales. *)
Theorem view_single_batch_shows_amounts (w : World) (self : CloverAPI)
    (batch_id : string) (σ : Output) (r : Response) (o : gmap string json) :
  http w (length (requests σ)) (request_to self ("/batches/" +:+ batch_id))
  = Answered r →
  error_status (status_code r) = false →
  json_body r = Some (JObj o) →
  o ≠ ∅ →
  wf_batch (tz w) (JObj o) →
  modest_amounts (JObj o) →
  ∃ d,
    created_date_of (tz w) (default (JInt 0) (o !! "createdTime")) = Ok d
    ∧ (view_single_batch w self batch_id σ).1
      = Ok ("Date: " +:+ d
            +:+ ", Debit: $"
            +:+ fmt_2f (cents (sales_total (JObj o)) - tip_of (JObj o))%Qc
            +:+ ", Tips: $" +:+ fmt_2f (tip_of (JObj o))
            +:+ ", Total: $" +:+ fmt_2f (cents (sales_total (JObj o)))).
Proof.
  intros Hhttp Hst Hj Hne Hwf _.
  destruct (format_single_batch_wf _ _ Hwf) as (d & Hd & Hfmt).
  exists d. split; [done|].
  rewrite view_single_batch_unfold.
  rewrite (make_request_json w self _ (with_stdout σ _) r _ Hhttp Hst Hj).
  assert (Ht : truthy (JObj o) = true).
  { cbn [truthy]. by rewrite bool_decide_eq_false_2. }
  by rewrite Ht, Hfmt.
Qed.

Lemma view_single_batch_shows_amounts_witness :
  (view_single_batch one_batch_world sample_api "B1" no_output).1
  = Ok "Date: 2025-01-31, Debit: $85.00, Tips: $15.00, Total: $100.00".
Proof.
  assert (Hne : fields_of sample_batch ≠ ∅).
  { intros H. apply (f_equal (fun m => m !! "id")) in H.
    vm_compute in H. discriminate H. }
  assert (Hwf : wf_batch (tz one_batch_world) (JObj (fields_of sample_batch))).
  { exact (Forall_inv sample_batches_wf). }
  assert (Hmod : modest_amounts (JObj (fields_of sample_batch))).
  { exact (Forall_inv (proj2 sample_batches_modest)). }
  destruct (view_single_batch_shows_amounts one_batch_world sample_api "B1"
              no_output _ (fields_of sample_batch) eq_refl eq_refl eq_refl
              Hne Hwf Hmod) as (d & Hd & Hview).
  rewrite Hview. vm_compute in Hd. injection Hd as <-.
  vm_compute. reflexivity.
Defined.

(** X10.  When the API answers with something empty ([{}], [[]], [null],
    [0]), [view_single_batch] says that no batch has that id. *)
Theorem view_single_batch_empty_answer (w : World) (self : CloverAPI)
    (batch_id : string) (σ : Output) (r : Response) (j : json) :
  http w (length (requests σ)) (request_to self ("/batches/" +:+ batch_id))
  = Answered r →
  error_status (status_code r) = false →
  json_body r = Some j →
  truthy j = false →
  (view_single_batch w self batch_id σ).1
  = Ok ("No batch found with ID: " +:+ batch_id).
Proof.
  intros Hhttp Hst Hj Ht. rewrite view_single_batch_unfold.
  rewrite (make_request_json w self _ (with_stdout σ _) r _ Hhttp Hst Hj).
  by rewrite Ht.
Qed.

Lemma view_single_batch_empty_answer_witness :
  (view_single_batch
     (world_with (Answered {| status_code := 200; text := "{}";
                              json_body := Some (JObj ∅) |}))
     sample_api "B7" no_output).1
  = Ok "No batch found with ID: B7".
Proof.
  exact (view_single_batch_empty_answer
           (world_with (Answered {| status_code := 200; text := "{}";
                                    json_body := Some (JObj ∅) |}))
           sample_api "B7" no_output _ (JObj ∅) eq_refl eq_refl eq_refl
           eq_refl).
Defined.

(** ** The details of one batch *)

(** X11.  [get_batch_details] never raises and writes no file: after one
    request for the batch it returns either the body of an answer that is
    no error, or the empty object. *)
Theorem get_batch_details_never_raises (w : World) (self : CloverAPI)
    (batch_id : string) (σ : Output) :
  ∃ j σ',
    get_batch_details w self batch_id σ = (Ok j, σ')
    ∧ requests σ'
      = (requests σ ++ [request_to self ("/batches/" +:+ batch_id)])%list
    ∧ files σ' = files σ
    ∧ (j = JObj ∅
       ∨ ∃ r, http w (length (requests σ))
                (request_to self ("/batches/" +:+ batch_id)) = Answered r
              ∧ error_status (status_code r) = false
              ∧ json_body r = Some j).
Proof.
  unfold get_batch_details, try_except.
  pose proof (make_request_requests w self ("/batches/" +:+ batch_id) σ)
    as [Hreq Hfiles].
  destruct (_make_request w self ("/batches/" +:+ batch_id) σ)
    as [[j | e] σ1] eqn:Hmr; cbn [snd] in *.
  - exists j, σ1. split_and!; [done..|]. right.
    by apply (make_request_Ok_inv _ _ _ _ _ _ Hmr).
  - cbn [except_Exception]. unfold mbind at 1. unfold M_bind at 1.
    rewrite print_eq. eexists _, _. split_and!; [done..|]. by left.
Qed.

(** ** Saving text *)


(** ** A report that cannot be written *)

(** Whatever the rows come to, building them costs one request and writes
    nothing. *)
Lemma generate_monthly_effects w self year month σ :
  valid_window year month →
  requests (generate_monthly_csv_data w self year month σ).2
  = (requests σ ++ [batches_request self])%list
  ∧ files (generate_monthly_csv_data w self year month σ).2 = files σ.
Proof.
  intros Hv.
  pose proof (get_closeouts_effects w self year month σ Hv) as Heff.
  unfold generate_monthly_csv_data, mbind, M_bind, lift.
  destruct (get_closeouts_by_month w self year month σ) as [[batches | e] σ1];
    cbn [snd] in *; [|done].
  destruct (group_batches (tz w) ∅ batches); [|done].
  by destruct (monthrange_ndays year month).
Qed.

(** X13.  When the file of a monthly report cannot be opened,
    [export_monthly_csv] raises, after its one request to the API, and
    writes no file; with an API that follows the data model and whose pages
    are modest the exception is the one of [open]. *)
Theorem unwritable_report_raises (w : World) (self : CloverAPI)
    (year month : Z) (filename : option string) (σ : Output) :
  valid_window year month →
  writable w (month_filename year month filename) = false →
  ∃ e σ',
    export_monthly_csv w self year month filename σ = (Raise e, σ')
    ∧ requests σ' = (requests σ ++ [batches_request self])%list
    ∧ files σ' = files σ
    ∧ (api_ok w → api_modest w → e = OSError).
Proof.
  intros Hv Hw.
  pose proof (generate_monthly_effects w self year month σ Hv) as [Hreq Hfiles].
  pose proof (generate_monthly_wf w self year month σ) as Hwf.
  unfold export_monthly_csv.
  change (match filename with Some f => f | None => _ end)
    with (month_filename year month filename).
  unfold mbind at 1. unfold M_bind at 1.
  destruct (generate_monthly_csv_data w self year month σ)
    as [[rows | e] σ1]; cbn [snd] in *.
  - unfold mbind at 1. unfold M_bind at 1. unfold write_file. rewrite Hw.
    by eexists _, _.
  - exists e, σ1. split_and!; [done..|]. intros Hapi _.
    by destruct (Hwf Hapi Hv) as (? & ? & ? & _).
Qed.

Lemma read_only_world_ok : api_ok read_only_world.
Proof.
  intros n req r [= <-] o l [= <-] Hl.
  rewrite lookup_singleton_eq in Hl. injection Hl as <-.
  apply Forall_cons. split; [exact (Forall_inv sample_batches_wf) | constructor].
Qed.

Lemma read_only_world_modest : api_modest read_only_world.
Proof.
  intros n req r o l [= <-] [= <-] Hl.
  rewrite lookup_singleton_eq in Hl. injection Hl as <-.
  split; [unfold max_page; cbn; lia|].
  apply Forall_cons. split; [|constructor].
  exact (Forall_inv (proj2 sample_batches_modest)).
Qed.

Lemma unwritable_report_raises_witness :
  ∃ σ',
    export_monthly_csv read_only_world sample_api 2025 1 None no_output
    = (Raise OSError, σ')
    ∧ files σ' = [].
Proof.
  assert (Hw : writable read_only_world (month_filename 2025 1 None) = false)
    by reflexivity.
  destruct (unwritable_report_raises read_only_world sample_api 2025 1 None
              no_output valid_window_2025_1 Hw)
    as (e & σ' & Hexp & _ & Hfiles & He).
  exists σ'. split.
  - rewrite Hexp. f_equal. f_equal.
    exact (He read_only_world_ok read_only_world_modest).
  - exact Hfiles.
Defined.

(** ** The months [main] accepts *)

Lemma split_comma_aux_length l cur :
  length (split_comma_aux l cur)
  = S (length (List.filter (fun c => Ascii.eqb c ","%char) l)).
Proof.
  revert cur. induction l as [|c l IH]; intros cur; [done|].
  cbn [split_comma_aux List.filter].
  destruct (Ascii.eqb c ","%char); cbn [length]; by rewrite IH.
Qed.

Lemma has_comma_false s : has_comma s = false → commas s = 0%nat.
Proof.
  unfold has_comma, commas.
  induction (String.list_ascii_of_string s) as [|c l IH]; [done|].
  cbn [existsb List.filter]. destruct (Ascii.eqb c ","%char); [done|].
  exact IH.
Qed.

Lemma int_each_length pieces months :
  int_each pieces = Ok months → length months = length pieces.
Proof.
  intros H%int_each_Ok. apply (f_equal length) in H.
  by rewrite !length_fmap in H.
Qed.

Lemma first_bad_month_None year_months :
  first_bad_month year_months = None →
  Forall (fun ym : Z * Z => 1 ≤ ym.2 ≤ 12) year_months.
Proof.
  unfold first_bad_month. intros H. apply Forall_forall. intros ym Hin.
  destruct (List.find _ year_months) eqn:Hfind; [done|].
  apply list_elem_of_In in Hin.
  pose proof (find_none _ _ Hfind ym Hin) as Hr. cbn in Hr.
  apply negb_false_iff in Hr. unfold month_in_range in Hr. lia.
Qed.

(** X14.  The months [main] goes on with: one more than the argument has
    commas, each with the year of [--year] and a month from 1 to 12. *)
Theorem parse_months_accepted (arg_year : Z) (arg_month : string)
    (year_months : list (Z * Z)) :
  parse_months arg_year arg_month = Months year_months →
  length year_months = S (commas arg_month)
  ∧ Forall (fun ym => ym.1 = arg_year ∧ 1 ≤ ym.2 ≤ 12) year_months.
Proof.
  unfold parse_months. destruct (has_comma arg_month) eqn:Hc.
  - destruct (int_each (split_comma arg_month)) as [months|] eqn:Hint;
      cbn [mbind result_bind]; [|done].
    destruct (first_bad_month _) eqn:Hbad; [done|]. intros [= <-].
    split.
    + rewrite length_fmap, (int_each_length _ _ Hint).
      unfold split_comma, commas.
      by rewrite length_fmap, split_comma_aux_length.
    + apply first_bad_month_None in Hbad.
      apply Forall_fmap, Forall_forall. intros month Hin. cbn. split; [done|].
      rewrite Forall_fmap, Forall_forall in Hbad. by apply Hbad.
  - destruct (py_int arg_month) as [month|] eqn:Hint;
      cbn [mbind result_bind]; [|done].
    destruct (month_in_range month) eqn:Hr; cbn [negb]; [|done].
    cbn [first_bad_month List.find snd negb fmap option_fmap option_map].
    rewrite Hr. cbn. intros [= <-]. split.
    + by rewrite (has_comma_false _ Hc).
    + apply Forall_cons. split; [|constructor]. cbn.
      unfold month_in_range in Hr. lia.
Qed.

Lemma parse_months_accepted_witness :
  length [(2025, 1); (2025, 2); (2025, 12)] = S (commas "1, 2 ,12")
  ∧ Forall (fun ym : Z * Z => ym.1 = 2025 ∧ 1 ≤ ym.2 ≤ 12)
      [(2025, 1); (2025, 2); (2025, 12)].
Proof.
  exact (parse_months_accepted 2025 "1, 2 ,12"
           [(2025, 1); (2025, 2); (2025, 12)] eq_refl).
Defined.

(** ** What a run of [main] leaves behind *)

(** With months accepted and credentials present, [main] is the run of the
    reports, from a state with the same requests and files. *)
Lemma main_runs_reports w args σ year_months :
  parse_months (year_argument w args) (month_argument w args)
  = Months year_months →
  str_truthy (cfg_access_token (chosen_config w args)) = true →
  str_truthy (cfg_merchant_id (chosen_config w args)) = true →
  ∃ σ1,
    main w args σ
    = run_reports w (default "" (cfg_access_token (chosen_config w args)))
        (default "" (cfg_merchant_id (chosen_config w args)))
        (cfg_base_url (chosen_config w args)) year_months (opt_output args) σ1
    ∧ requests σ1 = requests σ ∧ files σ1 = files σ.
Proof.
  intros Hparse Htoken Hmerchant. rewrite main_unfold, Hparse.
  destruct (resolve_credentials_chosen w args σ) as (σ1 & Hres & Hreq & Hfiles).
  exists σ1. split; [|done].
  unfold mbind at 1. unfold M_bind at 1. rewrite Hres.
  by rewrite Htoken, Hmerchant.
Qed.



(** ** Several months in one run *)

Lemma months_data_effects w self year_months σ :
  api_ok w → Forall (fun ym => valid_window ym.1 ym.2) year_months →
  ∃ rss σ1,
    months_data w self year_months σ = (Ok rss, σ1)
    ∧ requests σ1
      = (requests σ ++ replicate (length year_months) (batches_request self))%list
    ∧ files σ1 = files σ.
Proof.
  intros Hapi Hv. revert σ.
  induction Hv as [|[year month] rest Hym _ IH]; intros σ.
  - exists [], σ. split_and!; [done| |done]. cbn. by rewrite app_nil_r.
  - destruct (generate_monthly_wf w self year month σ Hapi Hym)
      as (rows & σ1 & Hgen & _ & _ & _ & Hreq & Hfiles).
    destruct (IH σ1) as (rss & σ2 & Hdata & Hreq2 & Hfiles2).
    exists (rows :: rss), σ2. split_and!.
    + cbn [months_data]. unfold mbind, M_bind, mret, M_ret.
      by rewrite Hgen, Hdata.
    + rewrite Hreq2, Hreq. cbn [length replicate].
      by rewrite <- app_assoc.
    + congruence.
Qed.

Lemma export_each_effects w self year_months σ :
  api_ok w → Forall (fun ym => valid_window ym.1 ym.2) year_months →
  Forall (fun ym => writable w (month_filename ym.1 ym.2 None) = true)
    year_months →
  ∃ σ',
    export_each w self year_months σ
    = (Ok ((fun ym => month_filename ym.1 ym.2 None) <$> year_months), σ')
    ∧ requests σ'
      = (requests σ ++ replicate (length year_months) (batches_request self))%list
    ∧ (files σ').*1
      = ((files σ).*1 ++ ((fun ym => month_filename ym.1 ym.2 None)
                            <$> year_months))%list.
Proof.
  intros Hapi Hv. revert σ.
  induction Hv as [|[year month] rest Hym _ IH]; intros σ Hw.
  - exists σ. split_and!; [done|..]; cbn; by rewrite app_nil_r.
  - apply Forall_cons in Hw as [Hw1 Hw]. cbn [fst snd] in Hw1.
    destruct (generate_monthly_wf w self year month σ Hapi Hym)
      as (rows & σ1 & Hgen & _ & _ & _ & Hreq & Hfiles).
    cbn [export_each].
    change ("clover_monthly_data_" +:+ fmt_d year +:+ "_" +:+ fmt_02d month
            +:+ ".csv") with (month_filename year month None).
    unfold mbind at 1. unfold M_bind at 1.
    rewrite (export_monthly_unfold w self year month
               (Some (month_filename year month None)) σ rows σ1 Hgen Hw1).
    unfold mbind at 1. unfold M_bind at 1. rewrite print_eq.
    set (σ2 := with_stdout _ _).
    destruct (IH σ2 Hw) as (σ3 & Heach & Hreq3 & Hfiles3).
    unfold mbind at 1. unfold M_bind at 1. rewrite Heach.
    exists σ3. split_and!.
    + done.
    + rewrite Hreq3. subst σ2. cbn [requests with_stdout with_file].
      rewrite Hreq. cbn [length replicate]. by rewrite <- app_assoc.
    + rewrite Hfiles3. subst σ2. cbn [files with_stdout with_file].
      rewrite Hfiles, fmap_app. cbn [fmap list_fmap fst].
      by rewrite <- app_assoc.
Qed.

Lemma run_reports_several w token merchant url year_months output :
  length year_months ≠ 1%nat →
  run_reports w token merchant url year_months output
  = try_except
      (let clover := CloverAPI_init token merchant url in
       _ ← print ("Generating CSV reports for multiple months: "
                  +:+ join ", " ((fun ym => month_name ym.2 +:+ " " +:+ fmt_d ym.1)
                                   <$> year_months) +:+ "...");
       _ ← print "
Generating individual monthly reports:";
       individual_files ← export_each w clover year_months;
       _ ← print "
Generating combined report for all months...";
       combined_filename ← export_multiple_months_csv w clover year_months output;
       _ ← print "
All reports completed!";
       _ ← print ("Individual monthly reports: "
                  +:+ fmt_d (Z.of_nat (length individual_files)) +:+ " files");
       _ ← print_all ((fun f => "  - " +:+ f) <$> individual_files);
       print ("Combined report: " +:+ combined_filename))
      except_Exception
      (fun e =>
         _ ← print ("Script execution failed: " +:+ exn_str e);
         print_stderr "Traceback (most recent call last):").
Proof.
  intros Hlen. unfold run_reports.
  destruct year_months as [|[year month] [|ym rest]]; done.
Qed.

(** X16.  A run of [main] for several months, with credentials, an API that
    follows the data model and whose pages are modest, and files that can
    be opened: every month is fetched twice, once for its own report and
    once for the combined one; the monthly files carry their default names,
    in the order of the argument, and [--output] names the combined file
    only, which is written last. *)
Theorem main_several_months_report (w : World) (args : Argv) (σ : Output)
    (year_months : list (Z * Z)) :
  parse_months (year_argument w args) (month_argument w args)
  = Months year_months →
  length year_months ≠ 1%nat →
  str_truthy (cfg_access_token (chosen_config w args)) = true →
  str_truthy (cfg_merchant_id (chosen_config w args)) = true →
  api_ok w → api_modest w →
  Forall (fun ym => valid_window ym.1 ym.2) year_months →
  Forall (fun ym => writable w (month_filename ym.1 ym.2 None) = true)
    year_months →
  writable w (months_filename year_months (opt_output args)) = true →
  ∃ σ',
    main w args σ = (Ok (), σ')
    ∧ requests σ'
      = (requests σ ++ replicate (2 * length year_months)
                         (batches_request (client_of w args)))%list
    ∧ (files σ').*1
      = ((files σ).*1
         ++ ((fun ym => month_filename ym.1 ym.2 None) <$> year_months)
         ++ [months_filename year_months (opt_output args)])%list
    ∧ last (stdout σ')
      = Some ("Combined report: "
              +:+ months_filename year_months (opt_output args)).
Proof.
  intros Hparse Hlen Htoken Hmerchant Hapi _ Hv Hw Hwc.
  destruct (main_runs_reports w args σ _ Hparse Htoken Hmerchant)
    as (σ1 & -> & Hreq1 & Hfiles1).
  rewrite (run_reports_several _ _ _ _ _ _ Hlen). unfold try_except.
  change (CloverAPI_init _ _ _) with (client_of w args).
  cbv zeta. unfold mbind at 1. unfold M_bind at 1. rewrite print_eq.
  unfold mbind at 1. unfold M_bind at 1. rewrite print_eq.
  set (σ2 := with_stdout (with_stdout σ1 _) _).
  destruct (export_each_effects w (client_of w args) year_months σ2 Hapi Hv Hw)
    as (σ3 & Heach & Hreq3 & Hfiles3).
  unfold mbind at 1. unfold M_bind at 1. rewrite Heach.
  unfold mbind at 1. unfold M_bind at 1. rewrite print_eq.
  set (σ4 := with_stdout σ3 _).
  destruct (months_data_effects w (client_of w args) year_months σ4 Hapi Hv)
    as (rss & σ5 & Hdata & Hreq5 & Hfiles5).
  unfold mbind at 1. unfold M_bind at 1.
  rewrite (export_multiple_unfold _ _ _ _ _ _ _ Hdata Hwc).
  unfold mbind at 1. unfold M_bind at 1. rewrite print_eq.
  unfold mbind at 1. unfold M_bind at 1. rewrite print_eq.
  unfold mbind at 1. unfold M_bind at 1. rewrite print_all_eq.
  rewrite print_eq.
  eexists. split; [reflexivity|].
  cbn [requests files stdout with_stdout with_file].
  split_and!.
  - rewrite Hreq5. subst σ4. cbn [requests with_stdout]. rewrite Hreq3.
    subst σ2. cbn [requests with_stdout]. rewrite Hreq1, <- app_assoc.
    f_equal. rewrite <- replicate_add. f_equal. lia.
  - rewrite fmap_app, Hfiles5. subst σ4. cbn [files with_stdout].
    rewrite Hfiles3. subst σ2. cbn [files with_stdout].
    by rewrite Hfiles1, <- app_assoc.
  - by rewrite last_snoc.
Qed.

Lemma main_several_months_report_witness :
  ∃ σ',
    main sample_world (flags_for "1,2" (Some "winter.csv")) no_output
    = (Ok (), σ')
    ∧ length (requests σ') = 4%nat
    ∧ (files σ').*1
      = ["clover_monthly_data_2025_01.csv"; "clover_monthly_data_2025_02.csv";
         "winter.csv"].
Proof.
  assert (Hv : Forall (fun ym => valid_window ym.1 ym.2) [(2025, 1); (2025, 2)]).
  { repeat (apply Forall_cons; split);
      [exact valid_window_2025_1 | exact valid_window_2025_2 | constructor]. }
  assert (Hw : Forall (fun ym => writable sample_world
                                   (month_filename ym.1 ym.2 None) = true)
                 [(2025, 1); (2025, 2)]).
  { repeat (apply Forall_cons; split); [reflexivity | reflexivity | constructor]. }
  assert (Hlen : length [(2025, 1); (2025, 2)] ≠ 1%nat) by (cbn; lia).
  destruct (main_several_months_report sample_world
              (flags_for "1,2" (Some "winter.csv")) no_output
              [(2025, 1); (2025, 2)] eq_refl Hlen eq_refl eq_refl
              sample_world_ok sample_world_modest Hv Hw eq_refl)
    as (σ' & Hmain & Hreq & Hfiles & _).
  exists σ'. split; [exact Hmain|]. split.
  - rewrite Hreq. reflexivity.
  - rewrite Hfiles. reflexivity.
Defined.

(** ** A year the calendar does not have *)




(** ** The combined report and the monthly ones *)

Lemma make_request_steady w self endpoint σ σ0 :
  steady_api w →
  (_make_request w self endpoint σ).1 = (_make_request w self endpoint σ0).1.
Proof.
  intros Hs.
  pose proof (Hs (length (requests σ)) (length (requests σ0))
                (request_to self endpoint)) as Heq.
  destruct (http w (length (requests σ0)) (request_to self endpoint))
    as [r | msg] eqn:Hhttp.
  - destruct (error_status (status_code r)) eqn:Hst.
    + by rewrite (make_request_error_status _ _ _ _ _ Heq Hst),
        (make_request_error_status _ _ _ _ _ Hhttp Hst).
    + destruct (json_body r) as [j|] eqn:Hj.
      * by rewrite (make_request_json _ _ _ _ _ _ Heq Hst Hj),
          (make_request_json _ _ _ _ _ _ Hhttp Hst Hj).
      * by rewrite (make_request_not_json _ _ _ _ _ Heq Hst Hj),
          (make_request_not_json _ _ _ _ _ Hhttp Hst Hj).
  - by rewrite (make_request_network_failure _ _ _ _ _ Heq),
      (make_request_network_failure _ _ _ _ _ Hhttp).
Qed.

Lemma get_closeouts_steady w self year month σ σ0 :
  steady_api w →
  (get_closeouts_by_month w self year month σ).1
  = (get_closeouts_by_month w self year month σ0).1.
Proof.
  intros Hs. destruct (decide (valid_window year month)) as [Hv | Hnv].
  - rewrite !get_closeouts_unfold by done.
    pose proof (make_request_steady w self "/batches?limit=901"
                  (with_stdout σ (fetch_banner year month))
                  (with_stdout σ0 (fetch_banner year month)) Hs) as Heq.
    destruct (_make_request w self _ (with_stdout σ _)) as [[j | e] σ1];
      destruct (_make_request w self _ (with_stdout σ0 _)) as [[j0 | e0] σ2];
      cbn [fst] in Heq; try done.
    injection Heq as <-.
    by destruct (_ ≫= _).
  - unfold get_closeouts_by_month.
    by rewrite (month_window_invalid _ _ Hnv).
Qed.

Lemma generate_monthly_steady w self year month σ σ0 :
  steady_api w →
  (generate_monthly_csv_data w self year month σ).1
  = (generate_monthly_csv_data w self year month σ0).1.
Proof.
  intros Hs. pose proof (get_closeouts_steady w self year month σ σ0 Hs) as Heq.
  unfold generate_monthly_csv_data, mbind, M_bind, lift.
  destruct (get_closeouts_by_month w self year month σ) as [[b | e] σ1];
    destruct (get_closeouts_by_month w self year month σ0) as [[b0 | e0] σ2];
    cbn [fst] in Heq; try done.
  - injection Heq as <-.
    destruct (group_batches (tz w) ∅ b); [|done].
    by destruct (monthrange_ndays year month).
  - by injection Heq as <-.
Qed.

Lemma months_data_steady w self year_months σ rss σ1 :
  steady_api w →
  months_data w self year_months σ = (Ok rss, σ1) →
  Forall2 (fun ym rows =>
             ∀ σ0, (generate_monthly_csv_data w self ym.1 ym.2 σ0).1 = Ok rows)
    year_months rss.
Proof.
  intros Hs. revert σ rss σ1.
  induction year_months as [|[year month] rest IH]; intros σ rss σ1.
  - intros [= <- _]. constructor.
  - cbn [months_data]. unfold mbind at 1. unfold M_bind at 1.
    destruct (generate_monthly_csv_data w self year month σ)
      as [[rows | e] σ2] eqn:Hgen; [|done].
    unfold mbind at 1. unfold M_bind at 1.
    destruct (months_data w self rest σ2) as [[others | e] σ3] eqn:Hrest;
      [|done].
    intros [= <- _]. constructor; [|by eapply IH].
    intros σ0. cbn [fst snd].
    by rewrite (generate_monthly_steady w self year month σ0 σ Hs), Hgen.
Qed.

(** X18.  With an API that answers a request the same way whenever it is
    asked, the combined report repeats the monthly reports: its data rows
    are, month after month, the rows [export_monthly_csv] writes for that
    month, whenever and under whatever name it is run. *)
Theorem combined_report_repeats_monthly_reports (w : World) (self : CloverAPI)
    (year_months : list (Z * Z)) (filename : option string)
    (σ σ2 : Output) (name : string) :
  steady_api w →
  export_multiple_months_csv w self year_months filename σ = (Ok name, σ2) →
  ∃ rss grand_total,
    last (files σ2)
    = Some (name,
            [Text "Belle Nails and Spa";
             Text ("Sales for the months of "
                   +:+ join ", "
                         ((fun ym => month_name ym.2 +:+ " " +:+ fmt_d ym.1)
                            <$> year_months));
             csv_header]
            ++ (csv_of_row <$> concat rss) ++ [grand_total])%list
    ∧ Forall2
        (fun ym rows =>
           ∀ other σ0,
             writable w (month_filename ym.1 ym.2 other) = true →
             ∃ σ0',
               export_monthly_csv w self ym.1 ym.2 other σ0
               = (Ok (month_filename ym.1 ym.2 other), σ0')
               ∧ last (files σ0')
                 = Some (month_filename ym.1 ym.2 other,
                         month_report ym.1 ym.2 rows))
        year_months rss.
Proof.
  intros Hs Hexp.
  destruct (export_multiple_inv _ _ _ _ _ _ _ Hexp)
    as (rss & σ1 & Hdata & -> & Hfiles).
  exists rss. eexists. split.
  - rewrite Hfiles. by rewrite last_snoc.
  - eapply Forall2_impl; [exact (months_data_steady _ _ _ _ _ _ Hs Hdata)|].
    intros [year month] rows Hrows other σ0 Hw. cbn [fst snd] in *.
    specialize (Hrows σ0).
    destruct (generate_monthly_csv_data w self year month σ0)
      as [r σ0'] eqn:Hgen. cbn [fst] in Hrows. subst r.
    rewrite (export_monthly_unfold _ _ _ _ _ _ _ _ Hgen Hw).
    eexists. split; [reflexivity|].
    cbn [files with_stdout with_file]. by rewrite last_snoc.
Qed.

Lemma sample_world_steady : steady_api sample_world.
Proof. by intros n m req. Qed.

Lemma combined_report_repeats_monthly_reports_witness :
  ∃ σ2 (rss : list (list Row)),
    export_multiple_months_csv sample_world sample_api [(2025, 1); (2025, 2)]
      None no_output
    = (Ok "clover_combined_months_2025_01_2025_02.csv", σ2)
    ∧ length rss = 2%nat.
Proof.
  assert (Hv : Forall (fun ym => valid_window ym.1 ym.2) [(2025, 1); (2025, 2)]).
  { repeat (apply Forall_cons; split);
      [exact valid_window_2025_1 | exact valid_window_2025_2 | constructor]. }
  destruct (months_data_wf sample_world sample_api [(2025, 1); (2025, 2)]
              no_output sample_world_ok Hv) as (rss0 & σ1 & Hdata & _ & _).
  pose proof (export_multiple_unfold sample_world sample_api
                [(2025, 1); (2025, 2)] None no_output rss0 σ1 Hdata eq_refl)
    as Hexp.
  destruct (combined_report_repeats_monthly_reports sample_world sample_api
              [(2025, 1); (2025, 2)] None no_output _ _ sample_world_steady Hexp)
    as (rss & grand_total & _ & Hall).
  eexists _, rss. split; [exact Hexp|].
  symmetry. exact (Forall2_length _ _ _ Hall).
Defined.

(** ** The base URL of the client *)

Lemma list_ascii_of_string_app s t :
  String.list_ascii_of_string (s +:+ t)
  = (String.list_ascii_of_string s ++ String.list_ascii_of_string t)%list.
Proof. induction s as [|c s IH]; [done|]. cbn. by rewrite <- IH. Qed.

Lemma rstrip_slash_aux_snoc l :
  rstrip_slash_aux (l ++ ["/"%char]) = rstrip_slash_aux l.
Proof.
  induction l as [|c l IH]; [done|].
  cbn [app rstrip_slash_aux]. by rewrite IH.
Qed.

Lemma rstrip_slash_aux_last l : last (rstrip_slash_aux l) ≠ Some "/"%char.
Proof.
  induction l as [|c l IH]; [done|]. cbn [rstrip_slash_aux].
  destruct (rstrip_slash_aux l) as [|x l'] eqn:Haux.
  - destruct (Ascii.eqb_spec c "/"%char) as [-> | Hne]; [done|].
    cbn. by intros [= ->].
  - exact IH.
Qed.

(** X19.  The client drops a slash at the end of the base URL it is given:
    with or without it the client is the same, and the base URL it keeps
    never ends with a slash, so that the URL of a request has exactly one
    between the base and [v3]. *)
Theorem base_url_ignores_trailing_slash (token merchant url : string) :
  CloverAPI_init token merchant (url +:+ "/") = CloverAPI_init token merchant url
  ∧ (∀ s, base_url (CloverAPI_init token merchant url) ≠ s +:+ "/")
  ∧ ∀ endpoint,
      req_url (request_to (CloverAPI_init token merchant url) endpoint)
      = rstrip_slash url +:+ "/v3/merchants/" +:+ merchant +:+ endpoint.
Proof.
  split_and!.
  - unfold CloverAPI_init, rstrip_slash. f_equal.
    by rewrite list_ascii_of_string_app, rstrip_slash_aux_snoc.
  - intros s Heq. cbn [CloverAPI_init base_url] in Heq. unfold rstrip_slash in Heq.
    apply (f_equal String.list_ascii_of_string) in Heq.
    rewrite String.list_ascii_of_string_of_list_ascii,
      list_ascii_of_string_app in Heq.
    apply (rstrip_slash_aux_last (String.list_ascii_of_string url)).
    rewrite Heq. cbn. by rewrite last_snoc.
  - done.
Qed.

(** ** The order of the batches *)









(** ** The month reported by default *)

(** X21.  Without [--year] and [--month], the month [main] goes on with is
    the calendar month before today's: December of last year in January. *)
Theorem default_month_is_previous_month (w : World) (args : Argv) :
  opt_year args = None → opt_month args = None →
  1 ≤ dt_month (today w) ≤ 12 →
  parse_months (year_argument w args) (month_argument w args)
  = Months [if dt_month (today w) =? 1 then (dt_year (today w) - 1, 12)
            else (dt_year (today w), dt_month (today w) - 1)].
Proof.
  intros Hy Hm Hrange. unfold year_argument, month_argument.
  rewrite Hy, Hm. cbn [default].
  generalize (dt_year (today w)). intros y.
  assert (Hcases : Exists (fun m => dt_month (today w) = m) (seqZ 1 12)).
  { apply Exists_exists. exists (dt_month (today w)). split; [|done].
    apply elem_of_seqZ. lia. }
  repeat (apply Exists_cons in Hcases as [-> | Hcases]; [reflexivity|]).
  by apply Exists_nil in Hcases.
Qed.

Lemma default_month_is_previous_month_witness :
  parse_months (year_argument sample_world no_flags)
    (month_argument sample_world no_flags)
  = Months [(2025, 1)].
Proof.
  assert (Hrange : 1 ≤ dt_month (today sample_world) ≤ 12) by (cbn; lia).
  exact (default_month_is_previous_month sample_world no_flags eq_refl eq_refl
           Hrange).
Defined.

(** ** A batch that cannot be summarised *)

Lemma group_batches_Raise tz daily_data batches :
  Exists (fun batch => ¬ is_Ok (_format_single_batch tz batch)) batches →
  ∃ e, group_batches tz daily_data batches = Raise e.
Proof.
  intros Hex. destruct (group_batches tz daily_data batches) as [m|e] eqn:Hg;
    [|by eexists].
  destruct (group_batches_inv _ _ _ _ Hg) as (infos & Hsum & _).
  exfalso. clear Hg. revert infos Hsum.
  induction Hex as [batch l Hbad | batch l _ IH]; intros infos; cbn [summaries].
  - destruct (_format_single_batch tz batch) as [i|]; [|done].
    destruct Hbad. by eexists.
  - destruct (_format_single_batch tz batch) as [i|]; cbn [mbind result_bind];
      [|done].
    destruct (summaries tz l) as [infos0|]; cbn [mbind result_bind]; [|done].
    intros _. by eapply IH.
Qed.

(** X22.  One fetched batch that [_format_single_batch] cannot summarise
    fails the whole monthly report: [export_monthly_csv] raises after the
    fetch, and no file is written. *)
Theorem bad_batch_fails_the_report (w : World) (self : CloverAPI)
    (year month : Z) (filename : option string) (σ σ1 : Output)
    (batches : list json) :
  get_closeouts_by_month w self year month σ = (Ok batches, σ1) →
  Exists (fun batch => ¬ is_Ok (_format_single_batch (tz w) batch)) batches →
  ∃ e,
    export_monthly_csv w self year month filename σ = (Raise e, σ1)
    ∧ files σ1 = files σ.
Proof.
  intros Hget Hbad.
  destruct (group_batches_Raise (tz w) ∅ batches Hbad) as [e He].
  exists e. split.
  - unfold export_monthly_csv, generate_monthly_csv_data.
    unfold mbind, M_bind, lift. by rewrite Hget, He.
  - pose proof (get_closeouts_Ok_valid _ _ _ _ _ _ _ Hget) as Hv.
    pose proof (get_closeouts_effects w self year month σ Hv) as [_ Hfiles].
    by rewrite Hget in Hfiles.
Qed.

Lemma bad_batch_fails_the_report_witness :
  ∃ e σ1,
    export_monthly_csv
      (world_with (Answered (page 200 [sample_batch; garbled_batch])))
      sample_api 2025 1 None no_output
    = (Raise e, σ1)
    ∧ files σ1 = [].
Proof.
  destruct (get_closeouts_total
              (world_with (Answered (page 200 [sample_batch; garbled_batch])))
              sample_api 2025 1 no_output valid_window_2025_1)
    as (batches & σ1 & Hget).
  assert (Hb : batches = [sample_batch; garbled_batch]).
  { pose proof Hget as H. vm_compute in H. injection H as <- _.
    vm_compute. reflexivity. }
  subst batches.
  destruct (bad_batch_fails_the_report _ _ _ _ None _ _ _ Hget) as (e & He & Hf).
  - apply Exists_cons_tl, Exists_cons_hd. intros [row Hrow].
    vm_compute in Hrow. discriminate Hrow.
  - exists e, σ1. split; [exact He | exact Hf].
Defined.
